(** * Cold-email assistant: extraction and matching core

    A shallow embedding of the heuristic extraction and matching code of
    the repository ([utils.py], [rag_system.py], [resume_parser.py],
    [job_extractor.py]) together with the properties its specification
    states about it.

    Conventions of the embedding.
    - A Python [str] is a [string]; a character is a code point in
      0..255 and the character classes ([str.isspace], [\w], [str.lower])
      are those of Python on that range.
    - A Python [float] is the rational it stands for.  The percentage of
      [get_skill_matches] is computed as the code computes it: the
      quotient and the product are rounded to binary64 ([Py.fl]) and
      [round(x, 2)] rounds the exact value of that float to hundredths,
      ties to even.  The ratios of [_calculate_relevance_score] and of
      [app.py], of which only the range and the values 0 and 1 are used,
      are exact quotients.
    - A [dict] with a fixed set of keys is a record of optional fields.
    - Objects that the code mutates in place live in a store addressed by
      references, so that aliasing is visible. *)

From Stdlib Require Import Bool Arith ZArith QArith Qround Qabs Qpower Lia Lqa.
From Stdlib Require Import Ascii String List Permutation Sorted.
Import ListNotations.
Open Scope string_scope.
Open Scope list_scope.
Open Scope nat_scope.

(* ================================================================== *)
(** ** Python strings *)
(* ================================================================== *)

Module Py.

Definition code (c : ascii) : nat := nat_of_ascii c.

Definition between (lo hi n : nat) : bool := (lo <=? n) && (n <=? hi).

(** [str.isspace] for one character; also the class [\s] of [re]. *)
Definition is_space (c : ascii) : bool :=
  let n := code c in
  between 9 13 n || between 28 32 n || (n =? 133) || (n =? 160).

(** The class [\w] of [re] on [str] patterns. *)
Definition is_word (c : ascii) : bool :=
  let n := code c in
  between 48 57 n || between 65 90 n || (n =? 95) || between 97 122 n
  || (n =? 170) || between 178 179 n || (n =? 181) || between 185 186 n
  || between 188 190 n || between 192 214 n || between 216 246 n
  || between 248 255 n.

Definition is_digit (c : ascii) : bool := between 48 57 (code c).

Definition is_upper (c : ascii) : bool :=
  let n := code c in
  between 65 90 n || between 192 214 n || between 216 222 n.

Definition is_lower (c : ascii) : bool :=
  let n := code c in
  between 97 122 n || between 224 246 n || between 248 254 n.

(** The characters that have a case, as [str.title] sees them. *)
Definition is_cased (c : ascii) : bool :=
  let n := code c in
  between 65 90 n || between 97 122 n || (n =? 170) || (n =? 181) || (n =? 186)
  || between 192 214 n || between 216 246 n || between 248 255 n.

Definition lower_char (c : ascii) : ascii :=
  if is_upper c then ascii_of_nat (code c + 32) else c.

Definition upper_char (c : ascii) : ascii :=
  if is_lower c then ascii_of_nat (code c - 32) else c.

(** [s.lower()] *)
Fixpoint lower (s : string) : string :=
  match s with
  | EmptyString => EmptyString
  | String c s' => String (lower_char c) (lower s')
  end.

(** [s.title()]: a cased character is capitalised when the character
    before it is not cased and lowered otherwise.  The capital of
    code point 223 is the two characters [Ss].  The capitals of code
    points 181 and 255 lie outside the range of the embedding: [title] is
    a model of [str.title] for the strings without these two characters,
    which it keeps as they are. *)
Fixpoint title_aux (prev_cased : bool) (s : string) : string :=
  match s with
  | EmptyString => EmptyString
  | String c s' =>
      let rest := title_aux (is_cased c) s' in
      if prev_cased then String (lower_char c) rest
      else if code c =? 223 then String "S" (String "s" rest)
      else String (upper_char c) rest
  end.

Definition title (s : string) : string := title_aux false s.

Fixpoint lstrip (s : string) : string :=
  match s with
  | EmptyString => EmptyString
  | String c s' => if is_space c then lstrip s' else s
  end.

Fixpoint rstrip (s : string) : string :=
  match s with
  | EmptyString => EmptyString
  | String c s' =>
      match rstrip s' with
      | EmptyString => if is_space c then EmptyString else String c EmptyString
      | r => String c r
      end
  end.

(** [s.strip()] *)
Definition strip (s : string) : string := rstrip (lstrip s).

(** The truth value of a string: [if s:] *)
Definition truthy (s : string) : bool :=
  match s with EmptyString => false | _ => true end.

(** [sub in s] *)
Fixpoint contains (sub s : string) : bool :=
  prefix sub s ||
  match s with
  | EmptyString => false
  | String _ s' => contains sub s'
  end.

(** What [sub in s] decides: [sub] occurs in [s]. *)
Definition occurs_in (sub s : string) : Prop :=
  exists p q, s = String.append p (String.append sub q).

(** [c in s] for a single character [c] *)
Fixpoint has_char (c : ascii) (s : string) : bool :=
  match s with
  | EmptyString => false
  | String a s' => Ascii.eqb a c || has_char c s'
  end.

(** Every character of [s] is in the class [p]. *)
Fixpoint all_chars (p : ascii -> bool) (s : string) : bool :=
  match s with
  | EmptyString => true
  | String a s' => p a && all_chars p s'
  end.

(** [x in l] for a list of strings *)
Definition mem (x : string) (l : list string) : bool :=
  existsb (String.eqb x) l.

(** [s.split()]: the maximal runs of non-space characters. *)
Fixpoint split_ws_aux (cur : string) (s : string) : list string :=
  match s with
  | EmptyString => if truthy cur then [cur] else []
  | String c s' =>
      if is_space c
      then (if truthy cur then cur :: split_ws_aux EmptyString s'
            else split_ws_aux EmptyString s')
      else split_ws_aux (String.append cur (String c EmptyString)) s'
  end.

Definition split_ws (s : string) : list string := split_ws_aux EmptyString s.

(** [s.split(sep)] for a one-character separator: empty fields are kept. *)
Fixpoint split_on_aux (sep : ascii) (cur : string) (s : string) : list string :=
  match s with
  | EmptyString => [cur]
  | String c s' =>
      if Ascii.eqb c sep then cur :: split_on_aux sep EmptyString s'
      else split_on_aux sep (String.append cur (String c EmptyString)) s'
  end.

Definition split_on (sep : ascii) (s : string) : list string :=
  split_on_aux sep EmptyString s.

(** [sep.join(l)] *)
Definition join (sep : string) (l : list string) : string :=
  String.concat sep l.

(** [s.replace(old, new)] for a non-empty [old]: occurrences are replaced
    from the left and do not overlap.  [skip] counts the characters of the
    occurrence just replaced that are still to be dropped. *)
Fixpoint replace_aux (old new : string) (skip : nat) (s : string) : string :=
  match s with
  | EmptyString => EmptyString
  | String c s' =>
      match skip with
      | S k => replace_aux old new k s'
      | O =>
          if prefix old s
          then String.append new (replace_aux old new (String.length old - 1) s')
          else String c (replace_aux old new 0 s')
      end
  end.

Definition replace (old new s : string) : string := replace_aux old new 0 s.

(** [len(s)] *)
Definition len (s : string) : Z := Z.of_nat (String.length s).

(** The nearest integer, ties to even. *)
Definition round_half_even (q : Q) : Z :=
  let f := Qfloor q in
  match Qcompare (q - inject_Z f)%Q (1 # 2)%Q with
  | Lt => f
  | Gt => (f + 1)%Z
  | Eq => if Z.even f then f else (f + 1)%Z
  end.

(** [round(x, 2)] for a float [x]: the decimal with two places nearest
    to the exact value of [x], ties to even.  Python returns the float
    nearest to that decimal and prints it as the decimal; the model keeps
    the decimal. *)
Definition round2 (q : Q) : Q := Qmake (round_half_even (q * 100)%Q) 100.

(** *** Floats

    A float is binary64: a significand of 53 bits and a power of two.
    [fl q] is the float nearest to the rational [q], ties to the even
    significand, which is what every arithmetic operation on floats
    returns for its exact result [q].  The exponent range is left out:
    the floats of this program are quotients of list lengths and their
    products with 100, far from overflow and underflow. *)
Definition pow2 (e : Z) : Q := Qpower 2 e.

(** The exponent [e] with [2^e <= a / b < 2^(e+1)]. *)
Definition binade (a b : positive) : Z :=
  let e := (Z.log2 (Zpos a) - Z.log2 (Zpos b))%Z in
  if Qle_bool (pow2 e) (Zpos a # b) then e else (e - 1)%Z.

(** [a / b] scaled to a significand between 2^52 and 2^53, rounded to an
    integer and scaled back. *)
Definition fl_pos (a b : positive) : Q :=
  let shift := (52 - binade a b)%Z in
  (inject_Z (round_half_even ((Zpos a # b) * pow2 shift)) * pow2 (- shift))%Q.

Definition fl (q : Q) : Q :=
  match Qred q with
  | Qmake Z0 _ => 0%Q
  | Qmake (Zpos a) b => fl_pos a b
  | Qmake (Zneg a) b => (- fl_pos a b)%Q
  end.

(** [x / y] and [x * y] on floats; also [m / n] on integers, which
    Python rounds correctly as well. *)
Definition fdiv (x y : Q) : Q := fl (x / y).
Definition fmul (x y : Q) : Q := fl (x * y).

End Py.

(* ================================================================== *)
(** ** The fragment of Python's [re] that the program uses *)
(* ================================================================== *)

Module Re.

(** Patterns.  [Chr p] is a character class, [Lit s] a literal word,
    [Star p] the greedy repetition of a class ([\s*], [.*]) and [Bnd] the
    word boundary [\b]. *)
Inductive regex : Type :=
| Chr (p : ascii -> bool)
| Lit (s : string)
| Seq (r1 r2 : regex)
| Alt (r1 r2 : regex)
| Star (p : ascii -> bool)
| Bnd.

Definition Plus (p : ascii -> bool) : regex := Seq (Chr p) (Star p).

(** [.] : any character but a newline *)
Definition dot (c : ascii) : bool := negb (Py.code c =? 10).

Definition one_of (chars : string) (c : ascii) : bool :=
  existsb (Ascii.eqb c) (list_ascii_of_string chars).

Definition word_before (prev : option ascii) : bool :=
  match prev with Some c => Py.is_word c | None => false end.

Definition word_after (s : string) : bool :=
  match s with String c _ => Py.is_word c | EmptyString => false end.

(** [\b] holds between a word character and a non-word character (or an
    end of the string). *)
Definition at_boundary (prev : option ascii) (s : string) : bool :=
  xorb (word_before prev) (word_after s).

Section Matcher.

(** [re.IGNORECASE] *)
Variable icase : bool.
Context {A : Type}.

(** A continuation receives the last character consumed and the rest of
    the subject; alternatives are tried in the order of a backtracking
    matcher. *)
Definition cont : Type := option ascii -> string -> option A.

Definition chr_eq (a c : ascii) : bool :=
  if icase then Ascii.eqb (Py.lower_char a) (Py.lower_char c)
  else Ascii.eqb a c.

Fixpoint run_lit (l : string) (prev : option ascii) (s : string) (k : cont)
  : option A :=
  match l with
  | EmptyString => k prev s
  | String a l' =>
      match s with
      | String c s' => if chr_eq a c then run_lit l' (Some c) s' k else None
      | EmptyString => None
      end
  end.

Fixpoint run_star (p : ascii -> bool) (prev : option ascii) (s : string)
  (k : cont) : option A :=
  match s with
  | String c s' =>
      if p c
      then match run_star p (Some c) s' k with
           | Some x => Some x
           | None => k prev s
           end
      else k prev s
  | EmptyString => k prev s
  end.

Fixpoint run (r : regex) (prev : option ascii) (s : string) (k : cont)
  : option A :=
  match r with
  | Chr p =>
      match s with
      | String c s' => if p c then k (Some c) s' else None
      | EmptyString => None
      end
  | Lit l => run_lit l prev s k
  | Seq r1 r2 => run r1 prev s (fun prev' s' => run r2 prev' s' k)
  | Alt r1 r2 =>
      match run r1 prev s k with
      | Some x => Some x
      | None => run r2 prev s k
      end
  | Star p => run_star p prev s k
  | Bnd => if at_boundary prev s then k prev s else None
  end.

End Matcher.

(** The match of [r] that starts at the current position, if any: the
    last character consumed and what follows the match. *)
Definition match_here (icase : bool) (r : regex) (prev : option ascii) (s : string)
  : option (option ascii * string) :=
  run icase r prev s (fun prev' s' => Some (prev', s')).

Fixpoint search_from (icase : bool) (r : regex) (prev : option ascii) (s : string)
  : bool :=
  match match_here icase r prev s with
  | Some _ => true
  | None =>
      match s with
      | String c s' => search_from icase r (Some c) s'
      | EmptyString => false
      end
  end.

(** [re.search(r, s)] as a truth value *)
Definition search (icase : bool) (r : regex) (s : string) : bool :=
  search_from icase r None s.

(** [re.sub(r, repl, s)].  Every pattern the program substitutes matches
    at least one character; a match that consumes nothing is passed over.
    Each step consumes a character, so [fuel] above the length of the
    subject is never used up. *)
Fixpoint sub_aux (fuel : nat) (icase : bool) (r : regex) (repl : string)
  (prev : option ascii) (s : string) : string :=
  match fuel with
  | O => s
  | S fuel' =>
      match s with
      | EmptyString => EmptyString
      | String c s' =>
          match match_here icase r prev s with
          | Some (prev', rest) =>
              if String.length rest <? String.length s
              then String.append repl (sub_aux fuel' icase r repl prev' rest)
              else String c (sub_aux fuel' icase r repl (Some c) s')
          | None => String c (sub_aux fuel' icase r repl (Some c) s')
          end
      end
  end.

Definition sub (icase : bool) (r : regex) (repl s : string) : string :=
  sub_aux (S (String.length s)) icase r repl None s.

End Re.

(* ================================================================== *)
(** ** utils.py *)
(* ================================================================== *)

Module Utils.

Definition SUPPORTED_FILE_TYPES : list string := [".pdf"; ".docx"; ".doc"].

Definition MAX_FILE_SIZE : Z := (10 * 1024 * 1024)%Z.

(** The characters that the second substitution of [clean_text] keeps:
    the complement of the class
    [[^\w\s\.\,\!\?\:\;\-\(\)]]. *)
Definition kept_char (c : ascii) : bool :=
  Py.is_word c || Py.is_space c || Re.one_of ".,!?:;-()" c.

(** [clean_text(text)]; [None] is an absent argument. *)
Definition clean_text (text : option string) : string :=
  match text with
  | None => EmptyString
  | Some text =>
      if negb (Py.truthy text) then EmptyString
      else
        let text := Re.sub false (Re.Plus Py.is_space) " " text in
        let text := Re.sub false (Re.Chr (fun c => negb (kept_char c))) EmptyString text in
        Py.strip text
  end.

Definition skill_keywords : list string :=
  [ "python"; "java"; "javascript"; "react"; "angular"; "vue"; "node.js";
    "sql"; "mongodb"; "postgresql"; "mysql"; "aws"; "azure"; "gcp";
    "docker"; "kubernetes"; "git"; "machine learning"; "ai"; "deep learning";
    "tensorflow"; "pytorch"; "scikit-learn"; "pandas"; "numpy"; "matplotlib";
    "html"; "css"; "bootstrap"; "jquery"; "django"; "flask"; "fastapi";
    "spring"; "hibernate"; "maven"; "gradle"; "jenkins"; "ci/cd";
    "agile"; "scrum"; "jira"; "confluence"; "rest api"; "graphql";
    "microservices"; "serverless"; "lambda"; "s3"; "ec2"; "rds" ].

(** [extract_skills_from_text(text)].  The source returns
    [list(set(found_skills))]: duplicates are dropped and the order of the
    result is not fixed, so a result is read as a set (see [same_set]). *)
Definition extract_skills_from_text (text : string) : list string :=
  let text_lower := Py.lower text in
  let found_skills := filter (fun skill => Py.contains skill text_lower) skill_keywords in
  nodup string_dec found_skills.

(** Equality of two results of [extract_skills_from_text] as sets. *)
Definition same_set (a b : list string) : Prop :=
  forall x, In x a <-> In x b.

(** [s.rfind(c)]: the last index of [c], or -1. *)
Fixpoint rfind_aux (c : ascii) (i : Z) (last : Z) (s : string) : Z :=
  match s with
  | EmptyString => last
  | String a s' => rfind_aux c (i + 1)%Z (if Ascii.eqb a c then i else last) s'
  end.

Definition rfind (c : ascii) (s : string) : Z := rfind_aux c 0%Z (-1)%Z s.

(** [s[i:j]] for [0 <= i <= j] *)
Definition slice (i j : Z) (s : string) : string :=
  String.substring (Z.to_nat i) (Z.to_nat (j - i)) s.

(** [os.path.splitext(p)[1]] (POSIX): the extension starts at the last dot
    of the last path component, unless only dots precede it there. *)
Definition splitext_ext (p : string) : string :=
  let sepIndex := rfind "/" p in
  let dotIndex := rfind "." p in
  if (sepIndex <? dotIndex)%Z
  then
    let leading := slice (sepIndex + 1) dotIndex p in
    if existsb (fun c => negb (Ascii.eqb c ".")) (list_ascii_of_string leading)
    then slice dotIndex (Py.len p) p
    else EmptyString
  else EmptyString.

Definition get_file_extension (filename : string) : string :=
  Py.lower (splitext_ext filename).

(** The uploaded file object, as far as the program reads it. *)
Record uploaded_file := {
  name : string;
  size : Z
}.

(** The reasons [validate_file_upload] gives in its ["error"] entry. *)
Inductive upload_error : Type :=
| NoFileSelected
| UnsupportedFileType
| FileTooLarge.

Record validation := {
  valid : bool;
  error : option upload_error
}.

Definition validate_file_upload (file : option uploaded_file) : validation :=
  match file with
  | None => {| valid := false; error := Some NoFileSelected |}
  | Some f =>
      let file_extension := get_file_extension (name f) in
      if negb (Py.mem file_extension SUPPORTED_FILE_TYPES)
      then {| valid := false; error := Some UnsupportedFileType |}
      else if (MAX_FILE_SIZE <? size f)%Z
      then {| valid := false; error := Some FileTooLarge |}
      else {| valid := true; error := None |}
  end.

(** Modelled from the library: [urlparse(url).netloc] of [urllib.parse]
    (CPython 3.11), on the character range of the embedding.  Leading
    spaces and control characters are stripped and tabs and line breaks
    removed.  After an optional scheme (a letter, then letters, digits,
    [+], [-], [.], up to the first colon) a URL that goes on with [//]
    has as network location everything up to the first [/], [?] or [#].
    [None] is the [ValueError] raised for a network location with one
    bracket only, or with both and a host that is no IPv6 or IPvFuture
    literal in brackets. *)
Definition is_ascii_letter (c : ascii) : bool :=
  Py.between 65 90 (Py.code c) || Py.between 97 122 (Py.code c).

Definition scheme_char (c : ascii) : bool :=
  is_ascii_letter c || Py.is_digit c || Re.one_of "+-." c.

Fixpoint after_scheme (rest : string) (first : bool) : option string :=
  match rest with
  | EmptyString => None
  | String c rest' =>
      if Ascii.eqb c ":" then (if first then None else Some rest')
      else if (if first then is_ascii_letter c else scheme_char c)
      then after_scheme rest' false
      else None
  end.

Fixpoint until_delim (s : string) : string :=
  match s with
  | EmptyString => EmptyString
  | String c s' => if Re.one_of "/?#" c then EmptyString else String c (until_delim s')
  end.

(** [url.lstrip(_WHATWG_C0_CONTROL_OR_SPACE)] *)
Fixpoint lstrip_c0 (url : string) : string :=
  match url with
  | EmptyString => EmptyString
  | String c url' => if Py.code c <=? 32 then lstrip_c0 url' else url
  end.

(** The tabs, carriage returns and line feeds are removed. *)
Fixpoint remove_unsafe (url : string) : string :=
  match url with
  | EmptyString => EmptyString
  | String c url' =>
      if (Py.code c =? 9) || (Py.code c =? 13) || (Py.code c =? 10)
      then remove_unsafe url'
      else String c (remove_unsafe url')
  end.

(** [s.partition(c)]: the text before the first [c], whether there is
    one, and the text after it. *)
Fixpoint partition (c : ascii) (s : string) : string * bool * string :=
  match s with
  | EmptyString => (EmptyString, false, EmptyString)
  | String a s' =>
      if Ascii.eqb a c then (EmptyString, true, s')
      else let '(before, found, after) := partition c s' in
           (String a before, found, after)
  end.

(** [s.rpartition(c)[2]]: the text after the last [c]. *)
Fixpoint after_last (c : ascii) (s : string) : string :=
  match s with
  | EmptyString => EmptyString
  | String a s' =>
      if Py.has_char c s' then after_last c s'
      else if Ascii.eqb a c then s' else s
  end.

(** [int(s)] of a string of decimal digits *)
Definition decimal (s : string) : N :=
  fold_left (fun n c => (10 * n + (N_of_ascii c - 48))%N) (list_ascii_of_string s) 0%N.

(** [ipaddress]: [_parse_octet] succeeds *)
Definition octet_ok (octet_str : string) : bool :=
  Py.truthy octet_str
  && Py.all_chars Py.is_digit octet_str
  && (String.length octet_str <=? 3)
  && (String.eqb octet_str "0" || negb (prefix "0" octet_str))
  && (decimal octet_str <=? 255)%N.

(** [IPv4Address(s)] succeeds *)
Definition ipv4_ok (ip_str : string) : bool :=
  negb (Py.has_char "/" ip_str)
  && Py.truthy ip_str
  && (let octets := Py.split_on "." ip_str in
      (List.length octets =? 4) && forallb octet_ok octets).

Definition hex_digit (c : ascii) : bool :=
  Re.one_of "0123456789ABCDEFabcdef" c.

(** [_parse_hextet] succeeds *)
Definition hextet_ok (hextet_str : string) : bool :=
  Py.all_chars hex_digit hextet_str
  && (String.length hextet_str <=? 4)
  && Py.truthy hextet_str.

(** The indices [i], counted from [first], of the empty strings of a
    list. *)
Fixpoint empty_at (first : nat) (parts : list string) : list nat :=
  match parts with
  | [] => []
  | part :: rest =>
      if Py.truthy part then empty_at (S first) rest
      else first :: empty_at (S first) rest
  end.

(** [IPv6Address._ip_int_from_string] succeeds.  The two groups that
    replace an IPv4 suffix are valid whatever the address; here they are
    both ["0"]. *)
Definition ipv6_parts_ok (parts : list string) : bool :=
  let n := List.length parts in
  if 9 <? n then false
  else
    let first_empty := negb (Py.truthy (hd EmptyString parts)) in
    let last_empty := negb (Py.truthy (last parts EmptyString)) in
    match empty_at 1 (removelast (tl parts)) with
    | _ :: _ :: _ => false
    | [skip_index] =>
        let parts_hi := skip_index in
        let parts_lo := n - skip_index - 1 in
        let parts_hi := if first_empty then parts_hi - 1 else parts_hi in
        if first_empty && negb (parts_hi =? 0) then false
        else
          let parts_lo' := if last_empty then parts_lo - 1 else parts_lo in
          if last_empty && negb (parts_lo' =? 0) then false
          else if 8 - (parts_hi + parts_lo') <? 1 then false
          else forallb hextet_ok (firstn parts_hi parts)
               && forallb hextet_ok (skipn (n - parts_lo') parts)
    | [] =>
        if negb (n =? 8) then false
        else if first_empty then false
        else if last_empty then false
        else forallb hextet_ok parts
    end.

Definition ipv6_ok (ip_str : string) : bool :=
  if negb (Py.truthy ip_str) then false
  else
    let parts := Py.split_on ":" ip_str in
    if List.length parts <? 3 then false
    else if Py.has_char "." (last parts EmptyString)
    then ipv4_ok (last parts EmptyString)
         && ipv6_parts_ok (removelast parts ++ ["0"; "0"])
    else ipv6_parts_ok parts.

(** [IPv6Address(s)] succeeds: an optional scope after [%], not empty
    and without a second [%]. *)
Definition ipv6_address_ok (addr_str : string) : bool :=
  if Py.has_char "/" addr_str then false
  else
    let '(addr, sep, scope_id) := partition "%" addr_str in
    if sep && (negb (Py.truthy scope_id) || Py.has_char "%" scope_id)
    then false
    else ipv6_ok addr.

(** [\Av[a-fA-F0-9]+\..+\Z] *)
Definition ipvfuture_re : Re.regex :=
  Re.Seq (Re.Lit "v")
    (Re.Seq (Re.Plus (Re.one_of "abcdefABCDEF0123456789"))
       (Re.Seq (Re.Lit ".") (Re.Plus Re.dot))).

Definition at_end (_ : option ascii) (rest : string) : option unit :=
  match rest with EmptyString => Some tt | _ => None end.

(** [_check_bracketed_host] returns without raising *)
Definition check_bracketed_host (hostname : string) : bool :=
  if prefix "v" hostname
  then match Re.run false ipvfuture_re None hostname at_end with
       | Some _ => true
       | None => false
       end
  else if ipv4_ok hostname then false
  else ipv6_address_ok hostname.

(** [_check_bracketed_netloc] returns without raising *)
Definition check_bracketed_netloc (netloc : string) : bool :=
  let hostname_and_port := after_last "@" netloc in
  let '(before_bracket, have_open_br, bracketed) := partition "[" hostname_and_port in
  if have_open_br
  then
    if Py.truthy before_bracket then false
    else
      let '(hostname, _, port) := partition "]" bracketed in
      if Py.truthy port && negb (prefix ":" port) then false
      else check_bracketed_host hostname
  else
    let '(hostname, _, _) := partition ":" hostname_and_port in
    check_bracketed_host hostname.

Definition urlparse_netloc (url : string) : option string :=
  let url := remove_unsafe (lstrip_c0 url) in
  let url := match after_scheme url true with Some rest => rest | None => url end in
  match url with
  | String "/" (String "/" rest) =>
      let netloc := until_delim rest in
      if xorb (Py.contains "[" netloc) (Py.contains "]" netloc)
      then None
      else if Py.contains "[" netloc && Py.contains "]" netloc
              && negb (check_bracketed_netloc netloc)
      then None
      else Some netloc
  | _ => Some EmptyString
  end.

(** [l[0]] of a list that [split] returned (never empty) *)
Definition first_field (l : list string) : string := hd EmptyString l.

Definition extract_company_name_from_url (url : string) : string :=
  match urlparse_netloc url with
  | None => "Unknown Company"
  | Some netloc =>
      let domain := Py.lower netloc in
      let domain :=
        Py.replace ".org" "" (Py.replace ".com" "" (Py.replace "www." "" domain)) in
      if Py.contains "linkedin.com" domain then "LinkedIn"
      else if Py.contains "indeed.com" domain then "Indeed"
      else if Py.contains "glassdoor.com" domain then "Glassdoor"
      else Py.title (first_field (Py.split_on "." domain))
  end.

End Utils.

(* ================================================================== *)
(** ** The dictionaries that the parsers build and the matcher reads *)
(* ================================================================== *)

Module Records.

(** An entry of the ["experience"] list.  [relevance_score] is the key
    that [get_relevant_experience] writes; the parser never sets it. *)
Record experience := {
  title : option string;
  company : option string;
  period : option string;
  description : option string;
  relevance_score : option Z
}.

Definition empty_experience : experience :=
  {| title := None; company := None; period := None; description := None;
     relevance_score := None |}.

(** An entry of the ["education"] list. *)
Record education := {
  institution : option string;
  degree : option string;
  year : option string;
  gpa : option string
}.

Definition empty_education : education :=
  {| institution := None; degree := None; year := None; gpa := None |}.

(** An entry of the ["projects"] list. *)
Record project := {
  project_name : option string;
  repository : option string;
  project_description : option string
}.

Definition empty_project : project :=
  {| project_name := None; repository := None; project_description := None |}.

Definition is_some {A : Type} (o : option A) : bool :=
  match o with Some _ => true | None => false end.

(** The truth value of a dictionary: it has at least one key. *)
Definition experience_truthy (e : experience) : bool :=
  is_some (title e) || is_some (company e) || is_some (period e)
  || is_some (description e) || is_some (relevance_score e).

Definition education_truthy (e : education) : bool :=
  is_some (institution e) || is_some (degree e) || is_some (year e)
  || is_some (gpa e).

Definition project_truthy (e : project) : bool :=
  is_some (project_name e) || is_some (repository e)
  || is_some (project_description e).

End Records.

(* ================================================================== *)
(** ** rag_system.py: the match engine *)
(* ================================================================== *)

Module RagSystem.

(** The dictionary returned by [get_skill_matches]. *)
Record skill_match := {
  matched_skills : list string;
  missing_skills : list string;
  match_percentage : Q
}.

(** The inner loop of [get_skill_matches]: the first resume skill that
    contains the job skill, or is contained in it, ends the scan. *)
Fixpoint skill_hit (job_skill : string) (resume_skills_normalized : list string) : bool :=
  match resume_skills_normalized with
  | [] => false
  | resume_skill :: rest =>
      if Py.contains job_skill resume_skill || Py.contains resume_skill job_skill
      then true
      else skill_hit job_skill rest
  end.

(** The outer loop: [matched_skills] grows by [append]. *)
Fixpoint match_loop (job_skills_normalized resume_skills_normalized matched : list string)
  : list string :=
  match job_skills_normalized with
  | [] => matched
  | job_skill :: rest =>
      if skill_hit job_skill resume_skills_normalized
      then match_loop rest resume_skills_normalized (matched ++ [job_skill])
      else match_loop rest resume_skills_normalized matched
  end.

Definition normalize_skills (skills : list string) : list string :=
  map (fun skill => Py.strip (Py.lower skill)) skills.

Definition list_len (l : list string) : Q := inject_Z (Z.of_nat (List.length l)).

Definition get_skill_matches (job_skills resume_skills : list string) : skill_match :=
  match job_skills with
  | [] => {| matched_skills := []; missing_skills := []; match_percentage := 0%Q |}
  | _ =>
      let job_skills_normalized := normalize_skills job_skills in
      let resume_skills_normalized := normalize_skills resume_skills in
      let matched := match_loop job_skills_normalized resume_skills_normalized [] in
      let missing :=
        filter (fun skill => negb (Py.mem skill matched)) job_skills_normalized in
      let percentage :=
        Py.fmul (Py.fdiv (list_len matched) (list_len job_skills_normalized)) 100 in
      {| matched_skills := matched;
         missing_skills := missing;
         match_percentage := Py.round2 percentage |}
  end.

(** *** [get_relevant_experience]

    The entries of [resume_experience] are dictionaries that the function
    updates in place.  They live in a store; the list holds references,
    and one dictionary may be listed more than once. *)

Definition ref : Type := nat.

Definition store : Type := ref -> Records.experience.

Definition store_set (h : store) (r : ref) (e : Records.experience) : store :=
  fun r' => if Nat.eqb r' r then e else h r'.

(** [exp['relevance_score'] = relevance_score] *)
Definition set_relevance_score (e : Records.experience) (score : Z) : Records.experience :=
  {| Records.title := Records.title e;
     Records.company := Records.company e;
     Records.period := Records.period e;
     Records.description := Records.description e;
     Records.relevance_score := Some score |}.

(** [any(keyword in text_lower for keyword in requirements_lower.split())] *)
Definition any_keyword_in (requirements_lower text_lower : string) : bool :=
  existsb (fun keyword => Py.contains keyword text_lower)
          (Py.split_ws requirements_lower).

(** [exp.get(key)] followed by the test of its truth value *)
Definition get_truthy (field : option string) : option string :=
  match field with
  | Some s => if Py.truthy s then Some s else None
  | None => None
  end.

(** The body of the loop up to the test [relevance_score > 0]. *)
Definition score_of (requirements_lower : string) (exp : Records.experience) : Z :=
  let relevance_score := 0%Z in
  let relevance_score :=
    match get_truthy (Records.title exp) with
    | Some t =>
        let title_lower := Py.lower t in
        if any_keyword_in requirements_lower title_lower
        then (relevance_score + 2)%Z else relevance_score
    | None => relevance_score
    end in
  let relevance_score :=
    match get_truthy (Records.description exp) with
    | Some d =>
        let desc_lower := Py.lower d in
        if any_keyword_in requirements_lower desc_lower
        then (relevance_score + 1)%Z else relevance_score
    | None => relevance_score
    end in
  relevance_score.

(** The loop over [resume_experience]: the store and the list
    [relevant_experience] are threaded through the iterations. *)
Fixpoint score_loop (requirements_lower : string) (resume_experience : list ref)
  (h : store) (relevant_experience : list ref) : list ref * store :=
  match resume_experience with
  | [] => (relevant_experience, h)
  | exp :: rest =>
      let relevance_score := score_of requirements_lower (h exp) in
      if (0 <? relevance_score)%Z
      then score_loop requirements_lower rest
             (store_set h exp (set_relevance_score (h exp) relevance_score))
             (relevant_experience ++ [exp])
      else score_loop requirements_lower rest h relevant_experience
  end.

(** [x.get('relevance_score', 0)] *)
Definition sort_key (h : store) (x : ref) : Z :=
  match Records.relevance_score (h x) with
  | Some score => score
  | None => 0%Z
  end.

(** [list.sort(key=..., reverse=True)] is a stable sort: of two elements
    with the same key the one that came first stays first.  A stable sort
    has one possible result, which insertion from the right computes. *)
Fixpoint insert_desc (key : ref -> Z) (x : ref) (sorted : list ref) : list ref :=
  match sorted with
  | [] => [x]
  | y :: rest =>
      if (key x <? key y)%Z then y :: insert_desc key x rest
      else x :: sorted
  end.

Fixpoint sort_desc (key : ref -> Z) (l : list ref) : list ref :=
  match l with
  | [] => []
  | x :: rest => insert_desc key x (sort_desc key rest)
  end.

Definition get_relevant_experience (job_requirements : string)
  (resume_experience : list ref) (h : store) : list ref * store :=
  match resume_experience with
  | [] => ([], h)
  | _ =>
      let requirements_lower := Py.lower job_requirements in
      let '(relevant_experience, h') :=
        score_loop requirements_lower resume_experience h [] in
      let relevant_experience := sort_desc (sort_key h') relevant_experience in
      (firstn 3 relevant_experience, h')
  end.

(** *** Vocabulary for the properties of the ranking *)

(** [field] holds a text in which, once lowercased, some
    whitespace-separated word of the lowercased requirements occurs. *)
Definition has_word (job_requirements : string) (field : option string) : Prop :=
  exists text keyword,
    field = Some text /\
    In keyword (Py.split_ws (Py.lower job_requirements)) /\
    Py.occurs_in keyword (Py.lower text).

(** The score in the words of the specification, which lowercases the
    requirements only: the title and the description are searched as they
    are written. *)
Definition score_as_stated (job_requirements : string) (exp : Records.experience)
  : Z :=
  let words_in (field : option string) :=
    match field with
    | Some text => any_keyword_in (Py.lower job_requirements) text
    | None => false
    end in
  ((if words_in (Records.title exp) then 2 else 0)
   + (if words_in (Records.description exp) then 1 else 0))%Z.

(** [a] may stand before [b] in a list sorted by decreasing key. *)
Definition descending (key : ref -> Z) (a b : ref) : Prop := (key b <= key a)%Z.

(** The listed entries that the loop keeps. *)
Definition survivors (requirements_lower : string) (refs : list ref) (h : store)
  : list ref :=
  filter (fun r => (0 <? score_of requirements_lower (h r))%Z) refs.

(** The store that the loop leaves: every listed entry with a positive
    score has received its score and nothing else has changed. *)
Definition scored (requirements_lower : string) (refs : list ref) (h : store)
  : store :=
  fun r =>
    if existsb (Nat.eqb r) refs && (0 <? score_of requirements_lower (h r))%Z
    then set_relevance_score (h r) (score_of requirements_lower (h r))
    else h r.

(** A store in which every entry is titled ["Engineer"] and has no other
    key. *)
Definition engineer_store : store :=
  fun _ =>
    {| Records.title := Some "Engineer"; Records.company := None;
       Records.period := None; Records.description := None;
       Records.relevance_score := None |}.

End RagSystem.


(* ================================================================== *)
(** ** resume_parser.py *)
(* ================================================================== *)

Module ResumeParser.

Import Re.

(** The newline character and the one-character string ["\n"]. *)
Definition NL : ascii := ascii_of_nat 10.
Definition nl : string := String NL EmptyString.

(** The keys of the dictionary [sections]. *)
Inductive section_name : Type :=
| sec_general | sec_education | sec_experience | sec_skills | sec_projects
| sec_contact.

Definition section_name_eqb (a b : section_name) : bool :=
  match a, b with
  | sec_general, sec_general | sec_education, sec_education
  | sec_experience, sec_experience | sec_skills, sec_skills
  | sec_projects, sec_projects | sec_contact, sec_contact => true
  | _, _ => false
  end.

(** [self.section_keywords], in the order in which the dictionary is
    iterated. *)
Definition section_keywords : list (section_name * list string) :=
  [ (sec_education, ["education"; "academic"; "degree"; "university"; "college"; "school"]);
    (sec_experience, ["experience"; "work history"; "employment"; "career"; "job"]);
    (sec_skills, ["skills"; "technical skills"; "competencies"; "technologies"]);
    (sec_projects, ["projects"; "portfolio"; "achievements"; "accomplishments"]);
    (sec_contact, ["contact"; "email"; "phone"; "address"; "linkedin"]) ].

(** The dictionary [sections]. *)
Definition sections : Type := section_name -> option string.

Definition no_sections : sections := fun _ => None.

Definition sections_set (d : sections) (k : section_name) (v : string) : sections :=
  fun k' => if section_name_eqb k' k then Some v else d k'.

(** [sections.get(k, '')] *)
Definition sections_get (d : sections) (k : section_name) : string :=
  match d k with Some v => v | None => EmptyString end.

(** The first section one of whose keywords occurs in the line. *)
Fixpoint find_section (table : list (section_name * list string)) (line : string)
  : option section_name :=
  match table with
  | [] => None
  | (section, keywords) :: rest =>
      if existsb (fun keyword => Py.contains (Py.lower keyword) (Py.lower line)) keywords
      then Some section
      else find_section rest line
  end.

(** The local variables of [_extract_sections]. *)
Record segmenter := {
  seg_sections : sections;
  current_section : section_name;
  current_content : list string
}.

Definition segment_line (st : segmenter) (line : string) : segmenter :=
  let line := Py.strip line in
  if negb (Py.truthy line) then st
  else
    match find_section section_keywords line with
    | Some section =>
        {| seg_sections :=
             if section_name_eqb (current_section st) sec_general
             then seg_sections st
             else sections_set (seg_sections st) (current_section st)
                    (Py.join nl (current_content st));
           current_section := section;
           current_content := [] |}
    | None =>
        {| seg_sections := seg_sections st;
           current_section := current_section st;
           current_content := current_content st ++ [line] |}
    end.

Definition _extract_sections (text : string) : sections :=
  let lines := Py.split_on NL text in
  let st :=
    fold_left segment_line lines
      {| seg_sections := no_sections; current_section := sec_general;
         current_content := [] |} in
  match current_content st with
  | [] => seg_sections st
  | _ => sections_set (seg_sections st) (current_section st)
           (Py.join nl (current_content st))
  end.

(** The sample of the specification: six lines, among them the headers
    [Education] and [Experience]. *)
Definition resume_sample : string :=
  Py.join nl ["Education"; "MIT"; "2020"; "Experience"; "Engineer at X"; "2019-2021"].

(** *** The line patterns *)

Fixpoint alts (words : list string) : regex :=
  match words with
  | [] => Chr (fun _ => false)
  | [w] => Lit w
  | w :: rest => Alt (Lit w) (alts rest)
  end.

(** [20\d{2}] and [19\d{2}] *)
Definition year_20 : regex := Seq (Lit "20") (Seq (Chr Py.is_digit) (Chr Py.is_digit)).
Definition year_19 : regex := Seq (Lit "19") (Seq (Chr Py.is_digit) (Chr Py.is_digit)).

(** [\b(University|College|School|Institute|Academy)\b], with
    [re.IGNORECASE] *)
Definition institution_re : regex :=
  Seq Bnd (Seq (alts ["University"; "College"; "School"; "Institute"; "Academy"]) Bnd).

(** [\b(20\d{2}|19\d{2})\b] *)
Definition year_re : regex :=
  Seq Bnd (Seq (Alt year_20 year_19) Bnd).

(** [\b(20\d{2}|19\d{2})\b.*\b(20\d{2}|19\d{2}|Present|Current)\b] *)
Definition period_re : regex :=
  Seq year_re
    (Seq (Star dot)
       (Seq Bnd (Seq (Alt year_20 (Alt year_19 (Alt (Lit "Present") (Lit "Current")))) Bnd))).

(** [\b(Project|App|System|Platform|Tool)\b], with [re.IGNORECASE] *)
Definition project_re : regex :=
  Seq Bnd (Seq (alts ["Project"; "App"; "System"; "Platform"; "Tool"]) Bnd).

(** *** [_extract_education] *)

Import Records.

Definition education_line (st : list education * education) (line : string)
  : list education * education :=
  let '(education_list, current_education) := st in
  let line := Py.strip line in
  if negb (Py.truthy line) then st
  else if search true institution_re line then
    ((if education_truthy current_education
      then education_list ++ [current_education] else education_list),
     {| institution := Some line; degree := None; year := None; gpa := None |})
  else if Py.contains "degree" (Py.lower line) || Py.contains "bachelor" (Py.lower line)
          || Py.contains "master" (Py.lower line) then
    (education_list,
     {| institution := institution current_education; degree := Some line;
        year := year current_education; gpa := gpa current_education |})
  else if search false year_re line then
    (education_list,
     {| institution := institution current_education;
        degree := degree current_education;
        year := Some line; gpa := gpa current_education |})
  else if Py.contains "gpa" (Py.lower line) then
    (education_list,
     {| institution := institution current_education;
        degree := degree current_education;
        year := year current_education; gpa := Some line |})
  else st.

Definition _extract_education (education_text : string) : list education :=
  if negb (Py.truthy education_text) then []
  else
    let lines := Py.split_on NL education_text in
    let '(education_list, current_education) :=
      fold_left education_line lines ([], empty_education) in
    if education_truthy current_education
    then education_list ++ [current_education]
    else education_list.

(** *** [_extract_experience] *)

Definition title_keywords : list string :=
  ["engineer"; "developer"; "manager"; "analyst"; "specialist"].

Definition with_title (e : experience) (v : string) : experience :=
  {| title := Some v; company := company e; period := period e;
     description := description e; relevance_score := relevance_score e |}.

Definition with_company (e : experience) (v : string) : experience :=
  {| title := title e; company := Some v; period := period e;
     description := description e; relevance_score := relevance_score e |}.

Definition with_description (e : experience) (v : string) : experience :=
  {| title := title e; company := company e; period := period e;
     description := Some v; relevance_score := relevance_score e |}.

Definition experience_line (st : list experience * experience) (line : string)
  : list experience * experience :=
  let '(experience_list, current_experience) := st in
  let line := Py.strip line in
  if negb (Py.truthy line) then st
  else if search false period_re line then
    ((if experience_truthy current_experience
      then experience_list ++ [current_experience] else experience_list),
     {| title := None; company := None; period := Some line;
        description := None; relevance_score := None |})
  else if existsb (fun keyword => Py.contains keyword (Py.lower line)) title_keywords then
    (experience_list,
     match title current_experience with
     | None => with_title current_experience line
     | Some _ => current_experience
     end)
  else if Py.contains "@" line || Py.contains "www." line then
    (experience_list,
     match company current_experience with
     | None => with_company current_experience line
     | Some _ => current_experience
     end)
  else if (20 <? Py.len line)%Z && negb (search false year_re line) then
    (experience_list,
     match description current_experience with
     | None => with_description current_experience line
     | Some d =>
         with_description current_experience
           (String.append d (String.append " " line))
     end)
  else st.

Definition _extract_experience (experience_text : string) : list experience :=
  if negb (Py.truthy experience_text) then []
  else
    let lines := Py.split_on NL experience_text in
    let '(experience_list, current_experience) :=
      fold_left experience_line lines ([], empty_experience) in
    if experience_truthy current_experience
    then experience_list ++ [current_experience]
    else experience_list.

(** *** [_extract_projects] *)

Definition project_line (st : list project * project) (line : string)
  : list project * project :=
  let '(projects_list, current_project) := st in
  let line := Py.strip line in
  if negb (Py.truthy line) then st
  else if search true project_re line then
    ((if project_truthy current_project
      then projects_list ++ [current_project] else projects_list),
     {| project_name := Some line; repository := None; project_description := None |})
  else if Py.contains "github.com" line || Py.contains "gitlab.com" line then
    (projects_list,
     {| project_name := project_name current_project; repository := Some line;
        project_description := project_description current_project |})
  else if (20 <? Py.len line)%Z then
    (projects_list,
     {| project_name := project_name current_project;
        repository := repository current_project;
        project_description :=
          match project_description current_project with
          | None => Some line
          | Some d => Some (String.append d (String.append " " line))
          end |})
  else st.

Definition _extract_projects (projects_text : string) : list project :=
  if negb (Py.truthy projects_text) then []
  else
    let lines := Py.split_on NL projects_text in
    let '(projects_list, current_project) :=
      fold_left project_line lines ([], empty_project) in
    if project_truthy current_project
    then projects_list ++ [current_project]
    else projects_list.

(** *** [_parse_resume_text] and [parse_resume]

    The dictionary [resume_data], without the entries ["name"], ["email"],
    ["phone"], ["linkedin"] and ["summary"]: each of them is computed from
    the cleaned text alone and none of the properties below reads it. *)
Record resume_data := {
  education_entries : list education;
  experience_entries : list experience;
  skill_entries : list string;
  project_entries : list project;
  raw_text : string;
  filename : option string;
  file_size : option Z
}.

Definition _parse_resume_text (text : string) : resume_data :=
  let text := Utils.clean_text (Some text) in
  let sections := _extract_sections text in
  {| education_entries := _extract_education (sections_get sections sec_education);
     experience_entries := _extract_experience (sections_get sections sec_experience);
     skill_entries := Utils.extract_skills_from_text text;
     project_entries := _extract_projects (sections_get sections sec_projects);
     raw_text := text;
     filename := None;
     file_size := None |}.

(** What [parse_resume] raises. *)
Inductive error : Type :=
| UnsupportedFormat (file_extension : string)
| TextExtractionFailed (message : string)
| ParseFailed (cause : error).

Section ParseResume.

(** The decoders of PyPDF2 and python-docx, which either return the text
    of the document or raise. *)
Variable _extract_text_from_pdf : Utils.uploaded_file -> error + string.
Variable _extract_text_from_docx : Utils.uploaded_file -> error + string.

Definition parse_resume (uploaded_file : Utils.uploaded_file)
  : error + resume_data :=
  let file_extension := Utils.get_file_extension (Utils.name uploaded_file) in
  let text :=
    if String.eqb file_extension ".pdf"
    then _extract_text_from_pdf uploaded_file
    else if Py.mem file_extension [".docx"; ".doc"]
    then _extract_text_from_docx uploaded_file
    else inl (UnsupportedFormat file_extension) in
  match text with
  | inl e => inl (ParseFailed e)
  | inr text =>
      let resume_data := _parse_resume_text text in
      inr {| education_entries := education_entries resume_data;
             experience_entries := experience_entries resume_data;
             skill_entries := skill_entries resume_data;
             project_entries := project_entries resume_data;
             raw_text := raw_text resume_data;
             filename := Some (Utils.name uploaded_file);
             file_size := Some (Utils.size uploaded_file) |}
  end.

End ParseResume.

End ResumeParser.

(* ================================================================== *)
(** ** job_extractor.py *)
(* ================================================================== *)

Module JobExtractor.

Import Re.

(** The parsed page: text nodes and elements with their tag name, the
    values of their [class] attribute and their children. *)
#[warnings="-register-all"]
Inductive node : Type :=
| Text (s : string)
| Elem (tag : string) (classes : list string) (children : list node).

(** [element.get_text()]: the text nodes below the element, in order. *)
Fixpoint get_text (n : node) : string :=
  match n with
  | Text s => s
  | Elem _ _ children =>
      (fix texts (l : list node) : string :=
         match l with
         | [] => EmptyString
         | c :: l' => String.append (get_text c) (texts l')
         end) children
  end.

(** The CSS selectors of the program: an optional tag name and a test on
    the [class] attribute. *)
Inductive class_test : Type :=
| AnyClass
| HasClass (token : string)          (* [.token] *)
| ClassContains (part : string).     (* [[class*="part"]] *)

Record selector := {
  sel_tag : option string;
  sel_class : class_test
}.

Definition selects (sel : selector) (tag : string) (classes : list string) : bool :=
  (match sel_tag sel with
   | Some t => String.eqb t tag
   | None => true
   end)
  &&
  (match sel_class sel with
   | AnyClass => true
   | HasClass token => Py.mem token classes
   | ClassContains part =>
       match classes with
       | [] => false
       | _ => Py.contains part (Py.join " " classes)
       end
   end).

(** The first element, in document order, that the selector selects. *)
Fixpoint select_node (sel : selector) (n : node) : option node :=
  match n with
  | Text _ => None
  | Elem tag classes children =>
      if selects sel tag classes then Some n
      else
        (fix first_in (l : list node) : option node :=
           match l with
           | [] => None
           | c :: l' =>
               match select_node sel c with
               | Some e => Some e
               | None => first_in l'
               end
           end) children
  end.

(** [soup.select_one(selector)]; the document is the list of its top
    nodes. *)
Fixpoint select_one (sel : selector) (soup : list node) : option node :=
  match soup with
  | [] => None
  | n :: rest =>
      match select_node sel n with
      | Some e => Some e
      | None => select_one sel rest
      end
  end.

(** [soup.find(tag)] *)
Definition find (tag : string) (soup : list node) : option node :=
  select_one {| sel_tag := Some tag; sel_class := AnyClass |} soup.

Definition tag_with (t part : string) : selector :=
  {| sel_tag := Some t; sel_class := ClassContains part |}.
Definition any_with (part : string) : selector :=
  {| sel_tag := None; sel_class := ClassContains part |}.
Definition dot_class (token : string) : selector :=
  {| sel_tag := None; sel_class := HasClass token |}.
Definition tag_only (t : string) : selector :=
  {| sel_tag := Some t; sel_class := AnyClass |}.

Definition title_selectors : list selector :=
  [ tag_with "h1" "title"; tag_with "h1" "job"; tag_with "h1" "position";
    dot_class "job-title"; dot_class "position-title";
    tag_only "h1"; tag_only "title" ].

Definition company_selectors : list selector :=
  [ any_with "company"; any_with "employer";
    dot_class "company-name"; dot_class "employer-name" ].

(** The cascade shared by the field extractors: the cleaned text of the
    first selected element that is longer than [min_length]. *)
Fixpoint first_qualifying (min_length : Z) (selectors : list selector)
  (soup : list node) : option string :=
  match selectors with
  | [] => None
  | sel :: rest =>
      match select_one sel soup with
      | Some element =>
          let text := Utils.clean_text (Some (get_text element)) in
          if Py.truthy text && (min_length <? Py.len text)%Z
          then Some text
          else first_qualifying min_length rest soup
      | None => first_qualifying min_length rest soup
      end
  end.

(** [\s*[-|]\s*(Indeed|LinkedIn|Glassdoor|.*\.com).*] *)
Definition site_suffix_re : regex :=
  Seq (Star Py.is_space)
    (Seq (Chr (one_of "-|"))
       (Seq (Star Py.is_space)
          (Seq (Alt (Lit "Indeed")
                  (Alt (Lit "LinkedIn")
                     (Alt (Lit "Glassdoor") (Seq (Star dot) (Lit ".com")))))
               (Star dot)))).

Definition strip_site_suffix (title : string) : string :=
  sub false site_suffix_re EmptyString title.

(** The sentinel that the source returns when the page has no title at
    all (there a Chinese sentence with this meaning). *)
Definition TITLE_NOT_FOUND : string := "job title not found".

Definition _extract_job_title (soup : list node) : string :=
  match first_qualifying 3 title_selectors soup with
  | Some title => title
  | None =>
      match find "title" soup with
      | Some title_tag =>
          let title := Utils.clean_text (Some (get_text title_tag)) in
          strip_site_suffix title
      | None => TITLE_NOT_FOUND
      end
  end.

(** A page whose only text is its [<title>]. *)
Definition indeed_page : list node :=
  [ Elem "html" []
      [ Elem "head" [] [ Elem "title" [] [ Text "Software Engineer - Indeed" ] ];
        Elem "body" [] [] ] ].

Definition _extract_company_name (soup : list node) (url : string) : string :=
  match first_qualifying 2 company_selectors soup with
  | Some company => company
  | None => Utils.extract_company_name_from_url url
  end.

End JobExtractor.

(* ================================================================== *)
(** ** utils.py: the text helpers *)
(* ================================================================== *)

Module UtilsText.

Import Re.

(** [s[:n]]: the first [n] characters, and for a negative [n] all but the
    last [-n]. *)
Definition take (n : Z) (s : string) : string :=
  if (0 <=? n)%Z then String.substring 0 (Z.to_nat n) s
  else String.substring 0 (Z.to_nat (Py.len s + n)) s.

(** [truncate_text(text, max_length)] *)
Definition truncate_text (text : string) (max_length : Z) : string :=
  if (Py.len text <=? max_length)%Z then text
  else String.append (take max_length text) "...".

(** The text of the first group of a pattern [(g)tail] matched at the
    current position: what [g] has consumed on the first path on which
    the whole pattern matches. *)
Definition group1_here (g tail : regex) (prev : option ascii) (s : string)
  : option string :=
  run false g prev s
    (fun prev1 s1 =>
       run false tail prev1 s1
         (fun _ _ => Some (String.substring 0 (String.length s - String.length s1) s))).

(** [re.search(pattern, s).group(1)], if the pattern matches somewhere *)
Fixpoint search_group1_from (g tail : regex) (prev : option ascii) (s : string)
  : option string :=
  match group1_here g tail prev s with
  | Some years => Some years
  | None =>
      match s with
      | String c s' => search_group1_from g tail (Some c) s'
      | EmptyString => None
      end
  end.

Definition search_group1 (g tail : regex) (s : string) : option string :=
  search_group1_from g tail None s.

(** [(\d+)] *)
Definition digits : regex := Plus Py.is_digit.

Definition optional (r : regex) : regex := Alt r (Lit EmptyString).

(** What follows the group in [(\d+)\+?\s*years?] and in [(\d+)\+?\s*yr].
    The third pattern of the source ends with the Chinese character for
    "year", which lies outside the characters of the model: it matches
    nothing. *)
Definition years_tail : regex :=
  Seq (optional (Lit "+")) (Seq (Star Py.is_space) (Seq (Lit "year") (optional (Lit "s")))).
Definition yr_tail : regex :=
  Seq (optional (Lit "+")) (Seq (Star Py.is_space) (Lit "yr")).
Definition nian_tail : regex :=
  Seq (optional (Lit "+")) (Seq (Star Py.is_space) (Chr (fun _ => false))).

Definition year_patterns : list regex := [years_tail; yr_tail; nian_tail].

Fixpoint first_years (tails : list regex) (text_lower : string) : option string :=
  match tails with
  | [] => None
  | tail :: rest =>
      match search_group1 digits tail text_lower with
      | Some years => Some years
      | None => first_years rest text_lower
      end
  end.

(** [format_experience_years(text)] *)
Definition format_experience_years (text : string) : string :=
  match first_years year_patterns (Py.lower text) with
  | Some years => String.append years " years"
  | None => "Not specified"
  end.

End UtilsText.

(* ================================================================== *)
(** ** rag_system.py: the keyword score of a retrieved document *)
(* ================================================================== *)

Module RagRetrieval.

(** [set(s.lower().split())]: the words of [s], each once. *)
Definition word_set (s : string) : list string :=
  nodup string_dec (Py.split_ws (Py.lower s)).

(** [_calculate_relevance_score(query, content)] *)
Definition _calculate_relevance_score (query content : string) : Q :=
  let query_words := word_set query in
  let content_words := word_set content in
  match query_words with
  | [] => 0%Q
  | _ =>
      let intersection := filter (fun w => Py.mem w content_words) query_words in
      (inject_Z (Z.of_nat (List.length intersection))
       / inject_Z (Z.of_nat (List.length query_words)))%Q
  end.

End RagRetrieval.

(* ================================================================== *)
(** ** resume_parser.py: the fields read from the whole text *)
(* ================================================================== *)

Module ResumeFields.

Import Re.

(** The sentinels of the source are Chinese sentences with these
    meanings. *)
Definition NAME_NOT_FOUND : string := "name not found".
Definition SUMMARY_NOT_FOUND : string := "summary not found".

(** [[A-Z]] and [[a-z]] *)
Definition upper_AZ (c : ascii) : bool := Py.between 65 90 (Py.code c).
Definition lower_az (c : ascii) : bool := Py.between 97 122 (Py.code c).

(** [^[A-Z][a-z]+ [A-Z][a-z]+] and [^[A-Z][a-z]+] *)
Definition first_name_re : regex := Seq (Chr upper_AZ) (Plus lower_az).
Definition full_name_re : regex :=
  Seq first_name_re (Seq (Lit " ") (Seq (Chr upper_AZ) (Plus lower_az))).

(** [re.match(r, s)] as a truth value *)
Definition re_match (r : regex) (s : string) : bool :=
  Records.is_some (match_here false r None s).

Fixpoint name_scan (lines : list string) : option string :=
  match lines with
  | [] => None
  | line :: rest =>
      let line := Py.strip line in
      if (2 <? Py.len line)%Z && (Py.len line <? 50)%Z
      then
        if re_match full_name_re line then Some line
        else if re_match first_name_re line && Py.contains " " line then Some line
        else name_scan rest
      else name_scan rest
  end.

(** [_extract_name(text)] *)
Definition _extract_name (text : string) : string :=
  let lines := Py.split_on ResumeParser.NL text in
  match name_scan (firstn 5 lines) with
  | Some line => line
  | None => NAME_NOT_FOUND
  end.

Definition summary_keywords : list string :=
  ["summary"; "objective"; "profile"; "about"].

(** The inner loop of [_extract_summary]: of the next [n] lines, those
    before the first one that is blank or has at most 10 characters. *)
Fixpoint summary_lines (n : nat) (following : list string) : list string :=
  match n, following with
  | S n', line :: rest =>
      let line := Py.strip line in
      if Py.truthy line && (10 <? Py.len line)%Z
      then line :: summary_lines n' rest
      else []
  | _, _ => []
  end.

Fixpoint summary_scan (lines : list string) : option string :=
  match lines with
  | [] => None
  | line :: rest =>
      if existsb (fun keyword => Py.contains keyword (Py.lower line)) summary_keywords
      then
        match summary_lines 4 rest with
        | [] => summary_scan rest
        | found => Some (Py.join " " found)
        end
      else summary_scan rest
  end.

(** [_extract_summary(text)] *)
Definition _extract_summary (text : string) : string :=
  match summary_scan (Py.split_on ResumeParser.NL text) with
  | Some summary => summary
  | None => SUMMARY_NOT_FOUND
  end.

(** [re.findall(r, s)[0]]: the text of the leftmost match, if any. *)
Fixpoint find_first_from (icase : bool) (r : regex) (prev : option ascii)
  (s : string) : option string :=
  match match_here icase r prev s with
  | Some (_, rest) =>
      Some (String.substring 0 (String.length s - String.length rest) s)
  | None =>
      match s with
      | String c s' => find_first_from icase r (Some c) s'
      | EmptyString => None
      end
  end.

Definition find_first (icase : bool) (r : regex) (s : string) : option string :=
  find_first_from icase r None s.

(** Two more sentinels, Chinese sentences in the source as well. *)
Definition EMAIL_NOT_FOUND : string := "email not found".
Definition LINKEDIN_NOT_FOUND : string := "LinkedIn not found".

Definition alnum (c : ascii) : bool :=
  upper_AZ c || lower_az c || Py.is_digit c.

(** [\b[A-Za-z0-9._%+-]+@[A-Za-z0-9.-]+\.[A-Z|a-z]{2,}\b] *)
Definition email_re : regex :=
  Seq Bnd
    (Seq (Plus (fun c => alnum c || one_of "._%+-" c))
       (Seq (Lit "@")
          (Seq (Plus (fun c => alnum c || one_of ".-" c))
             (Seq (Lit ".")
                (Seq (Chr (fun c => upper_AZ c || lower_az c || one_of "|" c))
                   (Seq (Plus (fun c => upper_AZ c || lower_az c || one_of "|" c))
                      Bnd)))))).

Definition _extract_email (text : string) : string :=
  match find_first false email_re text with
  | Some email => email
  | None => EMAIL_NOT_FOUND
  end.

(** [https?://(?:www\.)?linkedin\.com/in/[a-zA-Z0-9-]+] *)
Definition linkedin_re : regex :=
  Seq (Lit "http")
    (Seq (Alt (Lit "s") (Lit EmptyString))
       (Seq (Lit "://")
          (Seq (Alt (Lit "www.") (Lit EmptyString))
             (Seq (Lit "linkedin.com/in/")
                (Plus (fun c => alnum c || one_of "-" c)))))).

Definition _extract_linkedin (text : string) : string :=
  match find_first false linkedin_re text with
  | Some url => url
  | None => LINKEDIN_NOT_FOUND
  end.

End ResumeFields.

(* ================================================================== *)
(** ** job_extractor.py: the other fields of a posting *)
(* ================================================================== *)

Module JobFields.

Import JobExtractor.

(** The sentinels of the source are Chinese sentences with these
    meanings. *)
Definition LOCATION_NOT_FOUND : string := "location not specified".
Definition RESPONSIBILITIES_NOT_FOUND : string := "responsibilities not found".

Definition location_selectors : list selector :=
  [ any_with "location"; any_with "address";
    dot_class "job-location"; dot_class "location" ].

Definition _extract_location (soup : list node) : string :=
  match first_qualifying 2 location_selectors soup with
  | Some location => location
  | None => LOCATION_NOT_FOUND
  end.

Definition responsibility_selectors : list selector :=
  [ any_with "responsibility"; any_with "duty";
    dot_class "job-responsibilities"; dot_class "responsibilities" ].

Definition _extract_responsibilities (soup : list node) : string :=
  match first_qualifying 20 responsibility_selectors soup with
  | Some responsibilities => responsibilities
  | None => RESPONSIBILITIES_NOT_FOUND
  end.

Definition _extract_job_skills (text : string) : list string :=
  Utils.extract_skills_from_text text.

(** The dictionary [levels], in the order in which it is iterated. *)
Definition levels : list (string * list string) :=
  [ ("entry", ["entry level"; "junior"; "0-1 years"; "1 year"]);
    ("mid", ["mid level"; "intermediate"; "2-4 years"; "3 years"; "4 years"]);
    ("senior", ["senior"; "lead"; "5+ years"; "5 years"; "6 years"; "7 years"]);
    ("expert", ["expert"; "principal"; "architect"; "10+ years"]) ].

(** [any(word in text_lower for word in words)] *)
Definition any_in (words : list string) (text_lower : string) : bool :=
  existsb (fun word => Py.contains word text_lower) words.

Fixpoint level_scan (table : list (string * list string)) (text_lower : string)
  : option string :=
  match table with
  | [] => None
  | (level, keywords) :: rest =>
      if any_in keywords text_lower then Some (Py.title level)
      else level_scan rest text_lower
  end.

Definition _extract_experience_level (text : string) : string :=
  match level_scan levels (Py.lower text) with
  | Some level => level
  | None => "Not specified"
  end.

Definition _extract_employment_type (text : string) : string :=
  let text_lower := Py.lower text in
  if any_in ["full time"; "full-time"; "fulltime"] text_lower then "Full-time"
  else if any_in ["part time"; "part-time"; "parttime"] text_lower then "Part-time"
  else if any_in ["contract"; "contractor"] text_lower then "Contract"
  else if any_in ["intern"; "internship"] text_lower then "Internship"
  else if any_in ["remote"; "work from home"] text_lower then "Remote"
  else "Not specified".

End JobFields.

(* ================================================================== *)
(** ** email_generator.py: the versions of an e-mail *)
(* ================================================================== *)

Module EmailGenerator.

Section Versions.

(** The dictionary that [generate_cold_email] returns, and the call
    itself for fixed job and resume data: it reaches the generation
    service and either returns or raises ([None]). *)
Variable email : Type.
Variable generate_cold_email : string -> option email.

(** An entry of the list [versions]: the returned dictionary with the keys
    [version] and [style_name] added. *)
Record email_version := {
  email_data : email;
  version : Z;
  style_name : string
}.

Definition styles : list string := ["professional"; "casual"; "enthusiastic"].

(** The body of the loop for the index [i]. *)
Definition version_step (versions : list email_version) (i : nat)
  : list email_version :=
  let style := nth i styles EmptyString in
  match generate_cold_email style with
  | Some email_version =>
      versions ++ [ {| email_data := email_version;
                       version := (Z.of_nat i + 1)%Z;
                       style_name := style |} ]
  | None => versions
  end.

(** [generate_multiple_versions(job_data, resume_data, num_versions)]:
    the loop runs over [range(min(num_versions, len(styles)))]. *)
Definition generate_multiple_versions (num_versions : Z) : list email_version :=
  let n := Z.min num_versions (Z.of_nat (List.length styles)) in
  fold_left version_step (seq 0 (Z.to_nat n)) [].

(** What holds of an entry of the result: its number is that of one of
    the three styles, its style is the one with that number, and its
    content is what the call returned for that style. *)
Definition version_ok (v : email_version) : Prop :=
  (1 <= version v <= 3)%Z /\
  style_name v = nth (Z.to_nat (version v - 1)) styles EmptyString /\
  generate_cold_email (style_name v) = Some (email_data v).

End Versions.

End EmailGenerator.

(* ================================================================== *)
(** ** app.py: the skill figures shown before an e-mail is generated *)
(* ================================================================== *)

Module App.

(** [set(job_skills) & set(resume_skills)] *)
Definition matched_skills (job_skills resume_skills : list string) : list string :=
  nodup string_dec (filter (fun skill => Py.mem skill resume_skills) job_skills).

(** [(len(matched_skills) / len(job_skills)) * 100 if job_skills else 0] *)
Definition match_percentage (job_skills resume_skills : list string) : Q :=
  match job_skills with
  | [] => 0%Q
  | _ =>
      (inject_Z (Z.of_nat (List.length (matched_skills job_skills resume_skills)))
       / inject_Z (Z.of_nat (List.length job_skills)) * 100)%Q
  end.

End App.

(* ================================================================== *)
(** ** Vocabulary of the further properties *)
(* ================================================================== *)

Module Shape.

(** A character that is not white space, or the space itself. *)
Definition plain (c : ascii) : bool :=
  negb (Py.is_space c) || Ascii.eqb c " ".

(** All elements of a list but the first satisfy [P]. *)
Definition after_first {A : Type} (P : A -> Prop) (l : list A) : Prop :=
  Forall P (tl l).

(** The lines of a section text on which its extractor starts a new
    entry: those that, trimmed, are not empty and match the pattern. *)
Definition trigger_line (icase : bool) (r : Re.regex) (line : string) : bool :=
  Py.truthy (Py.strip line) && Re.search icase r (Py.strip line).

Definition trigger_lines (icase : bool) (r : Re.regex) (text : string) : list string :=
  filter (trigger_line icase r) (Py.split_on ResumeParser.NL text).

Definition has_period (e : Records.experience) : bool :=
  Records.is_some (Records.period e).
Definition has_institution (e : Records.education) : bool :=
  Records.is_some (Records.institution e).
Definition has_name (e : Records.project) : bool :=
  Records.is_some (Records.project_name e).

(** What the loop of [_extract_experience] keeps true of the entries
    appended so far and of the entry in progress, after the lines
    [seen]. *)
Definition experience_inv (seen : list string)
  (st : list Records.experience * Records.experience) : Prop :=
  let '(l, cur) := st in
  Forall (fun e => Records.experience_truthy e = true /\ Records.relevance_score e = None) l /\
  after_first (fun e => has_period e = true) l /\
  Records.relevance_score cur = None /\
  (l <> [] -> has_period cur = true) /\
  List.length (filter has_period l) + (if has_period cur then 1 else 0)
  = List.length (filter (trigger_line false ResumeParser.period_re) seen).

(** The same for the loops of [_extract_education] and
    [_extract_projects]. *)
Definition education_inv (seen : list string)
  (st : list Records.education * Records.education) : Prop :=
  let '(l, cur) := st in
  Forall (fun e => Records.education_truthy e = true) l /\
  after_first (fun e => has_institution e = true) l /\
  (l <> [] -> has_institution cur = true) /\
  List.length (filter has_institution l) + (if has_institution cur then 1 else 0)
  = List.length (filter (trigger_line true ResumeParser.institution_re) seen).

Definition project_inv (seen : list string)
  (st : list Records.project * Records.project) : Prop :=
  let '(l, cur) := st in
  Forall (fun e => Records.project_truthy e = true) l /\
  after_first (fun e => has_name e = true) l /\
  (l <> [] -> has_name cur = true) /\
  List.length (filter has_name l) + (if has_name cur then 1 else 0)
  = List.length (filter (trigger_line true ResumeParser.project_re) seen).

(** No keyword of any section occurs in the line. *)
Definition keyword_free (line : string) : Prop :=
  forall section keywords keyword,
    In (section, keywords) ResumeParser.section_keywords ->
    In keyword keywords ->
    ~ Py.occurs_in keyword (Py.lower line).

(** Some word of the list occurs in the lowercased text. *)
Definition mentions (words : list string) (text : string) : Prop :=
  exists word, In word words /\ Py.occurs_in word (Py.lower text).

(** The keywords of a level in the table [levels]. *)
Definition level_keywords (level : string) : list string :=
  match List.find (fun entry => String.eqb (fst entry) level) JobFields.levels with
  | Some entry => snd entry
  | None => []
  end.

(** A text that [clean_text] could have returned and that is longer than
    [min_length]. *)
Definition clean_and_longer (min_length : Z) (text : string) : Prop :=
  (min_length < Py.len text)%Z /\
  Py.all_chars Utils.kept_char text = true /\
  Py.strip text = text.

(** The cleaned text of the first element that one of the selectors
    finds in the page. *)
Definition text_of_selected (selectors : list JobExtractor.selector)
  (soup : list JobExtractor.node) (text : string) : Prop :=
  exists sel element,
    In sel selectors /\
    JobExtractor.select_one sel soup = Some element /\
    text = Utils.clean_text (Some (JobExtractor.get_text element)).

(** A continuation that fails on every subject without the character
    [c]. *)
Definition fails_without {A : Type} (c : ascii) (k : @Re.cont A) : Prop :=
  forall (prev : option ascii) (s : string),
    Py.has_char c s = false -> k prev s = None.

(** The lines of a section bucket: trimmed, not empty, on one line and
    free of section keywords. *)
Definition bucket_line (line : string) : Prop :=
  keyword_free line /\ Py.strip line = line /\ line <> EmptyString /\
  Py.has_char ResumeParser.NL line = false.

Definition bucket_lines (lines : list string) : Prop := Forall bucket_line lines.

End Shape.

(* ================================================================== *)
(** * Properties *)
(* ================================================================== *)

(** ** Strings *)

Section StringFacts.

Lemma append_nil_r (s : string) : String.append s EmptyString = s.
Proof. induction s as [|c s IH]; simpl; [reflexivity | now rewrite IH]. Qed.

Lemma append_assoc (a b c : string) :
  String.append (String.append a b) c = String.append a (String.append b c).
Proof. induction a as [|x a IH]; simpl; [reflexivity | now rewrite IH]. Qed.

Lemma prefix_iff (a b : string) :
  prefix a b = true <-> exists q, b = String.append a q.
Proof.
  revert b. induction a as [|x a IH]; intros b.
  - split; [intros _; now exists b | intros _; now destruct b].
  - destruct b as [|y b]; simpl.
    + split; [discriminate | intros [q Hq]; discriminate].
    + destruct (ascii_dec x y) as [->|Hne].
      * rewrite IH. split; intros [q Hq]; exists q.
        -- now rewrite Hq.
        -- now injection Hq.
      * split; [discriminate | intros [q Hq]; injection Hq; congruence].
Qed.

Lemma contains_iff (a b : string) :
  Py.contains a b = true <-> Py.occurs_in a b.
Proof.
  induction b as [|y b IH]; cbn [Py.contains].
  - rewrite orb_false_r, prefix_iff. split.
    + intros [q Hq]. now exists EmptyString, q.
    + intros [p [q Hq]]. destruct p; [now exists q | discriminate].
  - rewrite orb_true_iff, prefix_iff, IH. split.
    + intros [[q Hq] | [p [q Hq]]].
      * now exists EmptyString, q.
      * exists (String y p), q. simpl. now rewrite Hq.
    + intros [p [q Hq]]. destruct p as [|x p]; simpl in Hq.
      * left. now exists q.
      * right. injection Hq as _ Hb. now exists p, q.
Qed.

Lemma mem_iff (x : string) (l : list string) :
  Py.mem x l = true <-> In x l.
Proof.
  unfold Py.mem. rewrite existsb_exists. split.
  - intros [y [Hy E]]. apply String.eqb_eq in E. now subst.
  - intros H. exists x. split; [assumption | apply String.eqb_refl].
Qed.

Lemma lower_append (a b : string) :
  Py.lower (String.append a b) = String.append (Py.lower a) (Py.lower b).
Proof. induction a as [|x a IH]; simpl; [reflexivity | now rewrite IH]. Qed.

End StringFacts.

(** ** Rounding to hundredths *)

Section Rounding.

Local Open Scope Q_scope.

Lemma round_half_even_comp (q q' : Q) :
  q == q' -> Py.round_half_even q = Py.round_half_even q'.
Proof.
  intros E. unfold Py.round_half_even.
  rewrite (Qfloor_comp _ _ E).
  assert (E' : q - inject_Z (Qfloor q') == q' - inject_Z (Qfloor q'))
    by now rewrite E.
  now rewrite (Qcompare_comp _ _ E' _ _ (Qeq_refl (1 # 2))).
Qed.

Lemma round2_comp (q q' : Q) : q == q' -> Py.round2 q == Py.round2 q'.
Proof.
  intros E. unfold Py.round2.
  rewrite (round_half_even_comp (q * 100) (q' * 100)); [reflexivity|].
  now rewrite E.
Qed.

(** The rounded value is an integer at distance at most one half. *)
Lemma round_half_even_near (q : Q) :
  Qabs (inject_Z (Py.round_half_even q) - q) <= 1 # 2.
Proof.
  unfold Py.round_half_even.
  pose proof (Qfloor_le q) as Hlo. pose proof (Qlt_floor q) as Hhi.
  rewrite inject_Z_plus in Hhi. change (inject_Z 1) with 1 in Hhi.
  set (f := Qfloor q) in *.
  apply Qabs_Qle_condition.
  destruct (Qcompare (q - inject_Z f) (1 # 2)) eqn:C.
  - apply Qeq_alt in C. destruct (Z.even f).
    + split; lra.
    + rewrite inject_Z_plus. change (inject_Z 1) with 1. split; lra.
  - apply Qlt_alt in C. split; lra.
  - apply Qgt_alt in C. rewrite inject_Z_plus. change (inject_Z 1) with 1.
    split; lra.
Qed.

Lemma round_half_even_bounds (a b : Z) (q : Q) :
  inject_Z a <= q -> q <= inject_Z b ->
  (a <= Py.round_half_even q <= b)%Z.
Proof.
  intros Ha Hb. unfold Py.round_half_even.
  pose proof (Qfloor_le q) as Hlo.
  assert (Hfa : (a <= Qfloor q)%Z).
  { rewrite <- (Qfloor_Z a). now apply Qfloor_resp_le. }
  assert (Hfb : (Qfloor q <= b)%Z).
  { rewrite <- (Qfloor_Z b). now apply Qfloor_resp_le. }
  set (f := Qfloor q) in *.
  assert (Hup : 0 < q - inject_Z f -> (f + 1 <= b)%Z).
  { intros Hpos. assert (Hlt : inject_Z f < inject_Z b) by lra.
    rewrite <- Zlt_Qlt in Hlt. lia. }
  destruct (Qcompare (q - inject_Z f) (1 # 2)) eqn:C.
  - apply Qeq_alt in C. destruct (Z.even f); [lia|].
    split; [lia | apply Hup; lra].
  - lia.
  - apply Qgt_alt in C. split; [lia | apply Hup; lra].
Qed.

Lemma round2_near (q : Q) : Qabs (Py.round2 q - q) <= 1 # 200.
Proof.
  pose proof (round_half_even_near (q * 100)) as H.
  apply Qabs_Qle_condition in H. apply Qabs_Qle_condition.
  unfold Py.round2.
  set (z := Py.round_half_even (q * 100)) in *.
  assert (E : z # 100 == inject_Z z * (1 # 100)).
  { unfold Qeq, inject_Z. simpl. lia. }
  rewrite E. split; lra.
Qed.

End Rounding.

(** ** Binary64 rounding *)

Section Floats.
Local Open Scope Q_scope.

Lemma two_neq_0 : ~ 2 == 0.
Proof. discriminate. Qed.

Lemma pow2_pos (e : Z) : 0 < Py.pow2 e.
Proof. apply Qpower_0_lt. reflexivity. Qed.

Lemma pow2_plus (a b : Z) : Py.pow2 (a + b) == Py.pow2 a * Py.pow2 b.
Proof. apply Qpower_plus, two_neq_0. Qed.

Lemma pow2_cancel (s : Z) : Py.pow2 s * Py.pow2 (- s) == 1.
Proof. rewrite <- pow2_plus. now replace (s + - s)%Z with 0%Z by lia. Qed.

Lemma pow2_inject (n : Z) : (0 <= n)%Z -> Py.pow2 n == inject_Z (2 ^ n).
Proof. intros H. unfold Py.pow2. now rewrite Zpower_Qpower. Qed.

Lemma pow2_le (a b : Z) : (a <= b)%Z -> Py.pow2 a <= Py.pow2 b.
Proof. intros H. apply Qpower_le_compat_l; [exact H | discriminate]. Qed.

Lemma pow2_lt_inv (a b : Z) : Py.pow2 a < Py.pow2 b -> (a < b)%Z.
Proof. intros H. apply (Qpower_lt_compat_l_inv 2); [exact H | reflexivity]. Qed.

(** The integer logarithm, read in [Q]. *)
Lemma log2_bounds (a : positive) :
  Py.pow2 (Z.log2 (Z.pos a)) <= inject_Z (Z.pos a) /\
  inject_Z (Z.pos a) < Py.pow2 (Z.log2 (Z.pos a) + 1).
Proof.
  destruct (Z.log2_spec (Z.pos a)) as [Hlo Hhi]; [reflexivity|].
  pose proof (Z.log2_nonneg (Z.pos a)) as Hn.
  rewrite !pow2_inject by lia. split.
  - now rewrite <- Zle_Qle.
  - rewrite <- Zlt_Qlt. exact Hhi.
Qed.

(** [binade a b] is the exponent of the power of two at or below [a / b]. *)
Lemma binade_spec (a b : positive) :
  Py.pow2 (Py.binade a b) <= Z.pos a # b /\
  Z.pos a # b < Py.pow2 (Py.binade a b + 1).
Proof.
  unfold Py.binade.
  destruct (log2_bounds a) as [Alo Ahi]. destruct (log2_bounds b) as [Blo Bhi].
  set (la := Z.log2 (Z.pos a)) in *. set (lb := Z.log2 (Z.pos b)) in *.
  assert (Bpos : 0 < inject_Z (Z.pos b)) by reflexivity.
  pose proof (Qmake_Qdiv (Z.pos a) b) as Eq.
  destruct (Qle_bool (Py.pow2 (la - lb)) (Z.pos a # b)) eqn:C.
  - apply Qle_bool_iff in C.
    split; [exact C|]. rewrite Eq.
    apply Qlt_shift_div_r; [exact Bpos|].
    apply (Qlt_le_trans _ _ _ Ahi).
    replace (la + 1)%Z with ((la - lb + 1) + lb)%Z by lia.
    rewrite pow2_plus.
    apply Qmult_le_l; [apply pow2_pos | exact Blo].
  - assert (C' : ~ Py.pow2 (la - lb) <= Z.pos a # b).
    { intros H. apply Qle_bool_iff in H. congruence. }
    apply Qnot_le_lt in C'.
    replace (la - lb - 1 + 1)%Z with (la - lb)%Z by lia.
    split; [|exact C']. rewrite Eq.
    apply Qle_shift_div_l; [exact Bpos|].
    apply (Qle_trans _ (Py.pow2 la)); [|exact Alo].
    replace la with ((la - lb - 1) + (lb + 1))%Z at 2 by lia.
    rewrite pow2_plus.
    apply Qmult_le_l; [apply pow2_pos | apply Qlt_le_weak, Bhi].
Qed.

Lemma fl_comp (q q' : Q) : q == q' -> Py.fl q = Py.fl q'.
Proof. intros E. unfold Py.fl. now rewrite (Qred_complete _ _ E). Qed.

(** The scaled value and its rounding. *)
Lemma fl_pos_scaled (a b : positive) :
  let s := (52 - Py.binade a b)%Z in
  let z := (Z.pos a # b) * Py.pow2 s in
  Py.fl_pos a b == inject_Z (Py.round_half_even z) * Py.pow2 (- s) /\
  Z.pos a # b == z * Py.pow2 (- s).
Proof.
  intros s z. split; [reflexivity|].
  subst z. rewrite <- Qmult_assoc, pow2_cancel. ring.
Qed.

Lemma fl_pos_error (a b : positive) :
  Qabs (Py.fl_pos a b - (Z.pos a # b)) <= (Z.pos a # b) * Py.pow2 (-53).
Proof.
  destruct (fl_pos_scaled a b) as [E1 E2]. cbv zeta in E1, E2.
  destruct (binade_spec a b) as [Blo _].
  set (e := Py.binade a b) in *. set (s := (52 - e)%Z) in *.
  set (z := (Z.pos a # b) * Py.pow2 s) in *.
  pose proof (round_half_even_near z) as N.
  set (k := inject_Z (Py.round_half_even z)) in *.
  assert (E : Py.fl_pos a b - (Z.pos a # b) == (k - z) * Py.pow2 (- s)).
  { rewrite E1. rewrite E2 at 1. ring. }
  rewrite E, Qabs_Qmult, (Qabs_pos (Py.pow2 (- s))) by apply Qlt_le_weak, pow2_pos.
  apply (Qle_trans _ ((1 # 2) * Py.pow2 (- s))).
  - apply Qmult_le_compat_r; [exact N | apply Qlt_le_weak, pow2_pos].
  - assert (Es : (1 # 2) * Py.pow2 (- s) == Py.pow2 e * Py.pow2 (-53)).
    { replace (- s)%Z with (1 + (e + -53))%Z by (subst s; lia).
      rewrite !pow2_plus. change (Py.pow2 1) with 2. ring. }
    rewrite Es. apply Qmult_le_compat_r; [exact Blo | apply Qlt_le_weak, pow2_pos].
Qed.

Lemma fl_cases (q : Q) :
  (q == 0 /\ Py.fl q = 0) \/
  (exists a b, q == Z.pos a # b /\ Py.fl q = Py.fl_pos a b) \/
  (exists a b, q == Z.neg a # b /\ Py.fl q = - Py.fl_pos a b).
Proof.
  unfold Py.fl. pose proof (Qred_correct q) as E.
  destruct (Qred q) as [[|a|a] b].
  - left. split; [|reflexivity]. rewrite <- E. reflexivity.
  - right. left. exists a, b. split; [now symmetry | reflexivity].
  - right. right. exists a, b. split; [now symmetry | reflexivity].
Qed.

Lemma fl_nonneg_cases (q : Q) :
  0 <= q ->
  (q == 0 /\ Py.fl q = 0) \/
  (exists a b, q == Z.pos a # b /\ Py.fl q = Py.fl_pos a b).
Proof.
  intros H. destruct (fl_cases q) as [C | [C | [a [b [E _]]]]]; [now left | now right |].
  exfalso. rewrite E in H. unfold Qle in H. simpl in H. lia.
Qed.

(** The relative error of one rounding is at most 2^-53. *)
Lemma fl_error (q : Q) :
  0 <= q -> Qabs (Py.fl q - q) <= q * Py.pow2 (-53).
Proof.
  intros H. destruct (fl_nonneg_cases q H) as [[E F] | [a [b [E F]]]]; rewrite F, E.
  - discriminate.
  - apply fl_pos_error.
Qed.

Lemma fl_pos_nonneg (a b : positive) : 0 <= Py.fl_pos a b.
Proof.
  unfold Py.fl_pos.
  apply Qmult_le_0_compat; [|apply Qlt_le_weak, pow2_pos].
  set (z := (Z.pos a # b) * _).
  assert (Hz : inject_Z 0 <= z).
  { apply Qmult_le_0_compat; [discriminate | apply Qlt_le_weak, pow2_pos]. }
  assert (Hz' : z <= inject_Z (Py.round_half_even z + 1)).
  { pose proof (round_half_even_near z) as N. apply Qabs_Qle_condition in N.
    rewrite inject_Z_plus. change (inject_Z 1) with 1. lra. }
  destruct (round_half_even_bounds 0 _ z Hz Hz') as [K _].
  change 0 with (inject_Z 0). now rewrite <- Zle_Qle.
Qed.

Lemma fl_nonneg (q : Q) : 0 <= q -> 0 <= Py.fl q.
Proof.
  intros H. destruct (fl_nonneg_cases q H) as [[_ F] | [a [b [_ F]]]]; rewrite F.
  - apply Qle_refl.
  - apply fl_pos_nonneg.
Qed.

(** Rounding does not cross an integer below 2^53. *)
Lemma fl_le_int (q : Q) (r : Z) :
  0 <= q -> q <= inject_Z r -> (r < 2 ^ 53)%Z -> Py.fl q <= inject_Z r.
Proof.
  intros H0 Hr Hb.
  destruct (fl_nonneg_cases q H0) as [[_ F] | [a [b [E F]]]]; rewrite F.
  - now apply (Qle_trans _ q).
  - rewrite E in Hr. clear F E H0 q.
    destruct (binade_spec a b) as [Blo _].
    assert (He : (Py.binade a b < 53)%Z).
    { apply pow2_lt_inv. apply (Qle_lt_trans _ _ _ Blo).
      apply (Qle_lt_trans _ _ _ Hr). rewrite pow2_inject by lia.
      now rewrite <- Zlt_Qlt. }
    unfold Py.fl_pos.
    set (s := (52 - Py.binade a b)%Z) in *.
    set (z := (Z.pos a # b) * Py.pow2 s).
    assert (Hs : (0 <= s)%Z) by (subst s; lia).
    assert (Hz : z <= inject_Z (r * 2 ^ s)).
    { subst z. rewrite inject_Z_mult, <- pow2_inject by exact Hs.
      apply Qmult_le_compat_r; [exact Hr | apply Qlt_le_weak, pow2_pos]. }
    assert (Hz0 : inject_Z 0 <= z).
    { apply Qmult_le_0_compat; [discriminate | apply Qlt_le_weak, pow2_pos]. }
    destruct (round_half_even_bounds 0 _ z Hz0 Hz) as [_ K].
    apply (Qle_trans _ (inject_Z (r * 2 ^ s) * Py.pow2 (- s))).
    + apply Qmult_le_compat_r; [now rewrite <- Zle_Qle | apply Qlt_le_weak, pow2_pos].
    + rewrite inject_Z_mult, <- pow2_inject by exact Hs.
      rewrite <- Qmult_assoc, pow2_cancel. rewrite Qmult_1_r. apply Qle_refl.
Qed.

End Floats.

(** ** [get_skill_matches] *)

Section SkillMatches.

Import RagSystem.
Local Open Scope Q_scope.

Lemma skill_hit_iff (job_skill : string) (resume : list string) :
  skill_hit job_skill resume = true <->
  exists resume_skill, In resume_skill resume /\
    (Py.occurs_in job_skill resume_skill \/ Py.occurs_in resume_skill job_skill).
Proof.
  induction resume as [|y resume IH]; simpl.
  - split; [discriminate | intros [y [[] _]]].
  - destruct (Py.contains job_skill y || Py.contains y job_skill) eqn:E.
    + split; [intros _ | reflexivity]. exists y. split; [now left|].
      apply orb_true_iff in E. rewrite !contains_iff in E. exact E.
    + rewrite IH. split.
      * intros [z [Hz Hs]]. exists z. split; [now right | exact Hs].
      * intros [z [[<- | Hz] Hs]].
        -- rewrite <- !contains_iff, <- orb_true_iff in Hs. congruence.
        -- now exists z.
Qed.

Lemma match_loop_filter (job resume matched : list string) :
  match_loop job resume matched
  = matched ++ filter (fun s => skill_hit s resume) job.
Proof.
  revert matched. induction job as [|j job IH]; intros matched; simpl.
  - now rewrite app_nil_r.
  - destruct (skill_hit j resume); rewrite IH.
    + now rewrite <- app_assoc.
    + reflexivity.
Qed.

Lemma missing_filter (f : string -> bool) (l : list string) :
  filter (fun s => negb (Py.mem s (filter f l))) l
  = filter (fun s => negb (f s)) l.
Proof.
  apply filter_ext_in. intros s Hs. f_equal.
  destruct (f s) eqn:Ef.
  - apply mem_iff, filter_In. now split.
  - destruct (Py.mem s (filter f l)) eqn:Em; [|reflexivity].
    apply mem_iff, filter_In in Em. destruct Em as [_ Em]. congruence.
Qed.

Lemma fdiv_unit (m n : Q) :
  0 <= m -> m <= n -> 0 < n -> 0 <= Py.fdiv m n <= 1.
Proof.
  intros Hm Hmn Hn. unfold Py.fdiv.
  assert (H0 : 0 <= m / n) by (apply Qle_shift_div_l; [assumption | lra]).
  assert (H1 : m / n <= 1) by (apply Qle_shift_div_r; [assumption | lra]).
  split; [now apply fl_nonneg|].
  apply (fl_le_int (m / n) 1); [exact H0 | exact H1 | reflexivity].
Qed.

Lemma fmul_100 (x : Q) : 0 <= x <= 1 -> 0 <= Py.fmul x 100 <= 100.
Proof.
  intros [H0 H1]. unfold Py.fmul. split.
  - apply fl_nonneg. lra.
  - change 100 with (inject_Z 100) at 2.
    apply fl_le_int; [lra | change (inject_Z 100) with 100; lra | reflexivity].
Qed.

Lemma round2_range (x : Q) : 0 <= x <= 100 -> 0 <= Py.round2 x <= 100.
Proof.
  intros [H0 H1].
  assert (B0 : inject_Z 0 <= x * 100) by (change (inject_Z 0) with 0; lra).
  assert (B1 : x * 100 <= inject_Z 10000) by (change (inject_Z 10000) with 10000; lra).
  destruct (round_half_even_bounds 0 10000 (x * 100) B0 B1) as [R0 R1].
  unfold Py.round2. unfold Qle. simpl. lia.
Qed.

Lemma percentage_range (m n : Q) :
  0 <= m -> m <= n -> 0 < n ->
  0 <= Py.round2 (Py.fmul (Py.fdiv m n) 100) <= 100.
Proof.
  intros Hm Hmn Hn. now apply round2_range, fmul_100, fdiv_unit.
Qed.

Lemma percentage_full (n : Q) :
  0 < n -> Py.round2 (Py.fmul (Py.fdiv n n) 100) = Py.round2 100.
Proof.
  intros Hn. unfold Py.fdiv.
  assert (E : n / n == 1) by (field; lra).
  rewrite (fl_comp _ _ E). reflexivity.
Qed.

Lemma inject_Z_sub (a b : Z) : inject_Z (a - b) == inject_Z a - inject_Z b.
Proof. unfold Z.sub. rewrite inject_Z_plus, inject_Z_opp. reflexivity. Qed.

(** An integer within one half of [q] is the rounding of [q], unless [q]
    lies halfway between two integers. *)
Lemma round_half_even_unique (q : Q) (k : Z) :
  Qabs (inject_Z k - q) <= 1 # 2 ->
  ~ q - inject_Z (Qfloor q) == 1 # 2 ->
  Py.round_half_even q = k.
Proof.
  intros N T. apply Qabs_Qle_condition in N. unfold Py.round_half_even.
  pose proof (Qfloor_le q) as Hlo. pose proof (Qlt_floor q) as Hhi.
  rewrite inject_Z_plus in Hhi. change (inject_Z 1) with 1 in Hhi.
  set (f := Qfloor q) in *.
  assert (K0 : (f <= k)%Z).
  { assert (H : inject_Z (f - 1) < inject_Z k).
    { rewrite inject_Z_sub. change (inject_Z 1) with 1. lra. }
    rewrite <- Zlt_Qlt in H. lia. }
  assert (K1 : (k <= f + 1)%Z).
  { assert (H : inject_Z k < inject_Z (f + 2)).
    { rewrite inject_Z_plus. change (inject_Z 2) with 2. lra. }
    rewrite <- Zlt_Qlt in H. lia. }
  assert (K : k = f \/ k = (f + 1)%Z) by lia.
  destruct (Qcompare (q - inject_Z f) (1 # 2)) eqn:C.
  - apply Qeq_alt in C. contradiction.
  - apply Qlt_alt in C. destruct K as [K | K]; [now symmetry|].
    exfalso. rewrite K, inject_Z_plus in N. change (inject_Z 1) with 1 in N. lra.
  - apply Qgt_alt in C. destruct K as [K | K]; [|now symmetry].
    exfalso. rewrite K in N. lra.
Qed.

(** Two roundings, of the quotient and of the product, move the value by
    less than what separates a quotient of integers below 2^32 from the
    nearest point halfway between two hundredths. *)
Lemma percentage_near (m n : Z) :
  (0 <= m <= n)%Z -> (0 < n < 2 ^ 32)%Z ->
  Qabs (inject_Z (Py.round_half_even
                    (Py.fmul (Py.fdiv (inject_Z m) (inject_Z n)) 100 * 100))
        - 10000 * inject_Z m / inject_Z n) <= 1 # 2.
Proof.
  intros [Hm Hmn] [Hn Hb].
  assert (M0 : 0 <= inject_Z m) by (change 0 with (inject_Z 0); now rewrite <- Zle_Qle).
  assert (MN : inject_Z m <= inject_Z n) by now rewrite <- Zle_Qle.
  assert (N0 : 0 < inject_Z n) by (change 0 with (inject_Z 0); now rewrite <- Zlt_Qlt).
  assert (NB : inject_Z n <= 4294967295).
  { change 4294967295 with (inject_Z 4294967295). rewrite <- Zle_Qle. lia. }
  set (M := inject_Z m) in *. set (N := inject_Z n) in *.
  set (q := M / N).
  assert (Q0 : 0 <= q) by (apply Qle_shift_div_l; [assumption | lra]).
  assert (Q1 : q <= 1) by (apply Qle_shift_div_r; [assumption | lra]).
  assert (QN : q * N == M) by (subst q; field; lra).
  pose proof (fdiv_unit M N M0 MN N0) as X1.
  pose proof (fl_error q Q0) as E1.
  change (Py.fdiv M N) with (Py.fl q) in *.
  set (x1 := Py.fl q) in *.
  assert (P0 : 0 <= x1 * 100) by lra.
  pose proof (fl_error (x1 * 100) P0) as E2.
  change (Py.fmul x1 100) with (Py.fl (x1 * 100)) in *.
  set (x2 := Py.fl (x1 * 100)) in *.
  pose proof (round_half_even_near (x2 * 100)) as E3.
  set (k := Py.round_half_even (x2 * 100)) in *.
  change (Py.pow2 (-53)) with (1 # 9007199254740992) in E1, E2.
  apply Qabs_Qle_condition in E1, E2, E3.
  assert (Ey : 10000 * M / N == 10000 * q) by (subst q; field; lra).
  rewrite Ey.
  (* the distance of k from 10000 q, scaled by 2 n, is an integer *)
  assert (D : (- n <= 2 * k * n - 20000 * m <= n)%Z).
  { assert (DQ : inject_Z (2 * k * n - 20000 * m)
                 == 2 * (inject_Z k - 10000 * q) * N).
    { rewrite inject_Z_sub, !inject_Z_mult. fold N M.
      change (inject_Z 2) with 2. change (inject_Z 20000) with 20000.
      rewrite <- QN. ring. }
    assert (B : - (1 # 2) - (20000 # 9007199254740992) <= inject_Z k - 10000 * q
                <= (1 # 2) + (20000 # 9007199254740992)) by (split; lra).
    assert (U : -N - 1 < inject_Z (2 * k * n - 20000 * m) < N + 1).
    { rewrite DQ. destruct B as [B0 B1].
      apply (Qmult_le_compat_r _ _ N) in B0; [|lra].
      apply (Qmult_le_compat_r _ _ N) in B1; [|lra].
      split; lra. }
    destruct U as [U0 U1].
    assert (U0' : inject_Z (- n - 1) < inject_Z (2 * k * n - 20000 * m)).
    { rewrite inject_Z_sub, inject_Z_opp. fold N. change (inject_Z 1) with 1. lra. }
    assert (U1' : inject_Z (2 * k * n - 20000 * m) < inject_Z (n + 1)).
    { rewrite inject_Z_plus. fold N. change (inject_Z 1) with 1. lra. }
    rewrite <- Zlt_Qlt in U0', U1'. lia. }
  destruct D as [D0 D1].
  rewrite Zle_Qle in D0, D1.
  rewrite inject_Z_sub, !inject_Z_mult in D0, D1. rewrite inject_Z_opp in D0.
  fold N M in D0, D1.
  change (inject_Z 2) with 2 in D0, D1. change (inject_Z 20000) with 20000 in D0, D1.
  rewrite <- QN in D0, D1.
  apply Qabs_Qle_condition. split.
  - apply (Qmult_lt_0_le_reg_r _ _ N N0). lra.
  - apply (Qmult_lt_0_le_reg_r _ _ N N0). lra.
Qed.

(** For fewer than 2^32 job skills the percentage is a hundredth nearest
    to the exact value, and the one that rounding the exact value gives
    unless that value lies halfway between two hundredths. *)
Lemma percentage_rounds_exact (m n : Z) :
  (0 <= m <= n)%Z -> (0 < n < 2 ^ 32)%Z ->
  let percentage := Py.round2 (Py.fmul (Py.fdiv (inject_Z m) (inject_Z n)) 100) in
  let exact := 100 * inject_Z m / inject_Z n in
  Qabs (percentage - exact) <= 1 # 200 /\
  (~ exact * 100 - inject_Z (Qfloor (exact * 100)) == 1 # 2 ->
   percentage == Py.round2 exact).
Proof.
  intros Hm Hn percentage exact.
  pose proof (percentage_near m n Hm Hn) as N.
  assert (N0 : 0 < inject_Z n).
  { change 0 with (inject_Z 0). rewrite <- Zlt_Qlt. lia. }
  assert (E : 10000 * inject_Z m / inject_Z n == exact * 100).
  { subst exact. field. lra. }
  rewrite E in N. subst percentage. unfold Py.round2 at 1.
  set (k := Py.round_half_even _) in *.
  split.
  - assert (Ek : k # 100 == inject_Z k * (1 # 100)).
    { unfold Qeq, inject_Z. simpl. lia. }
    rewrite Ek. apply Qabs_Qle_condition in N. apply Qabs_Qle_condition.
    split; lra.
  - intros T. unfold Py.round2.
    now rewrite (round_half_even_unique (exact * 100) k N T).
Qed.

(** A tie that the two roundings move: 23 of 160 is 14.375 exactly, the
    float is just below it, and the percentage is 14.37 and not 14.38. *)
Lemma percentage_tie_sample :
  Py.round2 (Py.fmul (Py.fdiv 23 160) 100) == 1437 # 100 /\
  Py.round2 (23 / 160 * 100) == 1438 # 100.
Proof. split; vm_compute; reflexivity. Qed.

Lemma matched_is_filter (job_skills resume_skills : list string) :
  matched_skills (get_skill_matches job_skills resume_skills)
  = filter (fun s => skill_hit s (normalize_skills resume_skills))
           (normalize_skills job_skills).
Proof.
  destruct job_skills as [|j job]; [reflexivity|].
  unfold get_skill_matches. cbn [matched_skills].
  now rewrite match_loop_filter.
Qed.

Lemma percentage_formula (j : string) (job resume_skills : list string) :
  let r := get_skill_matches (j :: job) resume_skills in
  match_percentage r
  = Py.round2 (Py.fmul (Py.fdiv (list_len (matched_skills r))
                                (list_len (normalize_skills (j :: job)))) 100).
Proof. reflexivity. Qed.

(** C10.  The result of [get_skill_matches] splits the normalised job
    skills in two, in their order: [matched_skills] are those that hit a
    resume skill and [missing_skills] are the others.  Every matched skill
    is a lowercased, trimmed job skill, the two lists together are as long
    as the job skill list, and the percentage lies between 0 and 100. *)
Theorem C10_skill_match_partition :
  forall job_skills resume_skills : list string,
    let r := get_skill_matches job_skills resume_skills in
    let job := normalize_skills job_skills in
    let hit := fun s => skill_hit s (normalize_skills resume_skills) in
    matched_skills r = filter hit job /\
    missing_skills r = filter (fun s => negb (hit s)) job /\
    Forall (fun s => exists j, In j job_skills /\ s = Py.strip (Py.lower j))
           (matched_skills r) /\
    (List.length (matched_skills r) + List.length (missing_skills r)
     = List.length job_skills)%nat /\
    0 <= match_percentage r <= 100.
Proof.
  intros job_skills resume_skills r job hit.
  assert (Hm : matched_skills r = filter hit job)
    by apply matched_is_filter.
  assert (Hx : missing_skills r = filter (fun s => negb (hit s)) job).
  { subst r. destruct job_skills as [|j js]; [reflexivity|].
    unfold get_skill_matches. cbn [missing_skills].
    rewrite match_loop_filter. cbn [app]. apply missing_filter. }
  split; [exact Hm|]. split; [exact Hx|]. split; [|split].
  - rewrite Hm. apply Forall_forall. intros s Hs.
    apply filter_In in Hs. destruct Hs as [Hs _].
    unfold job, normalize_skills in Hs. apply in_map_iff in Hs.
    destruct Hs as [j [E Hj]]. exists j. now split.
  - rewrite Hm, Hx, filter_length. unfold job, normalize_skills.
    apply length_map.
  - destruct job_skills as [|j js].
    + subst r. cbn. split; [apply Qle_refl | discriminate].
    + subst r. rewrite percentage_formula.
      unfold list_len. apply percentage_range.
      * change 0 with (inject_Z 0). rewrite <- Zle_Qle. lia.
      * rewrite <- Zle_Qle. apply Nat2Z.inj_le.
        rewrite matched_is_filter. apply filter_length_le.
      * change 0 with (inject_Z 0). rewrite <- Zlt_Qlt. simpl. lia.
Qed.

(** C1, the claim as stated fails: a job skill list that is not empty
    and matches nothing also has percentage 0. *)
Lemma C1_zero_percentage_with_job_skills :
  ~ (match_percentage (get_skill_matches ["python"] []) == 0
     <-> ["python"] = @nil string).
Proof.
  intros [H _].
  assert (E : ["python"] = @nil string) by (apply H; vm_compute; reflexivity).
  discriminate E.
Qed.

(** C1, amended.  A job skill is matched exactly when, both sides
    lowercased and trimmed, it occurs in some resume skill or some resume
    skill occurs in it.  The percentage is 0 for an empty job skill list
    (and also when nothing matches).  Otherwise it is the float quotient
    |matched| / |job skills|, times 100 as a float, rounded to
    hundredths: a multiple of 1/100 which, for fewer than 2^32 job
    skills, lies within 1/200 of the exact value 100 * |matched| /
    |job skills| and is that value rounded to hundredths, unless the exact
    value lies halfway between two hundredths, where the roundings of the
    floats decide the direction. *)
Theorem C1_match_percentage :
  forall job_skills resume_skills : list string,
    let r := get_skill_matches job_skills resume_skills in
    let job := normalize_skills job_skills in
    let resume := normalize_skills resume_skills in
    (exists hit : string -> bool,
       (forall s, hit s = true <->
          exists y, In y resume /\ (Py.occurs_in s y \/ Py.occurs_in y s)) /\
       matched_skills r = filter hit job) /\
    match job_skills with
    | [] => match_percentage r == 0
    | _ =>
        let exact := 100 * list_len (matched_skills r) / list_len job in
        match_percentage r
        == Py.round2 (Py.fmul (Py.fdiv (list_len (matched_skills r)) (list_len job))
                              100) /\
        (exists k : Z, match_percentage r == k # 100) /\
        ((Z.of_nat (List.length job_skills) < 2 ^ 32)%Z ->
         Qabs (match_percentage r - exact) <= 1 # 200 /\
         (~ exact * 100 - inject_Z (Qfloor (exact * 100)) == 1 # 2 ->
          match_percentage r == Py.round2 exact))
    end.
Proof.
  intros job_skills resume_skills r job resume. split.
  - exists (fun s => skill_hit s resume). split.
    + intros s. apply skill_hit_iff.
    + apply matched_is_filter.
  - destruct job_skills as [|j js]; [reflexivity|].
    intros exact. subst r exact. rewrite percentage_formula.
    cbv zeta. fold job.
    split; [reflexivity|]. split.
    + eexists. unfold Py.round2. reflexivity.
    + intros Hlen. unfold list_len.
      apply (percentage_rounds_exact
               (Z.of_nat (List.length
                            (matched_skills (get_skill_matches (j :: js) resume_skills))))
               (Z.of_nat (List.length job))).
      * split; [lia|]. apply Nat2Z.inj_le.
        rewrite matched_is_filter. apply filter_length_le.
      * unfold job, normalize_skills. rewrite length_map.
        split; [simpl; lia | exact Hlen].
Qed.

(** C1 at three job skills of which one is matched: the list is short,
    100 / 3 is not halfway between two hundredths, and the percentage is
    33.33. *)
Lemma C1_match_percentage_witness :
  (Z.of_nat (List.length ["python"; "sql"; "go"]) < 2 ^ 32)%Z /\
  match_percentage (get_skill_matches ["python"; "sql"; "go"] ["Python 3"])
  == 3333 # 100.
Proof.
  assert (Hlen : (Z.of_nat (List.length ["python"; "sql"; "go"]) < 2 ^ 32)%Z)
    by (vm_compute; reflexivity).
  split; [exact Hlen|].
  pose proof (C1_match_percentage ["python"; "sql"; "go"] ["Python 3"]) as H.
  cbv beta iota zeta in H.
  destruct H as [_ [_ [_ H]]]. destruct (H Hlen) as [_ E].
  refine (Qeq_trans _ _ _ (E _) _).
  - intros T. vm_compute in T. discriminate T.
  - vm_compute. reflexivity.
Defined.

End SkillMatches.

(** ** [get_relevant_experience] *)

Section Ranking.

Import RagSystem.
Local Open Scope Z_scope.

(** *** The stable descending sort *)

Variable key : ref -> Z.

Lemma insert_desc_perm (x : ref) (l : list ref) :
  Permutation (insert_desc key x l) (x :: l).
Proof.
  induction l as [|y l IH]; simpl; [reflexivity|].
  destruct (key x <? key y); [|reflexivity].
  rewrite IH. apply perm_swap.
Qed.

Lemma sort_desc_perm (l : list ref) : Permutation (sort_desc key l) l.
Proof.
  induction l as [|x l IH]; simpl; [reflexivity|].
  rewrite insert_desc_perm. now constructor.
Qed.

Lemma insert_desc_sorted (x : ref) (l : list ref) :
  StronglySorted (descending key) l -> StronglySorted (descending key) (insert_desc key x l).
Proof.
  induction l as [|y l IH]; intros Hs; simpl.
  - constructor; constructor.
  - inversion Hs as [|? ? Hl Hy]; subst.
    destruct (key x <? key y) eqn:E.
    + apply Z.ltb_lt in E. constructor; [now apply IH|].
      eapply Permutation_Forall.
      * symmetry. apply insert_desc_perm.
      * constructor; [unfold descending; lia | assumption].
    + apply Z.ltb_ge in E. constructor; [assumption|].
      constructor; [exact E|].
      eapply Forall_impl; [|exact Hy]. unfold descending. intros; lia.
Qed.

Lemma sort_desc_sorted (l : list ref) : StronglySorted (descending key) (sort_desc key l).
Proof.
  induction l as [|x l IH]; simpl; [constructor | now apply insert_desc_sorted].
Qed.

(** Stability: the elements with one given key keep their order. *)
Lemma insert_desc_stable (v : Z) (x : ref) (l : list ref) :
  filter (fun r => key r =? v) (insert_desc key x l)
  = filter (fun r => key r =? v) (x :: l).
Proof.
  induction l as [|y l IH]; [reflexivity|].
  cbn [insert_desc]. destruct (key x <? key y) eqn:E; [|reflexivity].
  apply Z.ltb_lt in E.
  cbn [filter] in *. rewrite IH.
  destruct (key x =? v) eqn:Ex; destruct (key y =? v) eqn:Ey; try reflexivity.
  apply Z.eqb_eq in Ex, Ey. lia.
Qed.

Lemma sort_desc_stable (v : Z) (l : list ref) :
  filter (fun r => key r =? v) (sort_desc key l) = filter (fun r => key r =? v) l.
Proof.
  induction l as [|x l IH]; [reflexivity|].
  cbn [sort_desc]. rewrite insert_desc_stable. cbn [filter]. now rewrite IH.
Qed.

End Ranking.

Section RankingKeys.

Import RagSystem.
Local Open Scope Z_scope.

(** The sort reads the keys of the listed elements only. *)
Lemma insert_desc_ext (k1 k2 : ref -> Z) (x : ref) (l : list ref) :
  k1 x = k2 x -> Forall (fun r => k1 r = k2 r) l ->
  insert_desc k1 x l = insert_desc k2 x l.
Proof.
  intros Hx Hl. induction Hl as [|y l Hy Hl IH]; [reflexivity|].
  simpl. rewrite Hx, Hy, IH. reflexivity.
Qed.

Lemma sort_desc_ext (k1 k2 : ref -> Z) (l : list ref) :
  Forall (fun r => k1 r = k2 r) l -> sort_desc k1 l = sort_desc k2 l.
Proof.
  intros Hl. induction Hl as [|x l Hx Hl IH]; [reflexivity|].
  simpl. rewrite IH. apply insert_desc_ext; [assumption|].
  eapply Permutation_Forall; [symmetry; apply sort_desc_perm | assumption].
Qed.

(** *** The scoring loop *)

Lemma score_of_set (rl : string) (e : Records.experience) (s : Z) :
  score_of rl (set_relevance_score e s) = score_of rl e.
Proof. reflexivity. Qed.

Lemma score_of_range (rl : string) (e : Records.experience) :
  0 <= score_of rl e <= 3.
Proof.
  unfold score_of.
  destruct (get_truthy (Records.title e)) as [t|];
    destruct (get_truthy (Records.description e)) as [d|];
    repeat match goal with |- context [if ?b then _ else _] => destruct b end;
    lia.
Qed.

Lemma score_loop_spec (rl : string) (refs : list ref) :
  forall (h : store) (acc : list ref),
    fst (score_loop rl refs h acc) = acc ++ survivors rl refs h /\
    forall r, snd (score_loop rl refs h acc) r = scored rl refs h r.
Proof.
  induction refs as [|x refs IH]; intros h acc.
  - split; [apply eq_sym, app_nil_r | reflexivity].
  - cbn [score_loop]. destruct (0 <? score_of rl (h x)) eqn:Hpos.
    + set (h1 := store_set h x (set_relevance_score (h x) (score_of rl (h x)))).
      assert (Hs : forall r, score_of rl (h1 r) = score_of rl (h r)).
      { intros r. unfold h1, store_set.
        destruct (Nat.eqb r x) eqn:E; [|reflexivity].
        apply Nat.eqb_eq in E. subst r. apply score_of_set. }
      destruct (IH h1 (acc ++ [x])) as [IH1 IH2]. split.
      * rewrite IH1. unfold survivors. cbn [filter]. rewrite Hpos.
        rewrite <- app_assoc. cbn [app]. do 2 f_equal.
        apply filter_ext. intros r. now rewrite Hs.
      * intros r. rewrite IH2. unfold scored. cbn [existsb].
        rewrite Hs. unfold h1, store_set.
        destruct (Nat.eqb r x) eqn:E.
        -- apply Nat.eqb_eq in E. subst r. cbn [orb]. rewrite Hpos.
           rewrite andb_true_r. now destruct (existsb (Nat.eqb x) refs).
        -- reflexivity.
    + destruct (IH h acc) as [IH1 IH2]. split.
      * rewrite IH1. unfold survivors. cbn [filter]. now rewrite Hpos.
      * intros r. rewrite IH2. unfold scored. cbn [existsb].
        destruct (Nat.eqb r x) eqn:E; [|reflexivity].
        apply Nat.eqb_eq in E. subst r. cbn [orb]. rewrite Hpos.
        now rewrite !andb_false_r.
Qed.

Lemma existsb_eqb_In (r : ref) (refs : list ref) :
  existsb (Nat.eqb r) refs = true <-> In r refs.
Proof.
  rewrite existsb_exists. split.
  - intros [y [Hy E]]. apply Nat.eqb_eq in E. now subst.
  - intros H. exists r. split; [assumption | apply Nat.eqb_refl].
Qed.

Lemma sort_key_scored (rl : string) (refs : list ref) (h : store) (r : ref) :
  In r (survivors rl refs h) ->
  sort_key (scored rl refs h) r = score_of rl (h r).
Proof.
  intros Hr. apply filter_In in Hr. destruct Hr as [Hin Hpos].
  unfold sort_key, scored.
  apply existsb_eqb_In in Hin. now rewrite Hin, Hpos.
Qed.

(** The result of [get_relevant_experience] in closed form. *)
Lemma get_relevant_experience_spec (req : string) (refs : list ref) (h : store) :
  let rl := Py.lower req in
  fst (get_relevant_experience req refs h)
  = firstn 3 (sort_desc (fun r => score_of rl (h r)) (survivors rl refs h)) /\
  forall r, snd (get_relevant_experience req refs h) r = scored rl refs h r.
Proof.
  intros rl. destruct refs as [|x refs]; [split; reflexivity|].
  unfold get_relevant_experience.
  destruct (score_loop_spec rl (x :: refs) h []) as [H1 H2].
  fold rl. destruct (score_loop rl (x :: refs) h []) as [rel h'].
  cbn [fst snd app] in *. subst rel. split; [|exact H2].
  f_equal. apply sort_desc_ext. apply Forall_forall. intros r Hr.
  unfold sort_key. rewrite H2. now apply sort_key_scored.
Qed.

End RankingKeys.

Section RelevantExperience.

Import RagSystem.
Local Open Scope Z_scope.

Lemma in_firstn (n : nat) (l : list ref) (r : ref) : In r (firstn n l) -> In r l.
Proof.
  intros H. rewrite <- (firstn_skipn n l). apply in_or_app. now left.
Qed.

Lemma split_ws_aux_nonempty (s cur keyword : string) :
  In keyword (Py.split_ws_aux cur s) -> keyword <> EmptyString.
Proof.
  revert cur. induction s as [|c s IH]; intros cur; cbn [Py.split_ws_aux].
  - destruct cur; simpl; [tauto | intros [<- | []]; discriminate].
  - destruct (Py.is_space c); [|apply IH].
    destruct cur; cbn [Py.truthy]; [apply IH|].
    intros [<- | H]; [discriminate | now apply IH in H].
Qed.

Lemma occurs_in_empty (a : string) : Py.occurs_in a EmptyString -> a = EmptyString.
Proof.
  intros [p [q H]]. destruct p; [|discriminate]. now destruct a.
Qed.

Lemma any_keyword_in_iff (rl text : string) :
  any_keyword_in rl text = true <->
  exists keyword, In keyword (Py.split_ws rl) /\ Py.occurs_in keyword text.
Proof.
  unfold any_keyword_in. rewrite existsb_exists.
  split; intros [k [Hk Ho]]; exists k; (split; [assumption|]);
    now apply contains_iff.
Qed.

Lemma field_hit_iff (req : string) (field : option string) :
  match get_truthy field with
  | Some t => any_keyword_in (Py.lower req) (Py.lower t)
  | None => false
  end = true <-> has_word req field.
Proof.
  unfold has_word. destruct field as [t|]; cbn [get_truthy].
  - destruct t as [|c t]; cbn [Py.truthy].
    + split; [discriminate|]. intros [text [k [E [Hk Ho]]]].
      injection E as <-. apply occurs_in_empty in Ho.
      now apply split_ws_aux_nonempty in Hk.
    + rewrite any_keyword_in_iff. split.
      * intros [k [Hk Ho]]. now exists (String c t), k.
      * intros [text [k [E [Hk Ho]]]]. injection E as <-. now exists k.
  - split; [discriminate|]. intros [text [k [E _]]]. discriminate.
Qed.

Lemma score_of_meaning (req : string) (e : Records.experience) :
  exists in_title in_description : bool,
    (in_title = true <-> has_word req (Records.title e)) /\
    (in_description = true <-> has_word req (Records.description e)) /\
    score_of (Py.lower req) e
    = (if in_title then 2 else 0) + (if in_description then 1 else 0).
Proof.
  eexists. eexists. split; [apply field_hit_iff|]. split; [apply field_hit_iff|].
  unfold score_of.
  destruct (get_truthy (Records.title e));
    destruct (get_truthy (Records.description e));
    repeat match goal with |- context [if ?b then _ else _] => destruct b end;
    reflexivity.
Qed.

(** C4, the claim as stated fails: for the requirements ["engineer"] the
    entry titled ["Engineer"], without description, has score 0 in the
    words of the claim, which would keep it out of the result; the code
    lowercases the title before it looks for the words, gives it score 2
    and returns it. *)
Lemma C4_title_is_lowercased_first :
  score_as_stated "engineer" (engineer_store 0%nat) = 0 /\
  score_of (Py.lower "engineer") (engineer_store 0%nat) = 2 /\
  fst (get_relevant_experience "engineer" [0%nat] engineer_store) = [0%nat].
Proof. repeat split; reflexivity. Qed.

(** C4, amended.  The score of an entry is 2 if its lowercased title
    contains a whitespace-separated word of the lowercased requirements,
    plus 1 if its lowercased description does.  The result has at most 3
    entries, each with a score of 1, 2 or 3 that is stored under its
    [relevance_score]; it is the first 3 of the entries with a positive
    score, sorted by decreasing score, entries of equal score in their
    original order. *)
Theorem C4_relevant_experience :
  forall (job_requirements : string) (resume_experience : list ref) (h : store),
    let score := fun r => score_of (Py.lower job_requirements) (h r) in
    let result := fst (get_relevant_experience job_requirements resume_experience h) in
    let h' := snd (get_relevant_experience job_requirements resume_experience h) in
    let kept := filter (fun r => 0 <? score r) resume_experience in
    (forall r, exists in_title in_description : bool,
        (in_title = true <-> has_word job_requirements (Records.title (h r))) /\
        (in_description = true <->
         has_word job_requirements (Records.description (h r))) /\
        score r = (if in_title then 2 else 0) + (if in_description then 1 else 0)) /\
    (List.length result <= 3)%nat /\
    Forall (fun r => 1 <= score r <= 3 /\
                     Records.relevance_score (h' r) = Some (score r)) result /\
    exists ranked,
      result = firstn 3 ranked /\
      Permutation ranked kept /\
      StronglySorted (descending score) ranked /\
      forall v, filter (fun r => score r =? v) ranked
                = filter (fun r => score r =? v) kept.
Proof.
  intros req refs h score result h' kept.
  destruct (get_relevant_experience_spec req refs h) as [Hres Hst].
  fold result in Hres. fold h' in Hst.
  change (survivors (Py.lower req) refs h) with kept in Hres.
  change (fun r => score_of (Py.lower req) (h r)) with score in Hres.
  assert (Hperm : Permutation (sort_desc score kept) kept) by apply sort_desc_perm.
  split; [intros r; apply score_of_meaning|].
  split; [rewrite Hres; apply firstn_le_length|].
  split.
  - apply Forall_forall. intros r Hr.
    assert (Hk : In r kept).
    { apply (Permutation_in _ Hperm). rewrite Hres in Hr.
      revert Hr. apply in_firstn. }
    apply filter_In in Hk. destruct Hk as [Hin Hpos].
    pose proof (score_of_range (Py.lower req) (h r)) as Hrange.
    fold (score r) in Hrange. apply Z.ltb_lt in Hpos as Hpos'.
    split; [lia|]. rewrite Hst. unfold scored.
    apply existsb_eqb_In in Hin. rewrite Hin. fold (score r). now rewrite Hpos.
  - exists (sort_desc score kept). split; [exact Hres|]. split; [exact Hperm|].
    split; [apply sort_desc_sorted | intros v; apply sort_desc_stable].
Qed.

(** C8, the claim as stated fails: the call writes the key
    [relevance_score] into an entry of its argument. *)
Lemma C8_entry_is_modified :
  let h' := snd (get_relevant_experience "engineer" [0%nat] engineer_store) in
  Records.relevance_score (engineer_store 0%nat) = None /\
  Records.relevance_score (h' 0%nat) = Some 2 /\
  h' 0%nat <> engineer_store 0%nat.
Proof.
  split; [reflexivity|]. split; [reflexivity|]. discriminate.
Qed.

(** C8, amended.  [get_relevant_experience] changes the entries of its
    argument in one way only: an entry that is listed and has a positive
    score gets that score under [relevance_score]; its other keys, and all
    other entries, are as before.  ([get_skill_matches] only reads its
    arguments: it is the pure function [get_skill_matches] above.) *)
Theorem C8_relevant_experience_frame :
  forall (job_requirements : string) (resume_experience : list ref) (h : store),
    let score := fun r => score_of (Py.lower job_requirements) (h r) in
    let h' := snd (get_relevant_experience job_requirements resume_experience h) in
    forall r,
      let written := existsb (Nat.eqb r) resume_experience && (0 <? score r) in
      h' r = (if written then set_relevance_score (h r) (score r) else h r) /\
      Records.title (h' r) = Records.title (h r) /\
      Records.company (h' r) = Records.company (h r) /\
      Records.period (h' r) = Records.period (h r) /\
      Records.description (h' r) = Records.description (h r) /\
      Records.relevance_score (h' r)
      = (if written then Some (score r) else Records.relevance_score (h r)).
Proof.
  intros req refs h score h' r written.
  destruct (get_relevant_experience_spec req refs h) as [_ Hst].
  fold h' in Hst. specialize (Hst r). unfold scored in Hst.
  fold (score r) in Hst. fold written in Hst.
  rewrite Hst. split; [reflexivity|].
  destruct written; repeat split; reflexivity.
Qed.

End RelevantExperience.

(** ** Substitution *)

Section Substitution.

(** [Re.sub] never runs out of fuel: any two amounts of fuel above the
    length of the subject give the same result. *)
Lemma sub_aux_fuel (icase : bool) (r : Re.regex) (repl : string) (f1 : nat) :
  forall (f2 : nat) (prev : option ascii) (s : string),
    String.length s < f1 -> String.length s < f2 ->
    Re.sub_aux f1 icase r repl prev s = Re.sub_aux f2 icase r repl prev s.
Proof.
  induction f1 as [|f1 IH]; intros f2 prev s H1 H2; [lia|].
  destruct f2 as [|f2]; [lia|].
  destruct s as [|c s]; [reflexivity|].
  cbn [Re.sub_aux]. cbn [String.length] in H1, H2.
  destruct (Re.match_here icase r prev (String c s)) as [[prev' rest]|].
  - destruct (String.length rest <? String.length (String c s)) eqn:E.
    + apply Nat.ltb_lt in E. cbn [String.length] in E.
      f_equal. apply IH; lia.
    + f_equal. apply IH; lia.
  - f_equal. apply IH; lia.
Qed.

End Substitution.

(** ** [extract_skills_from_text] *)

Section Skills.

Import Utils.

Lemma extract_skills_In (text skill : string) :
  In skill (extract_skills_from_text text) <->
  In skill skill_keywords /\ Py.occurs_in skill (Py.lower text).
Proof.
  unfold extract_skills_from_text.
  rewrite nodup_In, filter_In, contains_iff. reflexivity.
Qed.

Lemma occurs_in_append_l (a b c : string) :
  Py.occurs_in a b -> Py.occurs_in a (String.append b c).
Proof.
  intros [p [q ->]]. exists p, (String.append q c).
  now rewrite !append_assoc.
Qed.

(** A word without the character [c] that starts [s ++ c ++ b] ends
    inside [s]. *)
Lemma prefix_sep (c : ascii) (kw s b : string) :
  Py.has_char c kw = false ->
  prefix kw (String.append s (String c b)) = prefix kw s.
Proof.
  revert s. induction kw as [|x kw IH]; intros s Hc.
  - now destruct s.
  - cbn [Py.has_char] in Hc. apply orb_false_iff in Hc. destruct Hc as [Hx Hk].
    destruct s as [|y s]; simpl.
    + destruct (ascii_dec x c) as [->|]; [|reflexivity].
      now rewrite Ascii.eqb_refl in Hx.
    + destruct (ascii_dec x y); [now apply IH | reflexivity].
Qed.

Lemma contains_sep (c : ascii) (kw a b : string) :
  Py.has_char c kw = false ->
  Py.contains kw (String.append a (String c b))
  = Py.contains kw a || Py.contains kw b.
Proof.
  intros Hc. induction a as [|y a IH].
  - change (String.append EmptyString (String c b)) with (String c b).
    cbn [Py.contains]. rewrite orb_false_r.
    now rewrite <- (prefix_sep c kw EmptyString b Hc).
  - change (String.append (String y a) (String c b))
      with (String y (String.append a (String c b))).
    cbn [Py.contains]. rewrite IH.
    rewrite <- (prefix_sep c kw (String y a) b Hc).
    now rewrite orb_assoc.
Qed.

Lemma keywords_on_one_line :
  forallb (fun kw => negb (Py.has_char ResumeParser.NL kw)) skill_keywords = true.
Proof. reflexivity. Qed.

(** C3, the claim as stated fails: in ["ml ht"] no skill occurs, but its
    duplication ["ml html ht"] holds ["html"] across the junction. *)
Lemma C3_duplication_adds_a_skill :
  ~ same_set (extract_skills_from_text (String.append "ml ht" "ml ht"))
             (extract_skills_from_text "ml ht").
Proof.
  intros H. destruct (H "html") as [H1 _].
  assert (Hin : In "html" (extract_skills_from_text (String.append "ml ht" "ml ht")))
    by (vm_compute; auto).
  apply H1 in Hin. vm_compute in Hin. exact Hin.
Qed.

(** C3, amended.  Duplication never loses a skill: every skill extracted
    from [text] is extracted from [text + text].  With a line break between
    the two copies the two sets are equal. *)
Theorem C3_duplication_keeps_skills :
  forall text : string,
    incl (extract_skills_from_text text)
         (extract_skills_from_text (String.append text text)) /\
    same_set (extract_skills_from_text
                (String.append text (String.append ResumeParser.nl text)))
             (extract_skills_from_text text).
Proof.
  intros text. split.
  - intros skill. rewrite !extract_skills_In, lower_append.
    intros [Hk Ho]. split; [assumption | now apply occurs_in_append_l].
  - intros skill. rewrite !extract_skills_In, !lower_append.
    change (Py.lower ResumeParser.nl) with ResumeParser.nl.
    split; intros [Hk Ho]; (split; [assumption|]).
    + apply contains_iff in Ho. apply contains_iff.
      pose proof keywords_on_one_line as Hnl.
      rewrite forallb_forall in Hnl. specialize (Hnl skill Hk).
      apply negb_true_iff in Hnl.
      unfold ResumeParser.nl in Ho. cbn [String.append] in Ho.
      rewrite (contains_sep _ _ _ _ Hnl) in Ho.
      now destruct (Py.contains skill (Py.lower text)).
    + now apply occurs_in_append_l.
Qed.

End Skills.

(** ** [clean_text] *)

Section CleanText.

Import Utils.

Lemma all_chars_ext (p q : ascii -> bool) (s : string) :
  (forall c, p c = q c) -> Py.all_chars p s = Py.all_chars q s.
Proof.
  intros H. induction s as [|c s IH]; [reflexivity|].
  cbn [Py.all_chars]. now rewrite H, IH.
Qed.

Lemma lstrip_all_chars (p : ascii -> bool) (s : string) :
  Py.all_chars p s = true -> Py.all_chars p (Py.lstrip s) = true.
Proof.
  induction s as [|c s IH]; [reflexivity|]. intros H. cbn [Py.lstrip].
  destruct (Py.is_space c); [|exact H].
  cbn [Py.all_chars] in H. apply andb_true_iff in H. now apply IH.
Qed.

Lemma rstrip_all_chars (p : ascii -> bool) (s : string) :
  Py.all_chars p s = true -> Py.all_chars p (Py.rstrip s) = true.
Proof.
  induction s as [|c s IH]; [reflexivity|]. intros H.
  cbn [Py.all_chars] in H. apply andb_true_iff in H. destruct H as [Hc Hs].
  cbn [Py.rstrip]. specialize (IH Hs). destruct (Py.rstrip s) as [|d r].
  - destruct (Py.is_space c); [reflexivity|].
    cbn [Py.all_chars]. now rewrite Hc.
  - cbn [Py.all_chars] in *. now rewrite Hc.
Qed.

Lemma rstrip_idempotent (s : string) : Py.rstrip (Py.rstrip s) = Py.rstrip s.
Proof.
  induction s as [|c s IH]; [reflexivity|]. cbn [Py.rstrip].
  destruct (Py.rstrip s) as [|d r] eqn:E.
  - destruct (Py.is_space c) eqn:Ec; [reflexivity|].
    cbn [Py.rstrip]. now rewrite Ec.
  - cbn [Py.rstrip]. cbn [Py.rstrip] in IH. now rewrite IH.
Qed.

Lemma lstrip_rstrip_lstrip (s : string) :
  Py.lstrip (Py.rstrip (Py.lstrip s)) = Py.rstrip (Py.lstrip s).
Proof.
  induction s as [|c s IH]; [reflexivity|]. cbn [Py.lstrip].
  destruct (Py.is_space c) eqn:Ec; [exact IH|].
  cbn [Py.rstrip]. destruct (Py.rstrip s); rewrite ?Ec; cbn [Py.lstrip];
    now rewrite Ec.
Qed.

(** Removing a character class leaves no character of the class. *)
Lemma sub_chr_all_chars (p : ascii -> bool) (fuel : nat) :
  forall (prev : option ascii) (s : string),
    String.length s < fuel ->
    Py.all_chars (fun c => negb (p c))
      (Re.sub_aux fuel false (Re.Chr p) EmptyString prev s) = true.
Proof.
  induction fuel as [|fuel IH]; intros prev s Hlen; [lia|].
  destruct s as [|c s]; [reflexivity|].
  cbn [Re.sub_aux Re.match_here Re.run]. cbn [String.length] in Hlen.
  destruct (p c) eqn:Ep.
  - replace (String.length s <? String.length (String c s)) with true
      by (symmetry; apply Nat.ltb_lt; simpl; lia).
    cbn [String.append]. apply IH. lia.
  - cbn [Py.all_chars]. rewrite Ep. cbn [negb andb]. apply IH. lia.
Qed.

(** What holds of every result of [clean_text]: it has allowed characters
    only and neither starts nor ends with white space. *)
Lemma clean_text_allowed_and_trimmed (text : option string) :
  Py.all_chars kept_char (clean_text text) = true /\
  Py.lstrip (clean_text text) = clean_text text /\
  Py.rstrip (clean_text text) = clean_text text.
Proof.
  destruct text as [text|]; [|repeat split; reflexivity].
  unfold clean_text. destruct (Py.truthy text); cbn [negb];
    [|repeat split; reflexivity].
  unfold Py.strip. split; [|split].
  - apply rstrip_all_chars, lstrip_all_chars. unfold Re.sub.
    rewrite (all_chars_ext kept_char (fun c => negb (negb (kept_char c))))
      by (intros c; now rewrite negb_involutive).
    apply (sub_chr_all_chars (fun c => negb (kept_char c))).
    apply Nat.lt_succ_diag_r.
  - apply lstrip_rstrip_lstrip.
  - apply rstrip_idempotent.
Qed.

Example clean_text_sample : clean_text (Some "  Hello   World!! ") = "Hello World!!".
Proof. reflexivity. Qed.

Example clean_text_empty : clean_text (Some "") = "" /\ clean_text None = "".
Proof. split; reflexivity. Qed.

(** C5.  On ["a @ b"] the runs of white space are collapsed first and the
    sign is removed afterwards, which leaves two spaces side by side in
    the result. *)
Theorem C5_clean_text_leaves_double_space :
  clean_text (Some "a @ b") = "a  b" /\
  Py.occurs_in "  " (clean_text (Some "a @ b")).
Proof.
  split; [reflexivity|]. apply contains_iff. reflexivity.
Qed.

End CleanText.

(** ** The title and the company of a job posting *)

Section JobPosting.

Import JobExtractor.

(** A selector of the cascade whose element is passed over has a text
    that is not longer than the minimum. *)
Lemma first_qualifying_none (min_length : Z) (selectors : list selector)
  (soup : list node) :
  first_qualifying min_length selectors soup = None ->
  forall sel element,
    In sel selectors -> select_one sel soup = Some element ->
    (Py.len (Utils.clean_text (Some (get_text element))) <= min_length)%Z
    \/ Utils.clean_text (Some (get_text element)) = EmptyString.
Proof.
  induction selectors as [|s0 selectors IH]; intros H sel element Hin Hsel;
    [destruct Hin|].
  cbn [first_qualifying] in H.
  destruct Hin as [-> | Hin].
  - rewrite Hsel in H.
    destruct (Utils.clean_text (Some (get_text element))) as [|c t] eqn:E;
      [now right|].
    cbn [Py.truthy andb] in H.
    destruct (min_length <? Py.len (String c t))%Z eqn:L; [discriminate|].
    left. now apply Z.ltb_ge in L.
  - apply IH with (sel := sel); try assumption.
    destruct (select_one s0 soup) as [e|]; [|exact H].
    destruct (Py.truthy (Utils.clean_text (Some (get_text e)))
              && (min_length <? Py.len (Utils.clean_text (Some (get_text e))))%Z);
      [discriminate H | exact H].
Qed.

(** The step that strips the job-board suffix is reached only with a page
    title of at most 3 characters. *)
Lemma title_fallback_is_short (soup : list node) (title_tag : node) :
  first_qualifying 3 title_selectors soup = None ->
  find "title" soup = Some title_tag ->
  (Py.len (Utils.clean_text (Some (get_text title_tag))) <= 3)%Z.
Proof.
  intros H Hf.
  destruct (first_qualifying_none 3 title_selectors soup H
              (tag_only "title") title_tag) as [L | E].
  - unfold title_selectors. simpl. tauto.
  - exact Hf.
  - exact L.
  - rewrite E. discriminate.
Qed.

Example strip_site_suffix_sample :
  strip_site_suffix "Software Engineer - Indeed" = "Software Engineer".
Proof. reflexivity. Qed.

(** C6.  On a page whose only candidate is its [<title>], the selector
    [title] of the cascade already accepts the text, so the suffix of the
    job board is not removed. *)
Theorem C6_title_keeps_site_suffix :
  first_qualifying 3 (removelast title_selectors) indeed_page = None /\
  _extract_job_title indeed_page = "Software Engineer - Indeed" /\
  strip_site_suffix (_extract_job_title indeed_page) = "Software Engineer".
Proof. repeat split; reflexivity. Qed.

(** C7.  The domain has lost its [.com] before it is compared with
    [linkedin.com], so the URL of a LinkedIn posting falls through to the
    title-cased first label. *)
Theorem C7_linkedin_url_is_title_cased :
  Utils.extract_company_name_from_url "https://www.linkedin.com/jobs/view/123456"
  = "Linkedin" /\
  _extract_company_name indeed_page "https://www.linkedin.com/jobs/view/123456"
  = "Linkedin".
Proof. split; reflexivity. Qed.

End JobPosting.

(** ** The resume pipeline *)

Section Resume.

Import Utils ResumeParser Records.

(** C2, the claim as stated fails: [clean_text] turns every line break
    into a space, the whole text is then one line that is taken for the
    header of the education section, and no entry is extracted. *)
Lemma C2_pipeline_yields_no_entries :
  let resume := _parse_resume_text resume_sample in
  raw_text resume = "Education MIT 2020 Experience Engineer at X 2019-2021" /\
  education_entries resume = [] /\
  experience_entries resume = [].
Proof. repeat split; reflexivity. Qed.

(** C2, amended.  Section segmentation and section-scoped extraction,
    applied to the sample with its line breaks, give an education bucket
    with one entry that has the year ["2020"] and no institution (the line
    [MIT] matches no pattern), and an experience bucket with two entries:
    the title ["Engineer at X"], then the period ["2019-2021"], which
    starts a new entry. *)
Theorem C2_section_extraction :
  let sections := _extract_sections resume_sample in
  sections_get sections sec_education = Py.join nl ["MIT"; "2020"] /\
  sections_get sections sec_experience = Py.join nl ["Engineer at X"; "2019-2021"] /\
  _extract_education (sections_get sections sec_education)
  = [ {| institution := None; degree := None; year := Some "2020"; gpa := None |} ] /\
  _extract_experience (sections_get sections sec_experience)
  = [ {| title := Some "Engineer at X"; company := None; period := None;
         description := None; relevance_score := None |};
      {| title := None; company := None; period := Some "2019-2021";
         description := None; relevance_score := None |} ].
Proof. repeat split; reflexivity. Qed.

(** C9.  [parse_resume] fails on a file whose lowercased extension is not
    [.pdf], [.docx] or [.doc], whatever the decoders do; and
    [validate_file_upload] accepts a file exactly when there is one, its
    lowercased extension is one of the three and its size is at most
    10 * 1024 * 1024 bytes. *)
Theorem C9_file_gate :
  (forall (pdf docx : uploaded_file -> error + string) (f : uploaded_file),
      ~ In (get_file_extension (name f)) [".pdf"; ".docx"; ".doc"] ->
      parse_resume pdf docx f
      = inl (ParseFailed (UnsupportedFormat (get_file_extension (name f))))) /\
  (forall file : option uploaded_file,
      valid (validate_file_upload file) = true <->
      exists f, file = Some f /\
                In (get_file_extension (name f)) [".pdf"; ".docx"; ".doc"] /\
                (size f <= 10 * 1024 * 1024)%Z).
Proof.
  split.
  - intros pdf docx f Hext. unfold parse_resume.
    destruct (String.eqb (get_file_extension (name f)) ".pdf") eqn:Epdf.
    { apply String.eqb_eq in Epdf. exfalso. apply Hext. rewrite Epdf. now left. }
    destruct (Py.mem (get_file_extension (name f)) [".docx"; ".doc"]) eqn:Edoc.
    { apply mem_iff in Edoc. exfalso. apply Hext. now right. }
    reflexivity.
  - intros [f|]; cbn [validate_file_upload].
    + destruct (Py.mem (get_file_extension (name f)) SUPPORTED_FILE_TYPES) eqn:Eext;
        cbn [negb].
      * apply mem_iff in Eext.
        destruct (MAX_FILE_SIZE <? size f)%Z eqn:Esize; cbn [valid].
        -- apply Z.ltb_lt in Esize. unfold MAX_FILE_SIZE in Esize.
           split; [discriminate|]. intros [g [E [_ Hs]]]. injection E as <-. lia.
        -- apply Z.ltb_ge in Esize. unfold MAX_FILE_SIZE in Esize.
           split; [intros _ | reflexivity]. exists f. now repeat split.
      * cbn [valid]. split; [discriminate|].
        intros [g [E [Hin _]]]. injection E as <-.
        apply mem_iff in Hin. unfold SUPPORTED_FILE_TYPES in Eext. congruence.
    + cbn [valid]. split; [discriminate | intros [g [E _]]; discriminate].
Qed.

(** C9 at a text file and at decoders that would accept anything. *)
Lemma C9_file_gate_witness :
  ~ In (get_file_extension "cv.txt") [".pdf"; ".docx"; ".doc"] /\
  parse_resume (fun _ => inr "Education") (fun _ => inr "Education")
    {| name := "cv.txt"; size := 120 |}
  = inl (ParseFailed (UnsupportedFormat ".txt")).
Proof.
  assert (H : ~ In (get_file_extension "cv.txt") [".pdf"; ".docx"; ".doc"]).
  { simpl. intros [H | [H | [H | []]]]; discriminate H. }
  split; [exact H|].
  exact (proj1 C9_file_gate (fun _ => inr "Education") (fun _ => inr "Education")
           {| name := "cv.txt"; size := 120 |} H).
Defined.

End Resume.

(** ** Further properties: what [clean_text] does to line breaks *)

Section OneLine.

Import Utils ResumeParser Records.

(** A greedy repetition followed by nothing always matches, and what is
    left is not longer than the subject. *)
Lemma run_star_total (p : ascii -> bool) (s : string) :
  forall prev : option ascii,
  exists prev' rest,
    Re.run_star p prev s (fun a b => Some (a, b)) = Some (prev', rest) /\
    String.length rest <= String.length s.
Proof.
  induction s as [|c s IH]; intros prev.
  - exists prev, EmptyString. split; [reflexivity | apply Nat.le_refl].
  - cbn [Re.run_star]. destruct (p c).
    + destruct (IH (Some c)) as [prev' [rest [E L]]]. rewrite E.
      exists prev', rest. split; [reflexivity | simpl; lia].
    + exists prev, (String c s). split; [reflexivity | apply Nat.le_refl].
Qed.

Lemma sub_ws_plain (fuel : nat) :
  forall (prev : option ascii) (s : string),
    String.length s < fuel ->
    Py.all_chars Shape.plain
      (Re.sub_aux fuel false (Re.Plus Py.is_space) " " prev s) = true.
Proof.
  induction fuel as [|fuel IH]; intros prev s Hlen; [lia|].
  destruct s as [|c s]; [reflexivity|].
  cbn [Re.sub_aux Re.match_here Re.run Re.Plus]. cbn [String.length] in Hlen.
  destruct (Py.is_space c) eqn:Ec.
  - destruct (run_star_total Py.is_space s (Some c)) as [prev' [rest [E L]]].
    change (fun (prev'0 : option ascii) (s' : string) =>
              Re.run false (Re.Star Py.is_space) prev'0 s'
                (fun (prev'1 : option ascii) (s'0 : string) => Some (prev'1, s'0)))
      with (fun (prev'0 : option ascii) (s' : string) =>
              Re.run_star Py.is_space prev'0 s'
                (fun (a : option ascii) (b : string) => Some (a, b))).
    cbn beta. rewrite E.
    replace (String.length rest <? String.length (String c s)) with true
      by (symmetry; apply Nat.ltb_lt; simpl; lia).
    change (String.append " " ?x) with (String " " x).
    cbn [String.append Py.all_chars]. rewrite IH by lia. reflexivity.
  - cbn [Py.all_chars]. unfold Shape.plain at 1. rewrite Ec. cbn [negb orb andb].
    apply IH. lia.
Qed.

(** Removing characters keeps every property of the characters. *)
Lemma sub_chr_keeps (q p : ascii -> bool) (fuel : nat) :
  forall (prev : option ascii) (s : string),
    Py.all_chars q s = true ->
    Py.all_chars q (Re.sub_aux fuel false (Re.Chr p) EmptyString prev s) = true.
Proof.
  induction fuel as [|fuel IH]; intros prev s Hs; [exact Hs|].
  destruct s as [|c s]; [reflexivity|].
  cbn [Py.all_chars] in Hs. apply andb_true_iff in Hs. destruct Hs as [Hc Hs].
  cbn [Re.sub_aux Re.match_here Re.run].
  destruct (p c).
  - destruct (String.length s <? String.length (String c s)).
    + cbn [String.append]. now apply IH.
    + cbn [Py.all_chars]. rewrite Hc. now apply IH.
  - cbn [Py.all_chars]. rewrite Hc. now apply IH.
Qed.

Lemma clean_text_plain (text : option string) :
  Py.all_chars Shape.plain (clean_text text) = true.
Proof.
  destruct text as [text|]; [|reflexivity].
  unfold clean_text. destruct (Py.truthy text); cbn [negb]; [|reflexivity].
  unfold Py.strip. apply rstrip_all_chars, lstrip_all_chars.
  unfold Re.sub at 1. apply sub_chr_keeps.
  unfold Re.sub. apply sub_ws_plain. apply Nat.lt_succ_diag_r.
Qed.

Lemma plain_no_newline (s : string) :
  Py.all_chars Shape.plain s = true -> Py.has_char NL s = false.
Proof.
  induction s as [|c s IH]; [reflexivity|]. cbn [Py.all_chars Py.has_char].
  intros H. apply andb_true_iff in H. destruct H as [Hc Hs].
  rewrite (IH Hs), orb_false_r.
  destruct (Ascii.eqb c NL) eqn:E; [|reflexivity].
  apply Ascii.eqb_eq in E. subst c. discriminate Hc.
Qed.

Lemma split_on_aux_no_sep (sep : ascii) (s : string) :
  forall cur : string,
    Py.has_char sep s = false ->
    Py.split_on_aux sep cur s = [String.append cur s].
Proof.
  induction s as [|c s IH]; intros cur H.
  - cbn. now rewrite append_nil_r.
  - cbn [Py.has_char] in H. apply orb_false_iff in H. destruct H as [Hc Hs].
    cbn [Py.split_on_aux]. rewrite Hc. rewrite (IH _ Hs).
    now rewrite append_assoc.
Qed.

Lemma strip_clean_text (text : option string) :
  Py.strip (clean_text text) = clean_text text.
Proof.
  destruct (clean_text_allowed_and_trimmed text) as [_ [Hl Hr]].
  unfold Py.strip. now rewrite Hl, Hr.
Qed.

(** On a text without line break no section gets a bucket. *)
Lemma one_line_sections (line : string) (section : section_name) :
  Py.has_char NL line = false -> Py.strip line = line ->
  section <> sec_general ->
  sections_get (_extract_sections line) section = EmptyString.
Proof.
  intros Hnl Hstrip Hsec. unfold _extract_sections, Py.split_on.
  rewrite (split_on_aux_no_sep NL line EmptyString Hnl).
  cbn [String.append fold_left]. unfold segment_line.
  rewrite Hstrip. cbn [current_section current_content seg_sections].
  destruct (Py.truthy line); cbn [negb].
  - destruct (find_section section_keywords line);
      cbn [current_content seg_sections current_section section_name_eqb app].
    + reflexivity.
    + unfold sections_get, sections_set.
      destruct section; try reflexivity. now elim Hsec.
  - reflexivity.
Qed.

Lemma parse_resume_text_one_line (text : string) :
  Py.has_char NL (raw_text (_parse_resume_text text)) = false /\
  education_entries (_parse_resume_text text) = [] /\
  experience_entries (_parse_resume_text text) = [] /\
  project_entries (_parse_resume_text text) = [].
Proof.
  assert (Hnl : Py.has_char NL (clean_text (Some text)) = false)
    by apply plain_no_newline, clean_text_plain.
  pose proof (strip_clean_text (Some text)) as Hstrip.
  unfold _parse_resume_text.
  cbn [raw_text education_entries experience_entries project_entries].
  rewrite (one_line_sections _ sec_education Hnl Hstrip) by discriminate.
  rewrite (one_line_sections _ sec_experience Hnl Hstrip) by discriminate.
  rewrite (one_line_sections _ sec_projects Hnl Hstrip) by discriminate.
  split; [exact Hnl|]. repeat split; reflexivity.
Qed.

(** X1.  Whatever the text, the result of [_parse_resume_text] has no
    education, no experience and no project entry: the cleaned text has no
    line break left, so the segmentation finds no section bucket. *)
Theorem X1_parse_resume_text_finds_no_entries :
  forall text : string,
    let resume := _parse_resume_text text in
    Py.has_char NL (raw_text resume) = false /\
    education_entries resume = [] /\
    experience_entries resume = [] /\
    project_entries resume = [].
Proof. intros text resume. apply parse_resume_text_one_line. Qed.

Lemma inr_injective (A B : Type) (x y : B) : @inr A B x = inr y -> x = y.
Proof. intros H. now injection H. Qed.

(** X2.  A resume that [parse_resume] returns carries the name and the
    size of the file, a text without line break, and no education,
    experience or project entry. *)
Theorem X2_parsed_resume_has_no_entries :
  forall (pdf docx : uploaded_file -> error + string) (f : uploaded_file)
         (resume : resume_data),
    parse_resume pdf docx f = inr resume ->
    filename resume = Some (name f) /\
    file_size resume = Some (size f) /\
    Py.has_char NL (raw_text resume) = false /\
    education_entries resume = [] /\
    experience_entries resume = [] /\
    project_entries resume = [].
Proof.
  intros pdf docx f resume H. unfold parse_resume in H.
  destruct (if String.eqb (get_file_extension (name f)) ".pdf"
            then pdf f
            else if Py.mem (get_file_extension (name f)) [".docx"; ".doc"]
                 then docx f
                 else inl (UnsupportedFormat (get_file_extension (name f))))
    as [e | text]; [discriminate H|].
  apply inr_injective in H. subst resume.
  cbn [filename file_size raw_text education_entries experience_entries
       project_entries].
  destruct (parse_resume_text_one_line text) as [H1 [H2 [H3 H4]]].
  split; [reflexivity|]. split; [reflexivity|]. split; [exact H1|].
  split; [exact H2|]. split; [exact H3 | exact H4].
Qed.

End OneLine.

(** ** Further properties of the match engine *)

Section MatchEngine.

Import RagSystem.
Local Open Scope Q_scope.

Lemma occurs_in_refl (a : string) : Py.occurs_in a a.
Proof. exists EmptyString, EmptyString. cbn. now rewrite append_nil_r. Qed.

Lemma occurs_in_nil (a : string) : Py.occurs_in EmptyString a.
Proof. now exists EmptyString, a. Qed.

Lemma filter_all (A : Type) (f : A -> bool) (l : list A) :
  (forall x, In x l -> f x = true) -> filter f l = l.
Proof.
  induction l as [|x l IH]; intros H; [reflexivity|]. cbn [filter].
  rewrite (H x (or_introl eq_refl)). f_equal. apply IH.
  intros y Hy. apply H. now right.
Qed.

Lemma filter_none (A : Type) (f : A -> bool) (l : list A) :
  (forall x, In x l -> f x = false) -> filter f l = [].
Proof.
  induction l as [|x l IH]; intros H; [reflexivity|]. cbn [filter].
  rewrite (H x (or_introl eq_refl)). apply IH.
  intros y Hy. apply H. now right.
Qed.

Lemma missing_is_filter (job_skills resume_skills : list string) :
  missing_skills (get_skill_matches job_skills resume_skills)
  = filter (fun s => negb (skill_hit s (normalize_skills resume_skills)))
           (normalize_skills job_skills).
Proof.
  destruct job_skills as [|j js]; [reflexivity|].
  unfold get_skill_matches. cbn [missing_skills].
  rewrite match_loop_filter. cbn [app]. apply missing_filter.
Qed.

Lemma round2_100 : Py.round2 100 == 100.
Proof. reflexivity. Qed.

(** When every normalised job skill hits a resume skill, everything is
    matched. *)
Lemma all_hit_full_match (job_skills resume_skills : list string) :
  job_skills <> [] ->
  (forall j, In j (normalize_skills job_skills) ->
             skill_hit j (normalize_skills resume_skills) = true) ->
  matched_skills (get_skill_matches job_skills resume_skills)
  = normalize_skills job_skills /\
  missing_skills (get_skill_matches job_skills resume_skills) = [] /\
  match_percentage (get_skill_matches job_skills resume_skills) == 100.
Proof.
  intros Hne Hall.
  pose proof (matched_is_filter job_skills resume_skills) as Hm.
  pose proof (missing_is_filter job_skills resume_skills) as Hx.
  assert (Em : matched_skills (get_skill_matches job_skills resume_skills)
               = normalize_skills job_skills).
  { rewrite Hm. now apply filter_all. }
  split; [exact Em|]. split.
  - rewrite Hx. apply filter_none. intros j Hj. now rewrite (Hall j Hj).
  - destruct job_skills as [|j js]; [now elim Hne|].
    rewrite percentage_formula. cbv zeta. rewrite Em.
    rewrite percentage_full; [exact round2_100|].
    unfold list_len. change 0 with (inject_Z 0). rewrite <- Zlt_Qlt.
    change (normalize_skills (j :: js))
      with (Py.strip (Py.lower j) :: normalize_skills js).
    cbn [List.length]. lia.
Qed.

End MatchEngine.

Section MatchEngineProperties.

Import RagSystem.
Local Open Scope Q_scope.

(** X3.  A resume that lists every job skill matches completely: nothing
    is missing and the percentage is 100. *)
Theorem X3_listed_skills_match_fully :
  forall job_skills resume_skills : list string,
    job_skills <> [] ->
    incl job_skills resume_skills ->
    let r := get_skill_matches job_skills resume_skills in
    matched_skills r = normalize_skills job_skills /\
    missing_skills r = [] /\
    match_percentage r == 100.
Proof.
  intros job resume Hne Hincl r. apply all_hit_full_match; [exact Hne|].
  intros j Hj. apply skill_hit_iff. exists j. split.
  - unfold normalize_skills in *. apply in_map_iff in Hj.
    destruct Hj as [j0 [<- Hj0]].
    apply (in_map (fun skill => Py.strip (Py.lower skill))). now apply Hincl.
  - left. apply occurs_in_refl.
Qed.

Lemma X3_listed_skills_match_fully_witness :
  ["python"; "SQL"] <> [] /\
  incl ["python"; "SQL"] ["SQL"; "docker"; "python"] /\
  missing_skills (get_skill_matches ["python"; "SQL"] ["SQL"; "docker"; "python"])
  = [].
Proof.
  assert (Hne : ["python"; "SQL"] <> @nil string) by discriminate.
  assert (Hincl : incl ["python"; "SQL"] ["SQL"; "docker"; "python"]).
  { intros x [<- | [<- | []]]; simpl; auto. }
  split; [exact Hne|]. split; [exact Hincl|].
  exact (proj1 (proj2 (X3_listed_skills_match_fully _ _ Hne Hincl))).
Defined.

(** X4.  A resume skill that is empty once lowercased and trimmed occurs
    in every job skill: with one such entry every job skill is matched and
    the percentage is 100. *)
Theorem X4_blank_resume_skill_matches_everything :
  forall (job_skills resume_skills : list string) (blank : string),
    job_skills <> [] ->
    In blank resume_skills ->
    Py.strip (Py.lower blank) = EmptyString ->
    let r := get_skill_matches job_skills resume_skills in
    matched_skills r = normalize_skills job_skills /\
    missing_skills r = [] /\
    match_percentage r == 100.
Proof.
  intros job resume blank Hne Hin Hblank r.
  apply all_hit_full_match; [exact Hne|].
  intros j _. apply skill_hit_iff. exists EmptyString. split.
  - rewrite <- Hblank. unfold normalize_skills.
    apply (in_map (fun skill => Py.strip (Py.lower skill))). exact Hin.
  - right. apply occurs_in_nil.
Qed.

Lemma X4_blank_resume_skill_matches_everything_witness :
  ["kubernetes"; "rust"] <> [] /\
  In "  " ["  "] /\
  Py.strip (Py.lower "  ") = EmptyString /\
  matched_skills (get_skill_matches ["kubernetes"; "rust"] ["  "])
  = ["kubernetes"; "rust"].
Proof.
  assert (Hne : ["kubernetes"; "rust"] <> @nil string) by discriminate.
  assert (Hin : In "  " ["  "]) by (left; reflexivity).
  assert (Hb : Py.strip (Py.lower "  ") = EmptyString) by reflexivity.
  split; [exact Hne|]. split; [exact Hin|]. split; [exact Hb|].
  exact (proj1 (X4_blank_resume_skill_matches_everything _ _ _ Hne Hin Hb)).
Defined.

(** X5.  A second call of [get_relevant_experience] with the same
    requirements, on the entries that the first call has left, returns the
    same list and changes nothing any more. *)
Theorem X5_relevant_experience_twice :
  forall (job_requirements : string) (resume_experience : list ref) (h : store),
    let first := get_relevant_experience job_requirements resume_experience h in
    let second :=
      get_relevant_experience job_requirements resume_experience (snd first) in
    fst second = fst first /\
    forall r, snd second r = snd first r.
Proof.
  intros req refs h first second.
  destruct (get_relevant_experience_spec req refs h) as [F1 S1].
  destruct (get_relevant_experience_spec req refs (snd first)) as [F2 S2].
  fold first in F1, S1. fold second in F2, S2.
  set (rl := Py.lower req) in *.
  assert (Hs : forall r, score_of rl (snd first r) = score_of rl (h r)).
  { intros r. rewrite S1. unfold scored.
    destruct (existsb (Nat.eqb r) refs && (0 <? score_of rl (h r))%Z);
      [apply score_of_set | reflexivity]. }
  assert (Hsurv : survivors rl refs (snd first) = survivors rl refs h).
  { unfold survivors. apply filter_ext. intros r. now rewrite Hs. }
  split.
  - rewrite F2, F1, Hsurv. f_equal. apply sort_desc_ext.
    apply Forall_forall. intros r _. apply Hs.
  - intros r. rewrite S2. unfold scored at 1. rewrite Hs.
    rewrite S1. unfold scored.
    destruct (existsb (Nat.eqb r) refs && (0 <? score_of rl (h r))%Z);
      reflexivity.
Qed.

End MatchEngineProperties.

Section ParsedResumeWitness.

Import Utils ResumeParser.

(** X2 at a PDF whose decoder returns two lines. *)
Lemma X2_parsed_resume_has_no_entries_witness :
  exists resume,
    parse_resume (fun _ => inr resume_sample) (fun _ => inr "")
      {| name := "cv.pdf"; size := 2048 |} = inr resume /\
    education_entries resume = [].
Proof.
  eexists. split; [reflexivity|].
  exact (proj1 (proj2 (proj2 (proj2
    (X2_parsed_resume_has_no_entries (fun _ => inr resume_sample) (fun _ => inr "")
       {| name := "cv.pdf"; size := 2048 |} _ eq_refl))))).
Defined.

End ParsedResumeWitness.

(** ** Further properties: scores that are ratios of counts *)

Section Ratios.

Local Open Scope Q_scope.

Lemma ratio_range (m n : Z) :
  (0 <= m <= n)%Z -> (0 < n)%Z -> 0 <= inject_Z m / inject_Z n <= 1.
Proof.
  intros Hm Hn.
  assert (Hn' : 0 < inject_Z n) by (change 0 with (inject_Z 0); now rewrite <- Zlt_Qlt).
  split.
  - apply Qle_shift_div_l; [exact Hn'|].
    rewrite Qmult_0_l. change 0 with (inject_Z 0). rewrite <- Zle_Qle. lia.
  - apply Qle_shift_div_r; [exact Hn'|].
    rewrite Qmult_1_l. rewrite <- Zle_Qle. lia.
Qed.

Lemma ratio_is_one (m n : Z) :
  (0 < n)%Z -> (inject_Z m / inject_Z n == 1 <-> m = n).
Proof.
  intros Hn.
  assert (Hn' : ~ inject_Z n == 0).
  { intros E. change 0 with (inject_Z 0) in E.
    apply (proj1 (inject_Z_injective _ _)) in E. lia. }
  split.
  - intros H. apply inject_Z_injective.
    rewrite <- (Qmult_div_r (inject_Z m) (inject_Z n) Hn'), H.
    apply Qmult_1_r.
  - intros ->. unfold Qdiv. now apply Qmult_inv_r.
Qed.

Lemma ratio_is_zero (m n : Z) :
  (0 < n)%Z -> (inject_Z m / inject_Z n == 0 <-> m = 0%Z).
Proof.
  intros Hn.
  assert (Hn' : ~ inject_Z n == 0).
  { intros E. change 0 with (inject_Z 0) in E.
    apply (proj1 (inject_Z_injective _ _)) in E. lia. }
  split.
  - intros H. apply inject_Z_injective. change (inject_Z 0) with 0.
    rewrite <- (Qmult_div_r (inject_Z m) (inject_Z n) Hn'), H.
    apply Qmult_0_r.
  - intros ->. unfold Qdiv. change (inject_Z 0) with 0. apply Qmult_0_l.
Qed.

Lemma filter_length_all (A : Type) (f : A -> bool) (l : list A) :
  List.length (filter f l) = List.length l <-> (forall x, In x l -> f x = true).
Proof.
  split.
  - intros H x Hx. apply filter_length_forallb in H.
    rewrite forallb_forall in H. now apply H.
  - intros H. now rewrite filter_all.
Qed.

Lemma filter_length_none (A : Type) (f : A -> bool) (l : list A) :
  List.length (filter f l) = 0%nat <-> (forall x, In x l -> f x = false).
Proof.
  split.
  - intros H x Hx. destruct (f x) eqn:E; [|reflexivity].
    assert (Hin : In x (filter f l)) by (apply filter_In; now split).
    destruct (filter f l); [destruct Hin | discriminate H].
  - intros H. now rewrite filter_none.
Qed.

Lemma nodup_length_le (l : list string) :
  (List.length (nodup string_dec l) <= List.length l)%nat.
Proof.
  induction l as [|x l IH]; [apply Nat.le_refl|]. cbn [nodup].
  destruct (in_dec string_dec x l); simpl; lia.
Qed.

Import RagRetrieval.

(** X6.  The keyword score of a document lies between 0 and 1.  It is 1
    exactly when the query has a word and each of its words is a word of
    the content; it is 0 exactly when no word of the query is a word of the
    content (in particular for a query without words).  Words are compared
    lowercased. *)
Theorem X6_relevance_score_range :
  forall query content : string,
    let score := _calculate_relevance_score query content in
    let query_words := word_set query in
    let content_words := word_set content in
    0 <= score <= 1 /\
    (score == 1 <-> query_words <> [] /\ incl query_words content_words) /\
    (score == 0 <-> forall w, In w query_words -> ~ In w content_words).
Proof.
  intros query content score qw cw. unfold score, _calculate_relevance_score.
  fold qw cw. destruct qw as [|w0 qw'] eqn:Eq.
  - split; [split; [apply Qle_refl | discriminate]|]. split.
    + split; [discriminate | intros [H _]; now elim H].
    + split; [intros _ w [] | reflexivity].
  - set (f := fun w => Py.mem w cw).
    set (m := List.length (filter f (w0 :: qw'))).
    set (n := List.length (w0 :: qw')).
    assert (Hmn : (m <= n)%nat) by apply filter_length_le.
    assert (Hn : (0 < n)%nat) by (unfold n; simpl; lia).
    split; [apply ratio_range; lia|]. split.
    + rewrite ratio_is_one by lia. rewrite Nat2Z.inj_iff.
      unfold m, n. rewrite filter_length_all. split.
      * intros H. split; [discriminate|]. intros w Hw.
        apply mem_iff. now apply H.
      * intros [_ H] w Hw. apply mem_iff. now apply H.
    + rewrite ratio_is_zero by lia.
      change 0%Z with (Z.of_nat 0). rewrite Nat2Z.inj_iff.
      unfold m. rewrite filter_length_none. split.
      * intros H w Hw Hc. apply mem_iff in Hc. unfold f in H.
        rewrite (H w Hw) in Hc. discriminate Hc.
      * intros H w Hw. unfold f. destruct (Py.mem w cw) eqn:E; [|reflexivity].
        apply mem_iff in E. now elim (H w Hw).
Qed.

Import RagSystem.

(** X7.  The skill figures that the page shows count exact matches only:
    every skill they count is, once normalised, among the matched skills of
    [get_skill_matches], and the percentage shown lies between 0 and
    100. *)
Theorem X7_exact_matches_are_matched :
  forall job_skills resume_skills : list string,
    incl (normalize_skills (App.matched_skills job_skills resume_skills))
         (matched_skills (get_skill_matches job_skills resume_skills)) /\
    0 <= App.match_percentage job_skills resume_skills <= 100.
Proof.
  intros job resume. split.
  - intros x Hx. unfold normalize_skills in Hx. apply in_map_iff in Hx.
    destruct Hx as [x0 [<- Hx0]]. unfold App.matched_skills in Hx0.
    apply nodup_In, filter_In in Hx0. destruct Hx0 as [Hjob Hres].
    apply mem_iff in Hres. rewrite matched_is_filter. apply filter_In. split.
    + now apply (in_map (fun skill => Py.strip (Py.lower skill))).
    + apply skill_hit_iff. exists (Py.strip (Py.lower x0)). split.
      * now apply (in_map (fun skill => Py.strip (Py.lower skill))).
      * left. apply occurs_in_refl.
  - unfold App.match_percentage. destruct job as [|j job'] eqn:Ej.
    + split; [apply Qle_refl | discriminate].
    + rewrite <- Ej.
      set (m := List.length (App.matched_skills job resume)).
      set (n := List.length job).
      assert (Hmn : (m <= n)%nat).
      { unfold m, n, App.matched_skills.
        eapply Nat.le_trans; [apply nodup_length_le | apply filter_length_le]. }
      assert (Hn : (0 < n)%nat) by (unfold n; rewrite Ej; simpl; lia).
      destruct (ratio_range (Z.of_nat m) (Z.of_nat n)) as [H0 H1]; [lia | lia |].
      split; lra.
Qed.

End Ratios.

(** ** Further properties of [extract_skills_from_text] *)

Section SkillVocabulary.

Import Utils.

Lemma occurs_in_trans (a b c : string) :
  Py.occurs_in a b -> Py.occurs_in b c -> Py.occurs_in a c.
Proof.
  intros [p [q ->]] [p' [q' ->]].
  exists (String.append p' p), (String.append q q').
  now rewrite !append_assoc.
Qed.

Lemma lower_char_idempotent (c : ascii) :
  Py.lower_char (Py.lower_char c) = Py.lower_char c.
Proof.
  destruct c as [[] [] [] [] [] [] [] []]; reflexivity.
Qed.

Lemma lower_idempotent (s : string) : Py.lower (Py.lower s) = Py.lower s.
Proof.
  induction s as [|c s IH]; [reflexivity|]. cbn [Py.lower].
  now rewrite lower_char_idempotent, IH.
Qed.

(** X8.  A vocabulary term that is contained in another one is reported
    whenever the longer one is: a text in which [javascript] is found is
    also credited with [java]. *)
Theorem X8_contained_keyword_is_reported :
  forall text shorter longer : string,
    In shorter skill_keywords ->
    Py.occurs_in shorter longer ->
    In longer (extract_skills_from_text text) ->
    In shorter (extract_skills_from_text text).
Proof.
  intros text shorter longer Hk Ho Hl.
  apply extract_skills_In in Hl. apply extract_skills_In.
  split; [exact Hk | eapply occurs_in_trans; [exact Ho | apply Hl]].
Qed.

Lemma X8_contained_keyword_is_reported_witness :
  In "java" skill_keywords /\
  Py.occurs_in "java" "javascript" /\
  In "javascript" (extract_skills_from_text "Front end in JavaScript") /\
  In "java" (extract_skills_from_text "Front end in JavaScript").
Proof.
  assert (Hk : In "java" skill_keywords) by (simpl; auto).
  assert (Ho : Py.occurs_in "java" "javascript") by (now exists "", "script").
  assert (Hl : In "javascript" (extract_skills_from_text "Front end in JavaScript"))
    by (vm_compute; auto).
  split; [exact Hk|]. split; [exact Ho|]. split; [exact Hl|].
  exact (X8_contained_keyword_is_reported _ _ _ Hk Ho Hl).
Defined.

(** X9.  The result of [extract_skills_from_text] has no duplicates and
    only terms of the vocabulary, does not depend on the case of the text,
    and never loses a skill when text is added in front or behind. *)
Theorem X9_skills_shape_and_growth :
  forall before text after : string,
    NoDup (extract_skills_from_text text) /\
    incl (extract_skills_from_text text) skill_keywords /\
    extract_skills_from_text (Py.lower text) = extract_skills_from_text text /\
    incl (extract_skills_from_text text)
         (extract_skills_from_text
            (String.append before (String.append text after))).
Proof.
  intros before text after. split; [|split; [|split]].
  - apply NoDup_nodup.
  - intros x Hx. now apply extract_skills_In in Hx.
  - unfold extract_skills_from_text. now rewrite lower_idempotent.
  - intros x Hx. apply extract_skills_In in Hx. destruct Hx as [Hk Ho].
    apply extract_skills_In. split; [exact Hk|].
    rewrite !lower_append. destruct Ho as [p [q ->]].
    exists (String.append (Py.lower before) p),
           (String.append q (Py.lower after)).
    now rewrite !append_assoc.
Qed.

End SkillVocabulary.

(** ** Further properties of the section extractors *)

Section EntryMachines.

Import ResumeParser Records Shape.

Lemma after_first_snoc (A : Type) (P : A -> Prop) (l : list A) (x : A) :
  after_first P l -> (l <> [] -> P x) -> after_first P (l ++ [x]).
Proof.
  unfold after_first. destruct l as [|y l]; intros Hl Hx; [constructor|].
  cbn [app tl] in *. apply Forall_app. split; [exact Hl|].
  constructor; [apply Hx; discriminate | constructor].
Qed.

Lemma filter_snoc (A : Type) (f : A -> bool) (l : list A) (x : A) :
  filter f (l ++ [x]) = filter f l ++ (if f x then [x] else []).
Proof. rewrite filter_app. reflexivity. Qed.

(** *** [_extract_experience] *)

Lemma has_period_truthy (e : experience) :
  has_period e = true -> experience_truthy e = true.
Proof.
  unfold has_period, experience_truthy. intros ->.
  now rewrite !orb_true_r.
Qed.

Lemma experience_line_inv (seen : list string)
  (st : list experience * experience) (line : string) :
  experience_inv seen st ->
  experience_inv (seen ++ [line]) (experience_line st line).
Proof.
  destruct st as [l cur]. intros [Hall [Haf [Hrel [Hcur Hcount]]]].
  unfold experience_line, experience_inv.
  rewrite filter_snoc, length_app. unfold trigger_line at 2.
  destruct (Py.truthy (Py.strip line)); cbn [negb andb].
  2:{ cbn [List.length]. rewrite Nat.add_0_r. repeat split; assumption. }
  destruct (Re.search false period_re (Py.strip line)).
  - cbn [List.length has_period period is_some relevance_score].
    destruct (experience_truthy cur) eqn:Et.
    + split; [|split; [|split; [|split]]].
      * apply Forall_app. split; [exact Hall|]. constructor; [now split | constructor].
      * now apply after_first_snoc.
      * reflexivity.
      * reflexivity.
      * rewrite filter_snoc, length_app.
        destruct (has_period cur); cbn [List.length] in *; lia.
    + split; [exact Hall|]. split; [exact Haf|]. split; [reflexivity|].
      split; [reflexivity|].
      destruct (has_period cur) eqn:Ep.
      * apply has_period_truthy in Ep. congruence.
      * lia.
  - cbn [List.length]. rewrite Nat.add_0_r.
    repeat match goal with
           | |- context [if ?b then _ else _] =>
               lazymatch b with
               | has_period _ => fail
               | _ => destruct b
               end
           end;
      repeat match goal with
             | |- context [match ?o with Some _ => _ | None => _ end] =>
                 lazymatch o with
                 | title cur => destruct (title cur)
                 | company cur => destruct (company cur)
                 | description cur => destruct (description cur)
                 end
             end;
      repeat split; assumption.
Qed.

Lemma experience_fold_inv (lines : list string) :
  forall (seen : list string) (st : list experience * experience),
    experience_inv seen st ->
    experience_inv (seen ++ lines) (fold_left experience_line lines st).
Proof.
  induction lines as [|line lines IH]; intros seen st H.
  - now rewrite app_nil_r.
  - cbn [fold_left].
    replace (seen ++ line :: lines) with ((seen ++ [line]) ++ lines)
      by (now rewrite <- app_assoc).
    apply IH. now apply experience_line_inv.
Qed.

Lemma experience_entries_shape (experience_text : string) :
  Forall (fun e => experience_truthy e = true /\ relevance_score e = None)
         (_extract_experience experience_text) /\
  after_first (fun e => has_period e = true) (_extract_experience experience_text) /\
  List.length (filter has_period (_extract_experience experience_text))
  = List.length (trigger_lines false period_re experience_text).
Proof.
  unfold _extract_experience, trigger_lines.
  destruct experience_text as [|c t] eqn:E; cbn [Py.truthy negb].
  - repeat split; try constructor.
  - rewrite <- E.
    assert (H0 : experience_inv [] ([], empty_experience)).
    { repeat split; try constructor. intros C. now elim C. }
    pose proof (experience_fold_inv (Py.split_on NL experience_text) []
                  ([], empty_experience) H0) as H.
    cbn [app] in H.
    destruct (fold_left experience_line (Py.split_on NL experience_text)
                ([], empty_experience)) as [l cur].
    destruct H as [Hall [Haf [Hrel [Hcur Hcount]]]].
    destruct (experience_truthy cur) eqn:Et.
    + split; [|split].
      * apply Forall_app. split; [exact Hall|]. constructor; [now split | constructor].
      * now apply after_first_snoc.
      * rewrite filter_snoc, length_app, <- Hcount.
        destruct (has_period cur); reflexivity.
    + split; [exact Hall|]. split; [exact Haf|].
      rewrite <- Hcount. destruct (has_period cur) eqn:Ep; [|lia].
      apply has_period_truthy in Ep. congruence.
Qed.

(** X10.  Whatever the section text, every entry that
    [_extract_experience] returns has at least one key and no
    [relevance_score]; every entry but the first has a period; and the
    entries with a period are as many as the lines that match the
    year-range pattern. *)
Theorem X10_experience_entries_shape :
  forall experience_text : string,
    let entries := _extract_experience experience_text in
    Forall (fun e => experience_truthy e = true /\ relevance_score e = None)
           entries /\
    after_first (fun e => has_period e = true) entries /\
    List.length (filter has_period entries)
    = List.length (trigger_lines false period_re experience_text).
Proof. intros t. apply experience_entries_shape. Qed.

(** *** [_extract_education] *)

Lemma has_institution_truthy (e : education) : has_institution e = true -> education_truthy e = true.
Proof.
  unfold has_institution, education_truthy. intros ->. now rewrite ?orb_true_r.
Qed.

Lemma education_line_inv (seen : list string) (st : list education * education) (line : string) :
  education_inv seen st -> education_inv (seen ++ [line]) (education_line st line).
Proof.
  destruct st as [l cur]. intros [Hall [Haf [Hcur Hcount]]].
  unfold education_line, education_inv.
  rewrite filter_snoc, length_app. unfold trigger_line at 2.
  destruct (Py.truthy (Py.strip line)); cbn [negb andb].
  2:{ cbn [List.length]. rewrite Nat.add_0_r. repeat split; assumption. }
  destruct (Re.search true institution_re (Py.strip line)).
  - cbn [List.length has_institution institution is_some].
    destruct (education_truthy cur) eqn:Et.
    + split; [|split; [|split]].
      * apply Forall_app. split; [exact Hall|]. constructor; [exact Et | constructor].
      * now apply after_first_snoc.
      * reflexivity.
      * rewrite filter_snoc, length_app.
        destruct (has_institution cur); cbn [List.length] in *; lia.
    + split; [exact Hall|]. split; [exact Haf|]. split; [reflexivity|].
      destruct (has_institution cur) eqn:Ep.
      * apply has_institution_truthy in Ep. congruence.
      * lia.
  - cbn [List.length]. rewrite Nat.add_0_r.
    repeat match goal with
           | |- context [if ?b then _ else _] =>
               lazymatch b with
               | has_institution _ => fail
               | _ => destruct b
               end
           end;
      repeat split; assumption.
Qed.

Lemma education_fold_inv (lines : list string) :
  forall (seen : list string) (st : list education * education),
    education_inv seen st -> education_inv (seen ++ lines) (fold_left education_line lines st).
Proof.
  induction lines as [|line lines IH]; intros seen st H.
  - now rewrite app_nil_r.
  - cbn [fold_left].
    replace (seen ++ line :: lines) with ((seen ++ [line]) ++ lines)
      by (now rewrite <- app_assoc).
    apply IH. now apply education_line_inv.
Qed.

Lemma education_entries_shape (text : string) :
  Forall (fun e => education_truthy e = true) (_extract_education text) /\
  after_first (fun e => has_institution e = true) (_extract_education text) /\
  List.length (filter has_institution (_extract_education text))
  = List.length (trigger_lines true institution_re text).
Proof.
  unfold _extract_education, trigger_lines.
  destruct text as [|c t] eqn:E; cbn [Py.truthy negb].
  - repeat split; try constructor.
  - rewrite <- E.
    assert (H0 : education_inv [] ([], empty_education)).
    { repeat split; try constructor. intros C. now elim C. }
    pose proof (education_fold_inv (Py.split_on NL text) [] ([], empty_education) H0) as H.
    cbn [app] in H.
    destruct (fold_left education_line (Py.split_on NL text) ([], empty_education))
      as [l cur].
    destruct H as [Hall [Haf [Hcur Hcount]]].
    destruct (education_truthy cur) eqn:Et.
    + split; [|split].
      * apply Forall_app. split; [exact Hall|]. constructor; [exact Et | constructor].
      * now apply after_first_snoc.
      * rewrite filter_snoc, length_app, <- Hcount.
        destruct (has_institution cur); reflexivity.
    + split; [exact Hall|]. split; [exact Haf|].
      rewrite <- Hcount. destruct (has_institution cur) eqn:Ep; [|lia].
      apply has_institution_truthy in Ep. congruence.
Qed.

(** *** [_extract_projects] *)

Lemma has_name_truthy (e : project) : has_name e = true -> project_truthy e = true.
Proof.
  unfold has_name, project_truthy. intros ->. now rewrite ?orb_true_r.
Qed.

Lemma project_line_inv (seen : list string) (st : list project * project) (line : string) :
  project_inv seen st -> project_inv (seen ++ [line]) (project_line st line).
Proof.
  destruct st as [l cur]. intros [Hall [Haf [Hcur Hcount]]].
  unfold project_line, project_inv.
  rewrite filter_snoc, length_app. unfold trigger_line at 2.
  destruct (Py.truthy (Py.strip line)); cbn [negb andb].
  2:{ cbn [List.length]. rewrite Nat.add_0_r. repeat split; assumption. }
  destruct (Re.search true project_re (Py.strip line)).
  - cbn [List.length has_name project_name is_some].
    destruct (project_truthy cur) eqn:Et.
    + split; [|split; [|split]].
      * apply Forall_app. split; [exact Hall|]. constructor; [exact Et | constructor].
      * now apply after_first_snoc.
      * reflexivity.
      * rewrite filter_snoc, length_app.
        destruct (has_name cur); cbn [List.length] in *; lia.
    + split; [exact Hall|]. split; [exact Haf|]. split; [reflexivity|].
      destruct (has_name cur) eqn:Ep.
      * apply has_name_truthy in Ep. congruence.
      * lia.
  - cbn [List.length]. rewrite Nat.add_0_r.
    repeat match goal with
           | |- context [if ?b then _ else _] =>
               lazymatch b with
               | has_name _ => fail
               | _ => destruct b
               end
           end;
      repeat split; assumption.
Qed.

Lemma project_fold_inv (lines : list string) :
  forall (seen : list string) (st : list project * project),
    project_inv seen st -> project_inv (seen ++ lines) (fold_left project_line lines st).
Proof.
  induction lines as [|line lines IH]; intros seen st H.
  - now rewrite app_nil_r.
  - cbn [fold_left].
    replace (seen ++ line :: lines) with ((seen ++ [line]) ++ lines)
      by (now rewrite <- app_assoc).
    apply IH. now apply project_line_inv.
Qed.

Lemma project_entries_shape (text : string) :
  Forall (fun e => project_truthy e = true) (_extract_projects text) /\
  after_first (fun e => has_name e = true) (_extract_projects text) /\
  List.length (filter has_name (_extract_projects text))
  = List.length (trigger_lines true project_re text).
Proof.
  unfold _extract_projects, trigger_lines.
  destruct text as [|c t] eqn:E; cbn [Py.truthy negb].
  - repeat split; try constructor.
  - rewrite <- E.
    assert (H0 : project_inv [] ([], empty_project)).
    { repeat split; try constructor. intros C. now elim C. }
    pose proof (project_fold_inv (Py.split_on NL text) [] ([], empty_project) H0) as H.
    cbn [app] in H.
    destruct (fold_left project_line (Py.split_on NL text) ([], empty_project))
      as [l cur].
    destruct H as [Hall [Haf [Hcur Hcount]]].
    destruct (project_truthy cur) eqn:Et.
    + split; [|split].
      * apply Forall_app. split; [exact Hall|]. constructor; [exact Et | constructor].
      * now apply after_first_snoc.
      * rewrite filter_snoc, length_app, <- Hcount.
        destruct (has_name cur); reflexivity.
    + split; [exact Hall|]. split; [exact Haf|].
      rewrite <- Hcount. destruct (has_name cur) eqn:Ep; [|lia].
      apply has_name_truthy in Ep. congruence.
Qed.
(** X11.  Whatever the section text, every entry that
    [_extract_education] returns has at least one key; every entry but the
    first has an institution; and the entries with an institution are as
    many as the lines that name a University, College, School, Institute
    or Academy. *)
Theorem X11_education_entries_shape :
  forall education_text : string,
    let entries := _extract_education education_text in
    Forall (fun e => education_truthy e = true) entries /\
    after_first (fun e => has_institution e = true) entries /\
    List.length (filter has_institution entries)
    = List.length (trigger_lines true institution_re education_text).
Proof. intros t. apply education_entries_shape. Qed.

(** X12.  Whatever the section text, every entry that
    [_extract_projects] returns has at least one key; every entry but the
    first has a name; and the entries with a name are as many as the lines
    with one of the words Project, App, System, Platform or Tool. *)
Theorem X12_project_entries_shape :
  forall projects_text : string,
    let entries := _extract_projects projects_text in
    Forall (fun e => project_truthy e = true) entries /\
    after_first (fun e => has_name e = true) entries /\
    List.length (filter has_name entries)
    = List.length (trigger_lines true project_re projects_text).
Proof. intros t. apply project_entries_shape. Qed.

End EntryMachines.

(** ** Further properties of the section segmentation *)

Section Segmentation.

Import ResumeParser Records Shape.

Lemma split_on_aux_app (sep : ascii) (x rest : string) :
  forall cur : string,
    Py.has_char sep x = false ->
    Py.split_on_aux sep cur (String.append x (String sep rest))
    = String.append cur x :: Py.split_on_aux sep EmptyString rest.
Proof.
  induction x as [|c x IH]; intros cur H.
  - cbn [String.append Py.split_on_aux]. rewrite Ascii.eqb_refl.
    now rewrite append_nil_r.
  - cbn [Py.has_char] in H. apply orb_false_iff in H. destruct H as [Hc Hx].
    cbn [String.append Py.split_on_aux]. rewrite Hc. rewrite (IH _ Hx).
    now rewrite append_assoc.
Qed.

(** Joining lines and splitting again gives the lines back. *)
Lemma split_join (line : string) (lines : list string) :
  Forall (fun l => Py.has_char NL l = false) (line :: lines) ->
  Py.split_on NL (Py.join nl (line :: lines)) = line :: lines.
Proof.
  revert line. induction lines as [|l2 lines IH]; intros line H.
  - inversion H as [|? ? Hl _]; subst. unfold Py.split_on, Py.join.
    cbn [String.concat]. now rewrite split_on_aux_no_sep.
  - inversion H as [|? ? Hl Hrest]; subst.
    unfold Py.split_on, Py.join in *. cbn [String.concat].
    unfold nl at 1. cbn [String.append].
    rewrite (split_on_aux_app NL line _ EmptyString Hl).
    cbn [String.append]. f_equal. now apply IH.
Qed.

Lemma split_on_aux_pieces (sep : ascii) (s : string) :
  forall cur : string,
    Py.has_char sep cur = false ->
    Forall (fun l => Py.has_char sep l = false) (Py.split_on_aux sep cur s).
Proof.
  induction s as [|c s IH]; intros cur H; cbn [Py.split_on_aux].
  - constructor; [exact H | constructor].
  - destruct (Ascii.eqb c sep) eqn:E.
    + constructor; [exact H | now apply IH].
    + apply IH. clear IH. induction cur as [|d cur IHc].
      * cbn. now rewrite E.
      * cbn [Py.has_char String.append] in *.
        apply orb_false_iff in H. destruct H as [Hd Hc].
        rewrite Hd. now apply IHc.
Qed.

Lemma lstrip_has_char (c : ascii) (s : string) :
  Py.has_char c s = false -> Py.has_char c (Py.lstrip s) = false.
Proof.
  induction s as [|d s IH]; [reflexivity|]. intros H. cbn [Py.lstrip].
  destruct (Py.is_space d); [|exact H].
  cbn [Py.has_char] in H. apply orb_false_iff in H. now apply IH.
Qed.

Lemma rstrip_has_char (c : ascii) (s : string) :
  Py.has_char c s = false -> Py.has_char c (Py.rstrip s) = false.
Proof.
  induction s as [|d s IH]; [reflexivity|]. intros H.
  cbn [Py.has_char] in H. apply orb_false_iff in H. destruct H as [Hd Hs].
  cbn [Py.rstrip]. specialize (IH Hs). destruct (Py.rstrip s) as [|e r].
  - destruct (Py.is_space d); [reflexivity|]. cbn [Py.has_char]. now rewrite Hd.
  - cbn [Py.has_char] in *. now rewrite Hd.
Qed.

Lemma strip_idempotent (s : string) : Py.strip (Py.strip s) = Py.strip s.
Proof.
  unfold Py.strip. now rewrite lstrip_rstrip_lstrip, rstrip_idempotent.
Qed.

Lemma table_keywords_lowercase :
  forallb (fun entry =>
             forallb (fun keyword => String.eqb (Py.lower keyword) keyword)
                     (snd entry))
          section_keywords = true.
Proof. reflexivity. Qed.

Lemma find_section_none (table : list (section_name * list string)) (line : string) :
  find_section table line = None ->
  forall section keywords keyword,
    In (section, keywords) table -> In keyword keywords ->
    Py.contains (Py.lower keyword) (Py.lower line) = false.
Proof.
  induction table as [|[sec kws] table IH]; intros H section keywords keyword Hin Hk;
    [destruct Hin|].
  cbn [find_section] in H.
  destruct (existsb (fun keyword => Py.contains (Py.lower keyword) (Py.lower line)) kws)
    eqn:E; [discriminate H|].
  destruct Hin as [Heq | Hin].
  - injection Heq as <- <-.
    destruct (Py.contains (Py.lower keyword) (Py.lower line)) eqn:C; [|reflexivity].
    assert (Hex : existsb (fun keyword => Py.contains (Py.lower keyword) (Py.lower line))
                          kws = true)
      by (apply existsb_exists; now exists keyword).
    congruence.
  - now apply (IH H section keywords keyword).
Qed.

Lemma find_section_keyword_free (line : string) :
  find_section section_keywords line = None -> keyword_free line.
Proof.
  intros H section keywords keyword Hin Hk Ho.
  pose proof (find_section_none _ _ H section keywords keyword Hin Hk) as C.
  pose proof table_keywords_lowercase as L.
  rewrite forallb_forall in L. specialize (L _ Hin). cbn [snd] in L.
  rewrite forallb_forall in L. specialize (L _ Hk).
  apply String.eqb_eq in L. rewrite L in C.
  apply contains_iff in Ho. congruence.
Qed.

Lemma segment_line_inv (st : segmenter) (line : string) :
  Py.has_char NL line = false ->
  bucket_lines (current_content st) ->
  (forall k, exists ls, sections_get (seg_sections st) k = Py.join nl ls /\
                        bucket_lines ls) ->
  bucket_lines (current_content (segment_line st line)) /\
  (forall k, exists ls,
      sections_get (seg_sections (segment_line st line)) k = Py.join nl ls /\
      bucket_lines ls).
Proof.
  intros Hnl Hc Hs. unfold segment_line.
  destruct (Py.truthy (Py.strip line)) eqn:Et; cbn [negb]; [|now split].
  destruct (find_section section_keywords (Py.strip line)) eqn:Ef.
  - cbn [current_content seg_sections]. split; [constructor|].
    destruct (section_name_eqb (current_section st) sec_general); [exact Hs|].
    intros k. unfold sections_get, sections_set.
    destruct (section_name_eqb k (current_section st)).
    + now exists (current_content st).
    + apply Hs.
  - cbn [current_content seg_sections]. split; [|exact Hs].
    apply Forall_app. split; [exact Hc|]. constructor; [|constructor].
    split; [now apply find_section_keyword_free|].
    split; [apply strip_idempotent|]. split.
    + intros E. rewrite E in Et. discriminate Et.
    + unfold Py.strip. now apply rstrip_has_char, lstrip_has_char.
Qed.

Lemma segment_fold_inv (lines : list string) :
  forall st : segmenter,
    Forall (fun l => Py.has_char NL l = false) lines ->
    bucket_lines (current_content st) ->
    (forall k, exists ls, sections_get (seg_sections st) k = Py.join nl ls /\
                          bucket_lines ls) ->
    bucket_lines (current_content (fold_left segment_line lines st)) /\
    (forall k, exists ls,
        sections_get (seg_sections (fold_left segment_line lines st)) k
        = Py.join nl ls /\ bucket_lines ls).
Proof.
  induction lines as [|line lines IH]; intros st Hl Hc Hs; [now split|].
  inversion Hl as [|? ? Hline Hrest]; subst. cbn [fold_left].
  destruct (segment_line_inv st line Hline Hc Hs) as [Hc' Hs'].
  now apply IH.
Qed.

Lemma sections_buckets (text : string) (section : section_name) :
  exists lines,
    sections_get (_extract_sections text) section = Py.join nl lines /\
    bucket_lines lines.
Proof.
  unfold _extract_sections.
  set (st0 := {| seg_sections := no_sections; current_section := sec_general;
                 current_content := [] |}).
  destruct (segment_fold_inv (Py.split_on NL text) st0) as [Hc Hs].
  - apply split_on_aux_pieces. reflexivity.
  - constructor.
  - intros k. exists []. split; [reflexivity | constructor].
  - destruct (current_content (fold_left segment_line (Py.split_on NL text) st0))
      as [|l ls] eqn:E; [apply Hs|].
    unfold sections_get, sections_set.
    destruct (section_name_eqb section
                (current_section (fold_left segment_line (Py.split_on NL text) st0))).
    + now exists (l :: ls).
    + apply Hs.
Qed.

(** X13.  Every bucket that [_extract_sections] fills is a sequence of
    lines joined by line breaks in which each line is trimmed, not empty,
    and free of every section keyword (a line with a keyword is a header
    and is dropped); splitting the bucket at its line breaks gives these
    lines back. *)
Theorem X13_buckets_hold_no_keyword_line :
  forall (text : string) (section : section_name),
    exists lines,
      sections_get (_extract_sections text) section = Py.join nl lines /\
      bucket_lines lines /\
      match lines with
      | [] => True
      | _ => Py.split_on NL (Py.join nl lines) = lines
      end.
Proof.
  intros text section.
  destruct (sections_buckets text section) as [lines [E B]].
  exists lines. split; [exact E|]. split; [exact B|].
  destruct lines as [|l ls]; [exact I|].
  apply split_join. eapply Forall_impl; [|exact B].
  intros a [_ [_ [_ H]]]. exact H.
Qed.

End Segmentation.

Section EducationFromSections.

Import ResumeParser Records Shape.

Lemma education_line_institutions (Q : string -> Prop)
  (st : list education * education) (line : string) :
  Q (Py.strip line) ->
  Forall (fun e => forall v, institution e = Some v -> Q v) (fst st) ->
  (forall v, institution (snd st) = Some v -> Q v) ->
  Forall (fun e => forall v, institution e = Some v -> Q v)
         (fst (education_line st line)) /\
  (forall v, institution (snd (education_line st line)) = Some v -> Q v).
Proof.
  destruct st as [l cur]. cbn [fst snd]. intros Hq Hl Hcur.
  unfold education_line.
  destruct (negb (Py.truthy (Py.strip line))); [now split|].
  destruct (Re.search true institution_re (Py.strip line)).
  - cbn [fst snd institution]. split.
    + destruct (education_truthy cur); [|exact Hl].
      apply Forall_app. split; [exact Hl|]. constructor; [exact Hcur | constructor].
    + intros v E. injection E as <-. exact Hq.
  - repeat match goal with
           | |- context [if ?b then _ else _] => destruct b
           end; now split.
Qed.

Lemma education_fold_institutions (Q : string -> Prop) (lines : list string) :
  forall st : list education * education,
    Forall (fun line => Q (Py.strip line)) lines ->
    Forall (fun e => forall v, institution e = Some v -> Q v) (fst st) ->
    (forall v, institution (snd st) = Some v -> Q v) ->
    Forall (fun e => forall v, institution e = Some v -> Q v)
           (fst (fold_left education_line lines st)) /\
    (forall v, institution (snd (fold_left education_line lines st)) = Some v -> Q v).
Proof.
  induction lines as [|line lines IH]; intros st Hq Hl Hcur; [now split|].
  inversion Hq as [|? ? Hline Hrest]; subst. cbn [fold_left].
  destruct (education_line_institutions Q st line Hline Hl Hcur) as [Hl' Hcur'].
  now apply IH.
Qed.

(** Every institution that [_extract_education] reports is a trimmed line
    of its input. *)
Lemma education_institutions (Q : string -> Prop) (education_text : string) :
  Forall (fun line => Q (Py.strip line)) (Py.split_on NL education_text) ->
  Forall (fun e => forall v, institution e = Some v -> Q v)
         (_extract_education education_text).
Proof.
  intros Hq. unfold _extract_education.
  destruct (negb (Py.truthy education_text)); [constructor|].
  destruct (education_fold_institutions Q (Py.split_on NL education_text)
              ([], empty_education) Hq) as [Hl Hcur].
  - constructor.
  - intros v E. discriminate E.
  - destruct (fold_left education_line (Py.split_on NL education_text)
                ([], empty_education)) as [l cur].
    cbn [fst snd] in *. destruct (education_truthy cur); [|exact Hl].
    apply Forall_app. split; [exact Hl|]. constructor; [exact Hcur | constructor].
Qed.

Lemma education_bucket_institutions (text : string) :
  Forall (fun e => forall v, institution e = Some v -> keyword_free v)
         (_extract_education (sections_get (_extract_sections text) sec_education)).
Proof.
  destruct (sections_buckets text sec_education) as [lines [E B]].
  rewrite E. destruct lines as [|l ls]; [constructor|].
  apply education_institutions. rewrite split_join.
  - eapply Forall_impl; [|exact B].
    intros a [Hk [Hs _]]. now rewrite Hs.
  - eapply Forall_impl; [|exact B]. intros a [_ [_ [_ H]]]. exact H.
Qed.

(** X14.  An education entry taken from the education bucket of
    [_extract_sections] never has an institution that contains a section
    keyword: a line with [university], [college] or [school] in it is a
    section header for the segmentation and does not reach
    [_extract_education]. *)
Theorem X14_institutions_hold_no_section_keyword :
  forall (text : string) (e : education) (v : string),
    In e (_extract_education (sections_get (_extract_sections text) sec_education)) ->
    institution e = Some v ->
    keyword_free v /\
    ~ Py.occurs_in "university" (Py.lower v) /\
    ~ Py.occurs_in "college" (Py.lower v) /\
    ~ Py.occurs_in "school" (Py.lower v).
Proof.
  intros text e v Hin Hv.
  pose proof (education_bucket_institutions text) as H.
  rewrite Forall_forall in H. specialize (H e Hin v Hv).
  split; [exact H|].
  assert (Hedu : In (sec_education,
                     ["education"; "academic"; "degree"; "university"; "college";
                      "school"]) section_keywords) by (left; reflexivity).
  repeat split; apply (H _ _ _ Hedu); simpl; auto 10.
Qed.

Lemma X14_institutions_hold_no_section_keyword_witness :
  let text := Py.join nl ["Education"; "Royal Academy of Arts"; "2020"] in
  let e := {| institution := Some "Royal Academy of Arts"; degree := None;
              year := Some "2020"; gpa := None |} in
  In e (_extract_education (sections_get (_extract_sections text) sec_education)) /\
  institution e = Some "Royal Academy of Arts" /\
  ~ Py.occurs_in "school" (Py.lower "Royal Academy of Arts").
Proof.
  intros text e.
  assert (Hin : In e (_extract_education
                        (sections_get (_extract_sections text) sec_education)))
    by (vm_compute; left; reflexivity).
  split; [exact Hin|]. split; [reflexivity|].
  exact (proj2 (proj2 (proj2
    (X14_institutions_hold_no_section_keyword text e _ Hin eq_refl)))).
Defined.

End EducationFromSections.

(** ** Further properties of the fields of a job posting *)

Section JobPostingFields.

Import JobExtractor JobFields Shape.
Local Open Scope Z_scope.

Lemma some_injective (A : Type) (x y : A) : Some x = Some y -> x = y.
Proof. intros H. now injection H. Qed.

Lemma first_qualifying_some (min_length : Z) (selectors : list selector)
  (soup : list node) (text : string) :
  first_qualifying min_length selectors soup = Some text ->
  clean_and_longer min_length text /\ text_of_selected selectors soup text.
Proof.
  induction selectors as [|sel selectors IH]; intros H; [discriminate H|].
  cbn [first_qualifying] in H.
  assert (Hrest : first_qualifying min_length selectors soup = Some text ->
                  clean_and_longer min_length text /\
                  text_of_selected (sel :: selectors) soup text).
  { intros H'. destruct (IH H') as [Hc [s' [e' [Hin [Hs He]]]]].
    split; [exact Hc|]. exists s', e'. split; [now right | now split]. }
  destruct (select_one sel soup) as [element|] eqn:Es; [|now apply Hrest].
  destruct (Py.truthy (Utils.clean_text (Some (get_text element)))
            && (min_length <? Py.len (Utils.clean_text (Some (get_text element)))))
    eqn:Ec; [|now apply Hrest].
  apply some_injective in H. subst text.
  apply andb_true_iff in Ec. destruct Ec as [_ Hlen].
  apply Z.ltb_lt in Hlen. split.
  - split; [exact Hlen|]. split.
    + apply clean_text_allowed_and_trimmed.
    + apply strip_clean_text.
  - exists sel, element. split; [now left | now split].
Qed.

Lemma first_qualifying_none_all (min_length : Z) (selectors : list selector)
  (soup : list node) :
  first_qualifying min_length selectors soup = None ->
  forall text, text_of_selected selectors soup text -> Py.len text <= Z.max min_length 0.
Proof.
  intros H text [sel [element [Hin [Hs ->]]]].
  destruct (first_qualifying_none min_length selectors soup H sel element Hin Hs)
    as [L | E].
  - lia.
  - rewrite E. cbn. lia.
Qed.

Lemma cascade_cases (min_length : Z) (selectors : list selector)
  (soup : list node) (sentinel : string) :
  let result :=
    match first_qualifying min_length selectors soup with
    | Some text => text
    | None => sentinel
    end in
  (clean_and_longer min_length result /\ text_of_selected selectors soup result)
  \/ (result = sentinel /\
      first_qualifying min_length selectors soup = None /\
      forall text, text_of_selected selectors soup text ->
                   Py.len text <= Z.max min_length 0).
Proof.
  intros result. unfold result.
  destruct (first_qualifying min_length selectors soup) as [text|] eqn:E.
  - left. now apply first_qualifying_some.
  - right. split; [reflexivity|]. split; [reflexivity|].
    intros text Ht. now apply (first_qualifying_none_all min_length _ _ E).
Qed.

(** X15.  [_extract_location] returns either the cleaned text, longer
    than 2 characters, of an element that one of its selectors finds, or
    the sentinel, and then no selector finds an element with a cleaned text
    longer than 2 characters.  The same holds of
    [_extract_responsibilities] with 20 characters. *)
Theorem X15_location_and_responsibilities :
  forall soup : list node,
    ((clean_and_longer 2 (_extract_location soup) /\
      text_of_selected location_selectors soup (_extract_location soup))
     \/ (_extract_location soup = LOCATION_NOT_FOUND /\
         forall text, text_of_selected location_selectors soup text ->
                      Py.len text <= 2)) /\
    ((clean_and_longer 20 (_extract_responsibilities soup) /\
      text_of_selected responsibility_selectors soup (_extract_responsibilities soup))
     \/ (_extract_responsibilities soup = RESPONSIBILITIES_NOT_FOUND /\
         forall text, text_of_selected responsibility_selectors soup text ->
                      Py.len text <= 20)).
Proof.
  intros soup. split.
  - destruct (cascade_cases 2 location_selectors soup LOCATION_NOT_FOUND)
      as [H | [H1 [_ H2]]]; [now left | right; now split].
  - destruct (cascade_cases 20 responsibility_selectors soup
                RESPONSIBILITIES_NOT_FOUND)
      as [H | [H1 [_ H2]]]; [now left | right; now split].
Qed.

(** X16.  [_extract_company_name] returns the cleaned text, longer than
    2 characters, of an element found by a company selector, and otherwise
    the name derived from the URL.  [_extract_job_title] returns the
    cleaned text, longer than 3 characters, of an element found by a
    title selector; otherwise the page title, which then has at most 3
    characters, after the removal of a job-board suffix; and the sentinel
    when the page has no title element. *)
Theorem X16_company_and_title :
  forall (soup : list node) (url : string),
    ((clean_and_longer 2 (_extract_company_name soup url) /\
      text_of_selected company_selectors soup (_extract_company_name soup url))
     \/ (_extract_company_name soup url = Utils.extract_company_name_from_url url /\
         forall text, text_of_selected company_selectors soup text ->
                      Py.len text <= 2)) /\
    ((clean_and_longer 3 (_extract_job_title soup) /\
      text_of_selected title_selectors soup (_extract_job_title soup))
     \/ (exists title_tag,
            find "title" soup = Some title_tag /\
            Py.len (Utils.clean_text (Some (get_text title_tag))) <= 3 /\
            _extract_job_title soup
            = strip_site_suffix (Utils.clean_text (Some (get_text title_tag))))
     \/ (find "title" soup = None /\ _extract_job_title soup = TITLE_NOT_FOUND)).
Proof.
  intros soup url. split.
  - unfold _extract_company_name.
    destruct (cascade_cases 2 company_selectors soup
                (Utils.extract_company_name_from_url url))
      as [H | [H1 [_ H2]]]; [now left | right; now split].
  - unfold _extract_job_title.
    destruct (first_qualifying 3 title_selectors soup) as [text|] eqn:E.
    + left. now apply first_qualifying_some.
    + right. destruct (find "title" soup) as [title_tag|] eqn:Ef.
      * left. exists title_tag. split; [reflexivity|]. split; [|reflexivity].
        now apply (title_fallback_is_short soup).
      * right. now split.
Qed.

End JobPostingFields.

Section LevelAndType.

Import JobFields Shape.

Lemma any_in_iff (words : list string) (text : string) :
  any_in words (Py.lower text) = true <-> mentions words text.
Proof.
  unfold any_in, mentions. rewrite existsb_exists.
  split; intros [w [Hw Ho]]; exists w; (split; [exact Hw|]);
    now apply contains_iff.
Qed.

Lemma any_in_false_iff (words : list string) (text : string) :
  any_in words (Py.lower text) = false <-> ~ mentions words text.
Proof.
  rewrite <- any_in_iff. destruct (any_in words (Py.lower text)); split;
    congruence.
Qed.

Ltac decide_groups :=
  repeat match goal with
         | |- context [any_in ?ws (Py.lower ?t)] =>
             let b := fresh "b" in
             let E := fresh "E" in
             destruct (any_in ws (Py.lower t)) eqn:E;
             [apply any_in_iff in E | apply any_in_false_iff in E]
         end.

(** X17.  [_extract_experience_level] returns the first level, in the
    order Entry, Mid, Senior, Expert, one of whose keywords occurs in the
    lowercased text, and ["Not specified"] when there is none: a text that
    mentions both [junior] and [senior] is Entry. *)
Theorem X17_experience_level_priority :
  forall text : string,
    let level := _extract_experience_level text in
    let entry := mentions (level_keywords "entry") text in
    let mid := mentions (level_keywords "mid") text in
    let senior := mentions (level_keywords "senior") text in
    let expert := mentions (level_keywords "expert") text in
    (level = "Entry" <-> entry) /\
    (level = "Mid" <-> ~ entry /\ mid) /\
    (level = "Senior" <-> ~ entry /\ ~ mid /\ senior) /\
    (level = "Expert" <-> ~ entry /\ ~ mid /\ ~ senior /\ expert) /\
    (level = "Not specified" <-> ~ entry /\ ~ mid /\ ~ senior /\ ~ expert).
Proof.
  intros text level entry mid senior expert.
  unfold level, entry, mid, senior, expert, _extract_experience_level.
  change (level_keywords "entry")
    with ["entry level"; "junior"; "0-1 years"; "1 year"].
  change (level_keywords "mid")
    with ["mid level"; "intermediate"; "2-4 years"; "3 years"; "4 years"].
  change (level_keywords "senior")
    with ["senior"; "lead"; "5+ years"; "5 years"; "6 years"; "7 years"].
  change (level_keywords "expert")
    with ["expert"; "principal"; "architect"; "10+ years"].
  unfold levels. cbn [level_scan].
  decide_groups;
    change (Py.title "entry") with "Entry";
    change (Py.title "mid") with "Mid";
    change (Py.title "senior") with "Senior";
    change (Py.title "expert") with "Expert";
    repeat split; intros; try discriminate; try tauto.
Qed.

(** X18.  [_extract_employment_type] returns the first type, in the order
    Full-time, Part-time, Contract, Internship, Remote, one of whose words
    occurs in the lowercased text, and ["Not specified"] when there is
    none: a remote full-time position is reported as Full-time. *)
Theorem X18_employment_type_priority :
  forall text : string,
    let type := _extract_employment_type text in
    let full := mentions ["full time"; "full-time"; "fulltime"] text in
    let part := mentions ["part time"; "part-time"; "parttime"] text in
    let contract := mentions ["contract"; "contractor"] text in
    let intern := mentions ["intern"; "internship"] text in
    let remote := mentions ["remote"; "work from home"] text in
    (type = "Full-time" <-> full) /\
    (type = "Part-time" <-> ~ full /\ part) /\
    (type = "Contract" <-> ~ full /\ ~ part /\ contract) /\
    (type = "Internship" <-> ~ full /\ ~ part /\ ~ contract /\ intern) /\
    (type = "Remote" <-> ~ full /\ ~ part /\ ~ contract /\ ~ intern /\ remote) /\
    (type = "Not specified" <->
     ~ full /\ ~ part /\ ~ contract /\ ~ intern /\ ~ remote).
Proof.
  intros text type full part contract intern remote.
  unfold type, full, part, contract, intern, remote, _extract_employment_type.
  decide_groups; repeat split; intros; try discriminate; try tauto.
Qed.

End LevelAndType.

(** ** Further properties of the text helpers *)

Section Truncation.

Import UtilsText.
Local Open Scope Z_scope.

Lemma substring_length (n : nat) (s : string) :
  String.length (String.substring 0 n s) = Nat.min n (String.length s).
Proof.
  revert s. induction n as [|n IH]; intros s.
  - now destruct s.
  - destruct s as [|c s]; [reflexivity|]. cbn. now rewrite IH.
Qed.

Lemma substring_all (n : nat) (s : string) :
  (String.length s <= n)%nat -> String.substring 0 n s = s.
Proof.
  revert s. induction n as [|n IH]; intros s H.
  - destruct s; [reflexivity | simpl in H; lia].
  - destruct s as [|c s]; [reflexivity|]. cbn. rewrite IH; [reflexivity|].
    simpl in H. lia.
Qed.

Lemma substring_prefix (n : nat) (s : string) :
  exists rest, s = String.append (String.substring 0 n s) rest.
Proof.
  revert s. induction n as [|n IH]; intros s.
  - exists s. now destruct s.
  - destruct s as [|c s]; [now exists EmptyString|].
    destruct (IH s) as [rest E]. exists rest. cbn. now rewrite <- E.
Qed.

Lemma substring_append (n : nat) (a b : string) :
  String.length a = n -> String.substring 0 n (String.append a b) = a.
Proof.
  revert a. induction n as [|n IH]; intros a H.
  - destruct a; [|discriminate H]. now destruct b.
  - destruct a as [|c a]; [discriminate H|]. cbn. rewrite IH; [reflexivity|].
    simpl in H. lia.
Qed.

Lemma length_append (a b : string) :
  String.length (String.append a b) = (String.length a + String.length b)%nat.
Proof. induction a as [|c a IH]; [reflexivity|]. cbn. now rewrite IH. Qed.

Lemma truncate_long (text : string) (max_length : Z) :
  0 <= max_length -> max_length < Py.len text ->
  truncate_text text max_length
  = String.append (String.substring 0 (Z.to_nat max_length) text) "..." /\
  String.length (String.substring 0 (Z.to_nat max_length) text)
  = Z.to_nat max_length.
Proof.
  intros H0 Hlt. unfold truncate_text, take.
  replace (Py.len text <=? max_length) with false by (symmetry; apply Z.leb_gt; lia).
  replace (0 <=? max_length) with true by (symmetry; apply Z.leb_le; lia).
  split; [reflexivity|]. rewrite substring_length. unfold Py.len in Hlt. lia.
Qed.

(** X19.  For a bound that is not negative, [truncate_text] returns a
    text of at most [max_length + 3] characters: the text itself when it
    fits, and otherwise its first [max_length] characters followed by
    three dots, which is longer than the text when the text exceeds the
    bound by one or two characters only. *)
Theorem X19_truncate_text_length :
  forall (text : string) (max_length : Z),
    0 <= max_length ->
    let result := truncate_text text max_length in
    Py.len result <= max_length + 3 /\
    (Py.len text <= max_length -> result = text) /\
    (max_length < Py.len text ->
     Py.len result = max_length + 3 /\
     exists head rest,
       text = String.append head rest /\ Py.len head = max_length /\
       result = String.append head "...").
Proof.
  intros text max_length H0 result.
  assert (Hshort : Py.len text <= max_length -> result = text).
  { intros H. unfold result, truncate_text.
    now replace (Py.len text <=? max_length) with true
      by (symmetry; apply Z.leb_le; lia). }
  assert (Hlong : max_length < Py.len text ->
                  Py.len result = max_length + 3 /\
                  exists head rest,
                    text = String.append head rest /\ Py.len head = max_length /\
                    result = String.append head "...").
  { intros H. destruct (truncate_long text max_length H0 H) as [E L].
    fold result in E. split.
    - rewrite E. unfold Py.len. rewrite length_append, L. simpl. lia.
    - destruct (substring_prefix (Z.to_nat max_length) text) as [rest Er].
      exists (String.substring 0 (Z.to_nat max_length) text), rest.
      split; [exact Er|]. split; [unfold Py.len; rewrite L; lia | exact E]. }
  split; [|split; assumption].
  destruct (Z.le_gt_cases (Py.len text) max_length) as [H | H].
  - rewrite (Hshort H). lia.
  - destruct (Hlong H) as [E _]. lia.
Qed.

Lemma X19_truncate_text_length_witness :
  0 <= 4 /\
  Py.len (truncate_text "abcde" 4) = 7 /\
  Py.len (truncate_text "abcde" 4) <= 4 + 3.
Proof.
  assert (H0 : 0 <= 4) by lia.
  split; [exact H0|]. split; [reflexivity|].
  exact (proj1 (X19_truncate_text_length "abcde" 4 H0)).
Defined.

(** X20.  For a bound that is not negative, truncating a second time with
    the same bound changes nothing. *)
Theorem X20_truncate_text_idempotent :
  forall (text : string) (max_length : Z),
    0 <= max_length ->
    truncate_text (truncate_text text max_length) max_length
    = truncate_text text max_length.
Proof.
  intros text max_length H0.
  destruct (Z.le_gt_cases (Py.len text) max_length) as [H | H].
  - assert (E : truncate_text text max_length = text).
    { unfold truncate_text.
      now replace (Py.len text <=? max_length) with true
        by (symmetry; apply Z.leb_le; lia). }
    now rewrite !E.
  - destruct (truncate_long text max_length H0 H) as [E L].
    rewrite E.
    set (head := String.substring 0 (Z.to_nat max_length) text) in *.
    assert (Hl : max_length < Py.len (String.append head "...")).
    { unfold Py.len. rewrite length_append, L. simpl. lia. }
    destruct (truncate_long (String.append head "...") max_length H0 Hl) as [E2 _].
    rewrite E2. now rewrite (substring_append _ head "..." L).
Qed.

Lemma X20_truncate_text_idempotent_witness :
  0 <= 4 /\
  truncate_text (truncate_text "abcdefgh" 4) 4 = "abcd...".
Proof.
  assert (H0 : 0 <= 4) by lia.
  split; [exact H0|].
  rewrite (X20_truncate_text_idempotent "abcdefgh" 4 H0). reflexivity.
Defined.

End Truncation.

Section ExperienceYears.

Import UtilsText.

(** A matcher whose continuations all answer [v] answers [v]. *)
Lemma run_lit_constant (A : Type) (icase : bool) (v : A) (l : string) :
  forall (prev : option ascii) (s : string) (k : Re.cont) (x : A),
    (forall p s' y, k p s' = Some y -> y = v) ->
    Re.run_lit icase l prev s k = Some x -> x = v.
Proof.
  induction l as [|a l IH]; intros prev s k x Hk H; cbn [Re.run_lit] in H.
  - now apply (Hk prev s).
  - destruct s as [|c s]; [discriminate H|].
    destruct (Re.chr_eq icase a c); [|discriminate H].
    now apply (IH (Some c) s k).
Qed.

Lemma run_star_constant (A : Type) (v : A) (p : ascii -> bool) (s : string) :
  forall (prev : option ascii) (k : Re.cont) (x : A),
    (forall q s' y, k q s' = Some y -> y = v) ->
    Re.run_star p prev s k = Some x -> x = v.
Proof.
  induction s as [|c s IH]; intros prev k x Hk H; cbn [Re.run_star] in H.
  - now apply (Hk prev EmptyString).
  - destruct (p c).
    + destruct (Re.run_star p (Some c) s k) as [y|] eqn:E.
      * apply some_injective in H. subst y. now apply (IH (Some c) k).
      * now apply (Hk prev (String c s)).
    + now apply (Hk prev (String c s)).
Qed.

Lemma run_constant (A : Type) (icase : bool) (v : A) (r : Re.regex) :
  forall (prev : option ascii) (s : string) (k : Re.cont) (x : A),
    (forall p s' y, k p s' = Some y -> y = v) ->
    Re.run icase r prev s k = Some x -> x = v.
Proof.
  induction r as [p | l | r1 IH1 r2 IH2 | r1 IH1 r2 IH2 | p |];
    intros prev s k x Hk H; cbn [Re.run] in H.
  - destruct s as [|c s]; [discriminate H|].
    destruct (p c); [now apply (Hk (Some c) s) | discriminate H].
  - now apply (run_lit_constant A icase v l prev s k).
  - apply (IH1 prev s
             (fun (prev' : option ascii) (s' : string) => Re.run icase r2 prev' s' k)
             x); [|exact H].
    intros q s' y Hy. now apply (IH2 q s' k).
  - destruct (Re.run icase r1 prev s k) as [y|] eqn:E.
    + apply some_injective in H. subst y. now apply (IH1 prev s k).
    + now apply (IH2 prev s k).
  - now apply (run_star_constant A v p s prev k).
  - destruct (Re.at_boundary prev s); [now apply (Hk prev s) | discriminate H].
Qed.

(** What a greedy repetition hands to its continuation: the subject
    without a front part made of characters of the class. *)
Lemma run_star_front (A : Type) (p : ascii -> bool) (s : string) :
  forall (prev : option ascii) (k : Re.cont) (x : A),
    Re.run_star p prev s k = Some x ->
    exists front rest q,
      s = String.append front rest /\ Py.all_chars p front = true /\
      k q rest = Some x.
Proof.
  induction s as [|c s IH]; intros prev k x H; cbn [Re.run_star] in H.
  - now exists EmptyString, EmptyString, prev.
  - destruct (p c) eqn:Ep.
    + destruct (Re.run_star p (Some c) s k) as [y|] eqn:E.
      * apply some_injective in H. subst y.
        destruct (IH (Some c) k x E) as [front [rest [q [Es [Hf Hk]]]]].
        exists (String c front), rest, q. cbn [String.append Py.all_chars].
        rewrite Ep, Hf, <- Es. now repeat split.
      * now exists EmptyString, (String c s), prev.
    + now exists EmptyString, (String c s), prev.
Qed.

Lemma substring_front (front rest : string) :
  String.substring 0
    (String.length (String.append front rest) - String.length rest)
    (String.append front rest) = front.
Proof.
  rewrite length_append, Nat.add_sub. now apply substring_append.
Qed.

(** The first group of [(\d+)tail] is a non-empty run of digits at the
    front of the subject. *)
Lemma group1_here_digits (tail : Re.regex) (prev : option ascii)
  (s years : string) :
  group1_here digits tail prev s = Some years ->
  years <> EmptyString /\ Py.all_chars Py.is_digit years = true /\
  exists rest, s = String.append years rest.
Proof.
  unfold group1_here, digits, Re.Plus. cbn [Re.run]. intros H.
  destruct s as [|c s]; [discriminate H|].
  destruct (Py.is_digit c) eqn:Ec; [|discriminate H].
  apply run_star_front in H.
  destruct H as [front [rest [q [Es [Hf Hk]]]]].
  apply (run_constant _ false
           (String.substring 0
              (String.length (String c s) - String.length rest) (String c s)))
    in Hk; [|intros p s' y Hy; now apply some_injective in Hy].
  subst years. rewrite Es.
  change (String c (String.append front rest))
    with (String.append (String c front) rest).
  rewrite substring_front. split; [discriminate|]. split.
  - cbn [Py.all_chars]. now rewrite Ec, Hf.
  - now exists rest.
Qed.

Lemma search_group1_digits (tail : Re.regex) (s : string) :
  forall (prev : option ascii) (years : string),
    search_group1_from digits tail prev s = Some years ->
    years <> EmptyString /\ Py.all_chars Py.is_digit years = true /\
    Py.occurs_in years s.
Proof.
  induction s as [|c s IH]; intros prev years H; cbn [search_group1_from] in H.
  - destruct (group1_here digits tail prev EmptyString) as [y|] eqn:E;
      [|discriminate H].
    apply some_injective in H. subst y.
    destruct (group1_here_digits _ _ _ _ E) as [H1 [H2 [rest H3]]].
    split; [exact H1|]. split; [exact H2|]. now exists EmptyString, rest.
  - destruct (group1_here digits tail prev (String c s)) as [y|] eqn:E.
    + apply some_injective in H. subst y.
      destruct (group1_here_digits _ _ _ _ E) as [H1 [H2 [rest H3]]].
      split; [exact H1|]. split; [exact H2|]. now exists EmptyString, rest.
    + destruct (IH (Some c) years H) as [H1 [H2 [p [q H3]]]].
      split; [exact H1|]. split; [exact H2|].
      exists (String c p), q. cbn. now rewrite H3.
Qed.

Lemma search_group1_no_digit (tail : Re.regex) (s : string) :
  forall prev : option ascii,
    Py.all_chars (fun c => negb (Py.is_digit c)) s = true ->
    search_group1_from digits tail prev s = None.
Proof.
  induction s as [|c s IH]; intros prev H; [reflexivity|].
  cbn [Py.all_chars] in H. apply andb_true_iff in H. destruct H as [Hc Hs].
  apply negb_true_iff in Hc.
  cbn [search_group1_from]. unfold group1_here, digits, Re.Plus.
  cbn [Re.run]. rewrite Hc. now apply IH.
Qed.

Lemma is_digit_lower_char (c : ascii) :
  Py.is_digit (Py.lower_char c) = Py.is_digit c.
Proof. destruct c as [[] [] [] [] [] [] [] []]; reflexivity. Qed.

Lemma lower_no_digit (s : string) :
  Py.all_chars (fun c => negb (Py.is_digit c)) s = true ->
  Py.all_chars (fun c => negb (Py.is_digit c)) (Py.lower s) = true.
Proof.
  induction s as [|c s IH]; [reflexivity|]. cbn [Py.all_chars Py.lower].
  rewrite is_digit_lower_char. intros H. apply andb_true_iff in H.
  destruct H as [Hc Hs]. now rewrite Hc, IH.
Qed.

Lemma first_years_digits (tails : list Re.regex) (s years : string) :
  first_years tails s = Some years ->
  years <> EmptyString /\ Py.all_chars Py.is_digit years = true /\
  Py.occurs_in years s.
Proof.
  induction tails as [|tail tails IH]; intros H; [discriminate H|].
  cbn [first_years] in H.
  destruct (search_group1 digits tail s) as [y|] eqn:E.
  - apply some_injective in H. subst y. now apply (search_group1_digits tail s None).
  - now apply IH.
Qed.

Lemma first_years_no_digit (tails : list Re.regex) (s : string) :
  Py.all_chars (fun c => negb (Py.is_digit c)) s = true ->
  first_years tails s = None.
Proof.
  intros H. induction tails as [|tail tails IH]; [reflexivity|].
  cbn [first_years]. unfold search_group1.
  now rewrite (search_group1_no_digit tail s None H).
Qed.

(** X21.  [format_experience_years] returns either ["Not specified"] or
    a non-empty run of digits that occurs in the lowercased text, followed
    by [" years"]; on a text without any digit it returns
    ["Not specified"]. *)
Theorem X21_experience_years_shape :
  forall text : string,
    (format_experience_years text = "Not specified" \/
     exists years,
       years <> EmptyString /\ Py.all_chars Py.is_digit years = true /\
       Py.occurs_in years (Py.lower text) /\
       format_experience_years text = String.append years " years") /\
    (Py.all_chars (fun c => negb (Py.is_digit c)) text = true ->
     format_experience_years text = "Not specified").
Proof.
  intros text. unfold format_experience_years. split.
  - destruct (first_years year_patterns (Py.lower text)) as [years|] eqn:E;
      [|now left].
    right. exists years.
    destruct (first_years_digits _ _ _ E) as [H1 [H2 H3]]. now repeat split.
  - intros H. now rewrite (first_years_no_digit _ _ (lower_no_digit _ H)).
Qed.

End ExperienceYears.

(** ** Further properties of the fields read from the whole resume text *)

Section WholeTextFields.

Import ResumeFields Shape.
Local Open Scope Z_scope.

(** A line that matches [^[A-Z][a-z]+] starts with a capital and a small
    letter. *)
Lemma first_name_shape (line : string) :
  re_match first_name_re line = true ->
  exists a b rest,
    line = String a (String b rest) /\ upper_AZ a = true /\ lower_az b = true.
Proof.
  unfold re_match, Re.match_here, first_name_re, Re.Plus. cbn [Re.run].
  destruct line as [|a [|b rest]]; try discriminate.
  - destruct (upper_AZ a); discriminate.
  - destruct (upper_AZ a) eqn:Ea; [|discriminate].
    destruct (lower_az b) eqn:Eb; [|discriminate].
    intros _. now exists a, b, rest.
Qed.

(** A line that matches [^[A-Z][a-z]+ [A-Z][a-z]+] also matches
    [^[A-Z][a-z]+] and holds a space. *)
Lemma full_name_shape (line : string) :
  re_match full_name_re line = true ->
  re_match first_name_re line = true /\ Py.occurs_in " " line.
Proof.
  unfold re_match, Re.match_here, full_name_re, first_name_re, Re.Plus.
  cbn [Re.run].
  destruct line as [|a [|b rest]]; try discriminate.
  - destruct (upper_AZ a); discriminate.
  - destruct (upper_AZ a) eqn:Ea; [|discriminate].
    destruct (lower_az b) eqn:Eb; [|discriminate].
    intros H. split.
    + destruct (run_star_total lower_az rest (Some b)) as [p' [r' [E _]]].
      now rewrite E.
    + destruct (Re.run_star lower_az (Some b) rest _) as [x|] eqn:E;
        [|discriminate H].
      apply run_star_front in E. destruct E as [front [tail [q [Es [_ Hk]]]]].
      cbn [Re.run_lit] in Hk. destruct tail as [|c tail]; [discriminate Hk|].
      unfold Re.chr_eq in Hk. destruct (Ascii.eqb " " c) eqn:Ec; [|discriminate Hk].
      apply Ascii.eqb_eq in Ec. subst c.
      exists (String a (String b front)), tail. cbn. now rewrite Es.
Qed.

Lemma name_scan_shape (lines : list string) (name : string) :
  name_scan lines = Some name ->
  exists line,
    In line lines /\ name = Py.strip line /\
    2 < Py.len name < 50 /\
    Py.occurs_in " " name /\
    exists a b rest,
      name = String a (String b rest) /\ upper_AZ a = true /\ lower_az b = true.
Proof.
  induction lines as [|line lines IH]; intros H; [discriminate H|].
  cbn [name_scan] in H.
  assert (Hrest : name_scan lines = Some name ->
                  exists l, In l (line :: lines) /\ name = Py.strip l /\
                            2 < Py.len name < 50 /\ Py.occurs_in " " name /\
                            exists a b rest,
                              name = String a (String b rest) /\
                              upper_AZ a = true /\ lower_az b = true).
  { intros H'. destruct (IH H') as [l [Hin Hl]]. exists l. split; [now right | exact Hl]. }
  destruct ((2 <? Py.len (Py.strip line)) && (Py.len (Py.strip line) <? 50)) eqn:El;
    [|now apply Hrest].
  apply andb_true_iff in El. destruct El as [L1 L2].
  apply Z.ltb_lt in L1, L2.
  destruct (re_match full_name_re (Py.strip line)) eqn:Ef.
  - apply some_injective in H. subst name.
    destruct (full_name_shape _ Ef) as [Hfirst Hsp].
    exists line. split; [now left|]. split; [reflexivity|]. split; [lia|].
    split; [exact Hsp | now apply first_name_shape].
  - destruct (re_match first_name_re (Py.strip line) && Py.contains " " (Py.strip line))
      eqn:Eg; [|now apply Hrest].
    apply some_injective in H. subst name.
    apply andb_true_iff in Eg. destruct Eg as [Hfirst Hsp].
    exists line. split; [now left|]. split; [reflexivity|]. split; [lia|].
    split; [now apply contains_iff | now apply first_name_shape].
Qed.

Lemma in_firstn_string (n : nat) (l : list string) (x : string) :
  In x (firstn n l) -> In x l.
Proof.
  intros H. rewrite <- (firstn_skipn n l). apply in_or_app. now left.
Qed.

(** X22.  [_extract_name] returns either the sentinel or one of the
    first five lines of the text, trimmed, that is between 3 and 49
    characters long, starts with a capital letter A-Z followed by a small
    letter a-z, and holds a space. *)
Theorem X22_name_shape :
  forall text : string,
    _extract_name text = NAME_NOT_FOUND \/
    exists line,
      In line (firstn 5 (Py.split_on ResumeParser.NL text)) /\
      _extract_name text = Py.strip line /\
      2 < Py.len (_extract_name text) < 50 /\
      Py.occurs_in " " (_extract_name text) /\
      exists a b rest,
        _extract_name text = String a (String b rest) /\
        upper_AZ a = true /\ lower_az b = true.
Proof.
  intros text. unfold _extract_name.
  destruct (name_scan (firstn 5 (Py.split_on ResumeParser.NL text))) as [name|] eqn:E;
    [|now left].
  right. now apply name_scan_shape.
Qed.

Lemma summary_lines_shape (n : nat) (following : list string) :
  (List.length (summary_lines n following) <= n)%nat /\
  Forall (fun l => 10 < Py.len l /\ Py.strip l = l) (summary_lines n following).
Proof.
  revert following. induction n as [|n IH]; intros following.
  - split; [apply Nat.le_refl | constructor].
  - destruct following as [|line rest]; cbn [summary_lines].
    + split; [simpl; lia | constructor].
    + destruct (Py.truthy (Py.strip line) && (10 <? Py.len (Py.strip line))) eqn:E.
      * destruct (IH rest) as [Hl Hf]. split; [simpl; lia|].
        constructor; [|exact Hf].
        apply andb_true_iff in E. destruct E as [_ E]. apply Z.ltb_lt in E.
        split; [exact E | apply strip_idempotent].
      * split; [simpl; lia | constructor].
Qed.

Lemma summary_scan_shape (lines : list string) (summary : string) :
  summary_scan lines = Some summary ->
  exists found,
    summary = Py.join " " found /\
    (1 <= List.length found <= 4)%nat /\
    Forall (fun l => 10 < Py.len l /\ Py.strip l = l) found.
Proof.
  induction lines as [|line lines IH]; intros H; [discriminate H|].
  cbn [summary_scan] in H.
  destruct (existsb (fun keyword => Py.contains keyword (Py.lower line)) summary_keywords);
    [|now apply IH].
  destruct (summary_lines_shape 4 lines) as [Hl Hf].
  destruct (summary_lines 4 lines) as [|l found]; [now apply IH|].
  apply some_injective in H. subst summary.
  exists (l :: found). split; [reflexivity|]. split; [simpl in *; lia | exact Hf].
Qed.

Lemma summary_of_one_line (line : string) :
  Py.has_char ResumeParser.NL line = false ->
  _extract_summary line = SUMMARY_NOT_FOUND.
Proof.
  intros H. unfold _extract_summary, Py.split_on.
  rewrite (split_on_aux_no_sep _ _ EmptyString H).
  cbn [String.append summary_scan summary_lines].
  now destruct (existsb (fun keyword => Py.contains keyword (Py.lower line))
                        summary_keywords).
Qed.

(** X23.  [_extract_summary] returns either the sentinel or one to four
    trimmed lines of more than 10 characters each, joined by spaces.  On
    the text that [clean_text] returns, which is what the parser passes
    to it, it always returns the sentinel. *)
Theorem X23_summary_shape :
  forall text : string,
    (_extract_summary text = SUMMARY_NOT_FOUND \/
     exists found,
       _extract_summary text = Py.join " " found /\
       (1 <= List.length found <= 4)%nat /\
       Forall (fun l => 10 < Py.len l /\ Py.strip l = l) found) /\
    _extract_summary (Utils.clean_text (Some text)) = SUMMARY_NOT_FOUND.
Proof.
  intros text. split.
  - unfold _extract_summary.
    destruct (summary_scan (Py.split_on ResumeParser.NL text)) as [summary|] eqn:E;
      [|now left].
    right. now apply (summary_scan_shape (Py.split_on ResumeParser.NL text)).
  - apply summary_of_one_line. apply plain_no_newline, clean_text_plain.
Qed.

End WholeTextFields.

(** ** Further properties of the e-mail versions *)

Section EmailVersions.

Import EmailGenerator.
Local Open Scope Z_scope.

Variable email : Type.
Variable generate_cold_email : string -> option email.

Lemma version_fold_inv (len : nat) :
  forall (start : nat) (versions : list (email_version email)),
    (start + len <= 3)%nat ->
    Forall (fun v => version_ok email generate_cold_email v /\
                     version email v <= Z.of_nat start) versions ->
    StronglySorted (fun a b => version email a < version email b) versions ->
    let result :=
      fold_left (version_step email generate_cold_email) (seq start len) versions in
    Forall (fun v => version_ok email generate_cold_email v /\
                     version email v <= Z.of_nat (start + len)) result /\
    StronglySorted (fun a b => version email a < version email b) result /\
    (List.length result <= List.length versions + len)%nat.
Proof.
  induction len as [|len IH]; intros start versions Hb Hall Hs result.
  - unfold result. cbn [seq fold_left]. rewrite Nat.add_0_r.
    split; [exact Hall|]. split; [exact Hs | lia].
  - unfold result. cbn [seq fold_left].
    set (next := version_step email generate_cold_email versions start).
    assert (Hnext :
              Forall (fun v => version_ok email generate_cold_email v /\
                               version email v <= Z.of_nat (S start)) next /\
              StronglySorted (fun a b => version email a < version email b) next /\
              (List.length next <= S (List.length versions))%nat).
    { unfold next, version_step.
      destruct (generate_cold_email (nth start styles EmptyString)) as [e|] eqn:E.
      - split; [|split].
        + apply Forall_app. split.
          * eapply Forall_impl; [|exact Hall]. intros v [H1 H2]. split; [exact H1|lia].
          * constructor; [|constructor]. cbn [version]. split; [|lia].
            unfold version_ok. cbn [version style_name email_data].
            split; [lia|]. split; [|exact E].
            replace (Z.to_nat (Z.of_nat start + 1 - 1)) with start by lia.
            reflexivity.
        + clear IH. induction Hs as [|a l Hl IHl Ha].
          * constructor; constructor.
          * inversion Hall as [|? ? [_ Hva] Hrest]; subst.
            cbn [app]. constructor; [now apply IHl|].
            apply Forall_app. split; [exact Ha|].
            constructor; [cbn [version]; lia | constructor].
        + rewrite length_app. simpl. lia.
      - split; [|split; [exact Hs | lia]].
        eapply Forall_impl; [|exact Hall]. intros v [H1 H2]. split; [exact H1|lia]. }
    destruct Hnext as [N1 [N2 N3]].
    destruct (IH (S start) next ltac:(lia) N1 N2) as [R1 [R2 R3]].
    split; [|split; [exact R2 | lia]].
    eapply Forall_impl; [|exact R1]. intros v [H1 H2]. split; [exact H1|lia].
Qed.

Lemma versions_shape (num_versions : Z) :
  let versions := generate_multiple_versions email generate_cold_email num_versions in
  Forall (fun v => version_ok email generate_cold_email v /\
                   version email v <= Z.min num_versions 3) versions /\
  StronglySorted (fun a b => version email a < version email b) versions /\
  Z.of_nat (List.length versions) <= Z.max 0 (Z.min num_versions 3).
Proof.
  intros versions. unfold versions, generate_multiple_versions.
  change (Z.of_nat (List.length styles)) with 3.
  destruct (version_fold_inv (Z.to_nat (Z.min num_versions 3)) 0 [])
    as [R1 [R2 R3]]; [lia | constructor | constructor |].
  cbn [List.length] in R3. split; [|split; [exact R2 | lia]].
  eapply Forall_impl; [|exact R1]. intros v [H1 H2]. split; [exact H1|].
  destruct H1 as [H1 _]. lia.
Qed.

(** X24.  Whatever the generation service does, the list that
    [generate_multiple_versions] returns has at most
    [min(num_versions, 3)] entries (none for a count below 1), in strictly
    increasing order of their version number; every entry has a number
    between 1 and [min(num_versions, 3)], the style with that number, and
    the content returned for that style; a style whose call fails is left
    out. *)
Theorem X24_email_versions_shape :
  forall num_versions : Z,
    let versions :=
      generate_multiple_versions email generate_cold_email num_versions in
    Forall (fun v => version_ok email generate_cold_email v /\
                     version email v <= Z.min num_versions 3) versions /\
    StronglySorted (fun a b => version email a < version email b) versions /\
    Z.of_nat (List.length versions) <= Z.max 0 (Z.min num_versions 3).
Proof. intros n. apply versions_shape. Qed.

End EmailVersions.

(** ** Further properties: what the cleaning removes from the fields *)

Section CleanedFields.

Import ResumeFields Shape.

Lemma run_lit_fails_without (A : Type) (c : ascii) (l : string) :
  forall k : @Re.cont A,
    fails_without c k -> fails_without c (fun p s => Re.run_lit false l p s k).
Proof.
  induction l as [|a l IH]; intros k Hk prev s Hs; cbn [Re.run_lit].
  - now apply Hk.
  - destruct s as [|d s]; [reflexivity|].
    destruct (Re.chr_eq false a d); [|reflexivity].
    cbn [Py.has_char] in Hs. apply orb_false_iff in Hs.
    now apply (IH k Hk (Some d) s).
Qed.

Lemma run_star_fails_without (A : Type) (c : ascii) (p : ascii -> bool) :
  forall k : @Re.cont A,
    fails_without c k -> fails_without c (fun q s => Re.run_star p q s k).
Proof.
  intros k Hk prev s. revert prev.
  induction s as [|d s IH]; intros prev Hs; cbn [Re.run_star].
  - now apply Hk.
  - destruct (p d); [|now apply Hk].
    cbn [Py.has_char] in Hs. apply orb_false_iff in Hs as Hs'.
    rewrite (IH (Some d) (proj2 Hs')). now apply Hk.
Qed.

(** A pattern in front of a failing continuation fails as well. *)
Lemma run_fails_without (A : Type) (c : ascii) (r : Re.regex) :
  forall k : @Re.cont A,
    fails_without c k -> fails_without c (fun p s => Re.run false r p s k).
Proof.
  induction r as [p | l | r1 IH1 r2 IH2 | r1 IH1 r2 IH2 | p |];
    intros k Hk prev s Hs; cbn [Re.run].
  - destruct s as [|d s]; [reflexivity|]. destruct (p d); [|reflexivity].
    cbn [Py.has_char] in Hs. apply orb_false_iff in Hs. now apply Hk.
  - now apply (run_lit_fails_without A c l k Hk).
  - now apply (IH1 _ (IH2 k Hk)).
  - rewrite (IH1 k Hk prev s Hs). now apply (IH2 k Hk).
  - now apply (run_star_fails_without A c p k Hk).
  - destruct (Re.at_boundary prev s); [now apply Hk | reflexivity].
Qed.

(** A literal with the character [c] fails on a subject without it. *)
Lemma run_lit_needs (A : Type) (c : ascii) (l : string) :
  Py.has_char c l = true ->
  forall k : @Re.cont A, fails_without c (fun p s => Re.run_lit false l p s k).
Proof.
  induction l as [|a l IH]; intros Hl k prev s Hs; [discriminate Hl|].
  cbn [Re.run_lit]. destruct s as [|d s]; [reflexivity|].
  unfold Re.chr_eq. destruct (Ascii.eqb a d) eqn:E; [|reflexivity].
  apply Ascii.eqb_eq in E. subst d.
  cbn [Py.has_char] in Hl, Hs. apply orb_false_iff in Hs. destruct Hs as [Hac Hs].
  rewrite Hac in Hl. cbn [orb] in Hl. now apply (IH Hl k (Some a) s).
Qed.

Lemma find_first_fails_without (c : ascii) (r : Re.regex) :
  fails_without c (fun p s => Re.match_here false r p s) ->
  forall (s : string) (prev : option ascii),
    Py.has_char c s = false -> find_first_from false r prev s = None.
Proof.
  intros Hr s. induction s as [|d s IH]; intros prev Hs; cbn [find_first_from].
  - now rewrite (Hr prev EmptyString Hs).
  - rewrite (Hr prev (String d s) Hs).
    cbn [Py.has_char] in Hs. apply orb_false_iff in Hs. now apply IH.
Qed.

Lemma email_needs_at :
  fails_without "@" (fun p s => Re.match_here false email_re p s).
Proof.
  unfold Re.match_here, email_re.
  intros prev s Hs. cbn [Re.run].
  destruct (Re.at_boundary prev s); [|reflexivity].
  refine (run_fails_without _ "@" (Re.Plus _) _ _ prev s Hs).
  intros p s' Hs'. cbn [Re.run].
  now apply (run_lit_needs _ "@" "@" eq_refl).
Qed.

Lemma linkedin_needs_slash :
  fails_without "/" (fun p s => Re.match_here false linkedin_re p s).
Proof.
  unfold Re.match_here, linkedin_re.
  intros prev s Hs.
  refine (run_fails_without _ "/" (Re.Seq (Re.Lit "http")
            (Re.Alt (Re.Lit "s") (Re.Lit EmptyString))) _ _ prev s Hs).
  intros p s' Hs'. cbn [Re.run].
  now apply (run_lit_needs _ "/" "://" eq_refl).
Qed.

Lemma kept_no_char (c : ascii) (s : string) :
  Utils.kept_char c = false ->
  Py.all_chars Utils.kept_char s = true -> Py.has_char c s = false.
Proof.
  intros Hc. induction s as [|d s IH]; [reflexivity|].
  cbn [Py.all_chars Py.has_char]. intros H. apply andb_true_iff in H.
  destruct H as [Hd Hs]. rewrite (IH Hs), orb_false_r.
  destruct (Ascii.eqb d c) eqn:E; [|reflexivity].
  apply Ascii.eqb_eq in E. subst d. congruence.
Qed.

(** X25.  [_extract_email] finds nothing in a text without [@], and
    [_extract_linkedin] nothing in a text without a slash.  [clean_text]
    removes both characters, so on the cleaned text, which is what the
    parser passes to them, they always return their sentinels. *)
Theorem X25_cleaning_hides_email_and_linkedin :
  forall text : string,
    (Py.has_char "@" text = false -> _extract_email text = EMAIL_NOT_FOUND) /\
    (Py.has_char "/" text = false -> _extract_linkedin text = LINKEDIN_NOT_FOUND) /\
    _extract_email (Utils.clean_text (Some text)) = EMAIL_NOT_FOUND /\
    _extract_linkedin (Utils.clean_text (Some text)) = LINKEDIN_NOT_FOUND.
Proof.
  intros text.
  assert (He : forall t, Py.has_char "@" t = false -> _extract_email t = EMAIL_NOT_FOUND).
  { intros t H. unfold _extract_email, find_first.
    now rewrite (find_first_fails_without "@" email_re email_needs_at t None H). }
  assert (Hl : forall t, Py.has_char "/" t = false ->
                         _extract_linkedin t = LINKEDIN_NOT_FOUND).
  { intros t H. unfold _extract_linkedin, find_first.
    now rewrite (find_first_fails_without "/" linkedin_re linkedin_needs_slash t None H). }
  destruct (clean_text_allowed_and_trimmed (Some text)) as [Hk _].
  split; [apply He|]. split; [apply Hl|]. split.
  - apply He. now apply kept_no_char.
  - apply Hl. now apply kept_no_char.
Qed.

End CleanedFields.

Section ValidatedUpload.

Import Utils ResumeParser.

(** X26.  A file that [validate_file_upload] accepts never takes the
    unsupported-format exit of [parse_resume]: the call fails only with
    the failure of the decoder for its extension, and otherwise returns a
    resume. *)
Theorem X26_validated_file_reaches_a_decoder :
  forall (pdf docx : uploaded_file -> error + string) (f : uploaded_file),
    valid (validate_file_upload (Some f)) = true ->
    let decoder := if String.eqb (get_file_extension (name f)) ".pdf"
                   then pdf else docx in
    match decoder f with
    | inl e => parse_resume pdf docx f = inl (ParseFailed e)
    | inr text => exists resume,
        parse_resume pdf docx f = inr resume /\
        raw_text resume = clean_text (Some text)
    end.
Proof.
  intros pdf docx f Hv decoder. unfold decoder.
  cbn [validate_file_upload] in Hv.
  destruct (Py.mem (get_file_extension (name f)) SUPPORTED_FILE_TYPES) eqn:Em;
    [|discriminate Hv].
  unfold parse_resume.
  destruct (String.eqb (get_file_extension (name f)) ".pdf") eqn:Ep.
  - destruct (pdf f) as [e | text]; [reflexivity|].
    eexists. split; reflexivity.
  - assert (Ed : Py.mem (get_file_extension (name f)) [".docx"; ".doc"] = true).
    { unfold SUPPORTED_FILE_TYPES, Py.mem in Em. cbn [existsb] in Em.
      rewrite Ep in Em. exact Em. }
    rewrite Ed. destruct (docx f) as [e | text]; [reflexivity|].
    eexists. split; reflexivity.
Qed.

Lemma X26_validated_file_reaches_a_decoder_witness :
  valid (validate_file_upload (Some {| name := "cv.docx"; size := 900 |})) = true /\
  parse_resume (fun _ => inr "unused") (fun _ => inl (TextExtractionFailed "broken"))
    {| name := "cv.docx"; size := 900 |}
  = inl (ParseFailed (TextExtractionFailed "broken")).
Proof.
  assert (Hv : valid (validate_file_upload (Some {| name := "cv.docx"; size := 900 |}))
               = true) by reflexivity.
  split; [exact Hv|].
  exact (X26_validated_file_reaches_a_decoder
           (fun _ => inr "unused") (fun _ => inl (TextExtractionFailed "broken"))
           {| name := "cv.docx"; size := 900 |} Hv).
Defined.

End ValidatedUpload.
